(* ===== verification/_CoqProject ===== *)
-Q . S2P
Prelude.v
LagGrid.v
RankSwap.v
Stats.v
Autocorrelation.v
Spectral.v
Generator.v
Loaders.v
Quantizer.v
Pipeline.v
Click.v
Cli.v
Display.v
