(* ===== verification/Prelude.v ===== *)
(** * A verification library for the RoughGAN surface generator

    The program.  [src/src/roughgan/data/generators.py] synthesises
    random rough surfaces, [n_points x n_points] height maps, with a
    prescribed RMS height, skewness and correlation lengths.  Its parts:
    - the autocorrelation models [NonGaussianSurfaceGenerator.autocorrelation]
      (a generalised exponential decay) and
      [BesselNonGaussianSurfaceGenerator.autocorrelation] (the same decay
      times the Bessel function J0);
    - [SurfaceGenerator.generate_surface]: it tabulates the model on an
      integer lag grid (lines 54-67), filters uniform white noise in the
      Fourier domain (lines 70-88), normalises the field to the target
      RMS (lines 90-100), draws an independent Pearson-III sample
      (lines 103-108) and performs the rank-order swap (lines 110-123);
    - the driver protocol [__call__] / [__len__] / [__iter__]
      (lines 29-39): calling a generator with a count stores the count
      in the generator object and returns that same object, which is
      iterated lazily;
    - callers: [roughgan/data/loaders.py] ([load_dataset_from_generator])
      and the command line [roughml/cli/dataset.py].
    Beside the generator, [roughgan/data/loaders.py] loads datasets from
    a zip archive of [.mat] files extracted to a cache directory and
    from serialized [.pt] datasets, and
    [roughgan/content/quantization.py] bins a batch of surfaces with
    sklearn's [KBinsDiscretizer] ([KBinsDiscretizerQuantizer]), fitting
    it once on the batch and applying it to single surfaces after.

    The library (files in dependency order):
    - [Prelude] (this file): Python's exceptions as the type [pyexc],
      an int-or-[None] argument [pyval], a result type [res] with a bind notation in [py_scope], Python's
      floor division [py_floordiv], [range] ([py_range]), numpy's index
      normalisation ([np_index]), the loop combinator [for_each] that
      models a Python [for] statement whose body may raise, the
      [alter_all] lemmas on in-place list updates shared by every array
      model, the hint databases [roughgan] and [res_rw] and the tactic
      [res_simpl].
    - [LagGrid]: lines 54-67 of [generate_surface], the lag grid [R]
      with [np.zeros], the lag step [dtx] and the nested [for] loops
      writing [R[tx + txmax, ty + tymax]], for any autocorrelation
      model.
    - [RankSwap]: lines 41-44 and 110-123, the rank-order swap over any
      decidable total order: column-major flatten and reshape, argsort
      (an interface [ArgSort] with a stable instance), [np.sort], the
      fancy-index scatter and the final transpose.
    - [Stats]: lines 74-79 and 90-100 over the reals: numpy's mean,
      population standard deviation and the two normalisations.
    - [Autocorrelation]: lines 139-145 and 165-169 over the reals with
      Python's division errors and numpy's power and exponential at
      infinity; J0 is defined by its power series.
    - [Spectral]: lines 69-71 and 81-88: complex numbers as pairs of
      reals, [np.fft.fft2] and [np.fft.ifft2] written out as the
      two-dimensional discrete Fourier sums, the amplitude spectrum
      [AMPR] and the filtered noise [np.real(ifft2(fft2(X) * sqrt(AMPR)))].
    - [Generator]: the driver as a small machine: the generator object
      (its stored length), Python generator frames and the random state,
      with the operations [__call__], [__len__], [iter] and [next], the
      loader's [for] loop and the command line's [tqdm(generator(n))];
      [gen_seq], the loop of [__iter__] run eagerly, is the reference
      the frames are proved to implement.  [generate_surface] is a
      parameter here.
    - [Loaders]: lines 13-64 of [loaders.py] over an explicit file
      system (the existing directories and the [iterdir] order of
      each): extraction into the cache, [itertools.islice], pathlib's
      [suffix], the [[:limit]] slice, the tuple [limit]; reading a
      [.mat] or [.pt] file is a parameter.  A generator function is the
      list of values it yields with the exception that ends it.
    - [Quantizer]: [quantization.py]: numpy arrays as a shape and a
      row-major element list with [reshape]; the discretizer as an
      interface (a class of the calls the quantizer makes and a class
      of laws); [KBinsDiscretizerQuantizer] against the interface; a
      model of sklearn's [KBinsDiscretizer] (three strategies, three
      encodings) as an instance whose laws are proved.
    - [Pipeline]: [generate_surface] (lines 50-123) composed from the
      files above in the order the code runs, the two generator classes
      as an inductive with method dispatch, float64 cells as [option R]
      ([None] is [nan]) ordered as numpy sorts them, numpy's global
      random state threaded through the two samplers, and the driver of
      [Generator] instantiated with it.
    - [Click]: the parts of click the command line uses: option
      records, the flag table, the token loop with fuel, parameter
      processing in invocation order, Python's [int()] on strings.
    - [Cli]: [roughml/cli/dataset.py]: the option table as data, the
      group's dispatch to [standard] and [besel], the group callback
      with [logging.basicConfig] in click's invocation order (a small
      model of the [logging] module's root logger), the generators the
      commands build and [generate] up to [dataset.to_pt].
    - [Display]: what the program prints: Python's [str] on ints and
      tuples, [SurfaceGenerator.__str__] and [__repr__],
      [KBinsDiscretizerQuantizer.__str__] with sklearn's estimator
      [repr], and the [__main__] demos of generators.py (two surfaces
      shown, the random state threaded between them) and of
      quantization.py.

    What the theorems show (the claim id is in the doc comment of each
    theorem):
    - the end-to-end pipeline: with valid parameters a surface of the
      right shape whose values are exactly the Pearson sample
      ([generate_surface_values]); every exception it raises and where
      ([generate_surface_error]); the noise normalisation of lines 74-79
      has no effect ([gaussian_field_noise_normalisation], by linearity
      of the Fourier steps and the affine invariance of the final
      normalisation); an all-[nan] Gaussian field still yields a finite
      surface ([generate_surface_nan_masked]); the loader collects
      exactly [limit] surfaces ([load_dataset_from_generator_valid]);
    - the rank swap returns a permutation of the reference sample placed
      in the rank order of the Gaussian field, transposed;
    - the lag step is always 1 and the loops fill every cell exactly
      once with a closed-form lag, with the odd-size and size-1 shapes
      the spec does not describe;
    - the normalisation gives mean 0 and standard deviation [|rms|],
      forgets positive affine maps, and is not finite on a constant
      field;
    - the autocorrelation at the origin is [rms^2] only when
      [alpha > 0]; errors for zero lengths and periods;
    - the driver yields exactly the stored count, reads the count at the
      first [next], restarts on a new [iter], keeps its configuration,
      and fails with [TypeError] on the loader's default [limit=None];
      the lazy frames refine the eager loop [gen_seq], exceptions and
      random state included ([collect_refines_gen_seq]);
    - the file loaders: the zip loader's [limit] counts directory
      entries, not surfaces, and a cache directory is never refreshed,
      so a second archive returns the first one's surfaces; a negative
      [limit] drops surfaces from the end; an int [limit] bounds both
      counts of [load_multiple_datasets_from_pt];
    - the quantizer: for every lawful discretizer it keeps the batch's
      shape and maps one surface to one surface's shape (the contract
      of the spec's section 6); the sklearn model is lawful; every
      quantized value is a bin index below [n_bins]; with the sklearn
      model, [quantizer(surfaces[i])] is [quantizer.surfaces[i]] for
      every training surface; [encode="onehot"] and a tensor of another
      size raise [ValueError]; a quantizer built on a one-dimensional
      batch can never be called ([reshape( *())]); [__call__] is
      monotone in its input;
    - the command line: [-s] sets the skewness, not the surface count;
      every numeric option rejects a non-integer value, whatever flag
      names it and whatever command follows; the default invocation
      generates 10 surfaces of 128 x 128 points and saves them at the
      given path; the parser's loop terminates within its fuel; the
      default [--log NOTSET] enables every level, whatever the
      sub-command's arguments; for every command line, logging is set
      up before the sub-command checks its arguments (so it is set up
      even when they are rejected), and only once per process;
    - what is printed: [int(str(z)) == z] (click's [int()] reads back
      what [str] prints, a lemma); two int-parameter generators print
      alike exactly when their class names and parameters are equal, so
      [__str__] hides the Bessel periods; the
      quantizer's demo raises [NameError] ([torch] is never imported)
      and would print [{'underlying': KBinsDiscretizer(encode='ordinal'),
      'shape': (10, 4, 4)}] if it were; the generators' demo shows two
      [128 x 128] surfaces.

    Bounds and fuel: loops over [range] are structural over the list of
    values [range] produces, so no fuel is needed there; draining an
    iterator ([Generator.drain]) takes fuel, and the theorems give the
    fuel ([k + 1] for [k] surfaces) that is enough; click's token loop
    ([Click.parse_args]) runs with one round per token plus one, which
    [parse_args_terminates] shows is enough.  The loaders' loops and
    sklearn's [fit] and [transform] are structural over the lists they
    walk.  Integers of the
    grid loops are Python ints ([Z], unbounded); floats are reals, so
    rounding is not modelled, while [nan] and [inf] are where the code
    produces them (a zero standard deviation, [0 ** negative]).

    Not modelled: the random sources ([np.random.rand] and the Pearson
    III sampler are parameters; scipy's argument check is modelled),
    floating-point rounding (in the Fourier sums and in sklearn's bin
    edges), the pixels [as_grayscale_image] draws, Python's [repr] of
    floats and the text numpy and torch print for arrays (parameters
    or opaque values), the contents of files ([sio.loadmat] and
    [NanoroughSurfaceDataset.from_pt] are parameters), sklearn's input
    validation of non-finite values and its subsampling of more than
    200000 rows for quantiles, [KMeans] itself (only the centres it
    returns are used), the dataset container beyond the calls the
    loaders and [generate] make (its module is not among the sources),
    the text the rich logging handler writes, and the module imports
    (the sources import [roughml.data.generators], [roughgan.plot] and
    [roughgan.shared.configuration], which are not among them). *)

From stdpp Require Export base list sorting sets.
From Stdlib Require Export ZArith Lia.

(** ** Python exceptions and results *)

Inductive pyexc :=
| ZeroDivisionError
| ValueError
| IndexError
| TypeError
| StopIteration
| AttributeError
| KeyError
| RuntimeError
| NameError.

(** A Python value passed as a length or a limit: an int, or [None]. *)
Inductive pyval :=
| PInt (z : Z)
| PNone.

Inductive res (A : Type) : Type :=
| Ok (a : A)
| Err (e : pyexc).
Arguments Ok {A} a.
Arguments Err {A} e.

Definition res_bind {A B} (c : res A) (k : A -> res B) : res B :=
  match c with
  | Ok a => k a
  | Err e => Err e
  end.

Declare Scope py_scope.
Delimit Scope py_scope with py.
Notation "x <- c1 ;; c2" := (res_bind c1 (fun x => c2))
  (at level 100, c1 at next level, right associativity) : py_scope.
Open Scope py_scope.

(** ** Python integer operations *)

(** [a // b]: floor division ([Z.div] rounds toward minus infinity,
    as Python does); [ZeroDivisionError] when [b = 0]. *)
Definition py_floordiv (a b : Z) : res Z :=
  if Z.eqb b 0 then Err ZeroDivisionError else Ok (a / b)%Z.

(** The length of [range(lo, hi, step)] as CPython computes it. *)
Definition py_range_len (lo hi step : Z) : Z :=
  if (0 <? step)%Z then (if (lo <? hi)%Z then (hi - lo - 1) / step + 1 else 0)%Z
  else (if (hi <? lo)%Z then (lo - hi - 1) / (- step) + 1 else 0)%Z.

(** [range(lo, hi, step)]: [ValueError] for a zero step. *)
Definition py_range (lo hi step : Z) : res (list Z) :=
  if Z.eqb step 0 then Err ValueError
  else Ok ((fun k => lo + Z.of_nat k * step)%Z <$> seq 0 (Z.to_nat (py_range_len lo hi step))).

(** A numpy index [i] into an axis of length [n]: negative indices count
    from the end, anything outside [[-n, n)] raises [IndexError]. *)
Definition np_index (n : nat) (i : Z) : res nat :=
  if ((- Z.of_nat n <=? i) && (i <? Z.of_nat n))%Z
  then Ok (Z.to_nat (if (i <? 0)%Z then i + Z.of_nat n else i)%Z)
  else Err IndexError.

(** ** The [for] statement *)

(** [for x in xs: s = body(x, s)], where the body may raise. *)
Fixpoint for_each {X S} (xs : list X) (body : X -> S -> res S) (s : S) : res S :=
  match xs with
  | [] => Ok s
  | x :: xs' => s' <- body x s ;; for_each xs' body s'
  end.

(** ** Arrays *)

(** A two-dimensional numpy array of shape [(r, c)], stored by rows. *)
Definition has_shape {A} (r c : nat) (M : list (list A)) : Prop :=
  length M = r /\ Forall (fun row => length row = c) M.

(** [M[i, j]] on an array stored by rows, [None] out of range. *)
Definition lookup2 {A} (M : list (list A)) (i j : nat) : option A :=
  M !! i ≫= fun row => row !! j.

(** ** In-place updates of a list at a sequence of indices *)

Section AlterAll.
Context {X A : Type} (idx : X -> nat) (upd : X -> A -> A).

(** [for x in xs: l[idx x] = upd x (l[idx x])]. *)
Definition alter_all (xs : list X) (l : list A) : list A :=
  foldl (fun l x => alter (upd x) (idx x) l) l xs.
End AlterAll.

(** ** Lemmas *)

Lemma res_bind_Ok {A B} (a : A) (k : A -> res B) : res_bind (Ok a) k = k a.
Proof. reflexivity. Qed.

Lemma res_bind_Err {A B} (e : pyexc) (k : A -> res B) : res_bind (Err e) k = Err e.
Proof. reflexivity. Qed.

Create HintDb roughgan.
Create Rewrite HintDb res_rw.
#[export] Hint Rewrite @res_bind_Ok @res_bind_Err : res_rw.

(** Reduce the binds whose head is a value, without unfolding anything else. *)
Ltac res_simpl := autorewrite with res_rw; cbn [res_bind].

(** A loop whose body succeeds on every element, keeping an invariant
    [P] of the state, is the left fold of the body's result. *)
Lemma for_each_inv {X S} (P : S -> Prop) (g : X -> S -> S)
    (body : X -> S -> res S) (xs : list X) (s : S) :
  P s ->
  (forall x s, x ∈ xs -> P s -> body x s = Ok (g x s) /\ P (g x s)) ->
  for_each xs body s = Ok (foldl (fun s x => g x s) s xs)
  /\ P (foldl (fun s x => g x s) s xs).
Proof.
  revert s. induction xs as [|x xs IH]; intros s Hs Hbody; [done|].
  simpl. destruct (Hbody x s) as [-> Hs']; [apply elem_of_cons; by left|done|].
  apply IH; [done|]. intros y t Hy. apply Hbody. apply elem_of_cons. by right.
Qed.

Lemma for_each_Err_head {X S} (body : X -> S -> res S) x xs s e :
  body x s = Err e -> for_each (x :: xs) body s = Err e.
Proof. intros H. simpl. by rewrite H. Qed.

Section AlterAllLemmas.
Context {X A : Type} (idx : X -> nat) (upd : X -> A -> A).

Lemma alter_all_length xs l : length (alter_all idx upd xs l) = length l.
Proof.
  revert l. induction xs as [|x xs IH]; intros l; [done|].
  simpl. rewrite IH. apply length_alter.
Qed.

Lemma alter_all_lookup_notin xs l k :
  k ∉ idx <$> xs -> alter_all idx upd xs l !! k = l !! k.
Proof.
  revert l. induction xs as [|x xs IH]; intros l Hk; [done|].
  simpl. rewrite fmap_cons, not_elem_of_cons in Hk. destruct Hk as [Hx Hk].
  rewrite IH by done. rewrite list_lookup_alter. case_decide; [congruence|done].
Qed.

Lemma alter_all_lookup_in xs l x :
  NoDup (idx <$> xs) -> x ∈ xs ->
  alter_all idx upd xs l !! idx x = upd x <$> l !! idx x.
Proof.
  revert l. induction xs as [|y xs IH]; intros l Hnd Hx; [set_solver|].
  rewrite fmap_cons in Hnd. apply NoDup_cons in Hnd as [Hy Hnd].
  simpl. apply elem_of_cons in Hx as [->|Hx].
  - rewrite alter_all_lookup_notin by done.
    rewrite list_lookup_alter. by case_decide.
  - rewrite IH by done. rewrite list_lookup_alter. case_decide as Heq; [|done].
    exfalso. apply Hy. rewrite Heq. by apply list_elem_of_fmap_2.
Qed.
End AlterAllLemmas.

(** Successive updates of one cell are one update by their composition. *)
Lemma foldl_alter_same {X A} (h : X -> A -> A) (a : nat) (xs : list X) (l : list A) :
  foldl (fun l x => alter (h x) a l) l xs
  = alter (fun r => foldl (fun r x => h x r) r xs) a l.
Proof.
  revert l. induction xs as [|x xs IH]; intros l; simpl;
    apply list_eq; intros i; destruct (decide (a = i)) as [<-|Hne].
  - rewrite list_lookup_alter_eq. by destruct (l !! a).
  - by rewrite list_lookup_alter_ne.
  - rewrite IH, !list_lookup_alter_eq. by destruct (l !! a).
  - by rewrite IH, !list_lookup_alter_ne.
Qed.

(** [range(lo, hi)] with step 1 lists [lo, lo + 1, ..., hi - 1]. *)
Lemma py_range_step1 lo hi :
  (lo <= hi)%Z ->
  py_range lo hi 1 = Ok ((fun k => lo + Z.of_nat k)%Z <$> seq 0 (Z.to_nat (hi - lo))).
Proof.
  intros Hle. unfold py_range, py_range_len. simpl.
  f_equal. replace (Z.to_nat (if (lo <? hi)%Z then ((hi - lo - 1) / 1 + 1)%Z else 0%Z))
    with (Z.to_nat (hi - lo)).
  - apply list_fmap_ext. intros _ k _. lia.
  - destruct (Z.ltb_spec lo hi); [rewrite Z.div_1_r|]; f_equal; lia.
Qed.

(** The values of [range(lo, hi)] are the integers of [[lo, hi)]. *)
Lemma elem_of_range_step1 lo hi x :
  x ∈ (fun k => lo + Z.of_nat k)%Z <$> seq 0 (Z.to_nat (hi - lo)) <-> (lo <= x < hi)%Z.
Proof.
  rewrite list_elem_of_fmap. split.
  - intros [k [-> Hk]]. apply elem_of_seq in Hk. lia.
  - intros Hx. exists (Z.to_nat (x - lo)). rewrite elem_of_seq. lia.
Qed.

Lemma NoDup_range_step1 lo hi :
  NoDup ((fun k => lo + Z.of_nat k)%Z <$> seq 0 (Z.to_nat (hi - lo))).
Proof. apply NoDup_fmap_2_strong; [intros; lia|apply NoDup_seq]. Qed.

(** A numpy index inside [[-n, n)] counts from the end when negative. *)
Lemma np_index_in n i :
  (- Z.of_nat n <= i < Z.of_nat n)%Z ->
  np_index n i = Ok (Z.to_nat (if (i <? 0)%Z then i + Z.of_nat n else i)%Z).
Proof.
  intros Hi. unfold np_index.
  by replace ((- Z.of_nat n <=? i) && (i <? Z.of_nat n))%Z with true by lia.
Qed.

Lemma np_index_out n i :
  ~ (- Z.of_nat n <= i < Z.of_nat n)%Z -> np_index n i = Err IndexError.
Proof.
  intros Hi. unfold np_index.
  by replace ((- Z.of_nat n <=? i) && (i <? Z.of_nat n))%Z with false by lia.
Qed.

(** Updating every cell of a list once, through a bijection between the
    loop values and the indices, is an indexed map. *)
Lemma alter_all_bij {X A} (idx : X -> nat) (inv : nat -> X) (upd : X -> A -> A)
    (xs : list X) (l : list A) :
  NoDup (idx <$> xs) ->
  (forall x, x ∈ xs -> idx x < length l) ->
  (forall i, i < length l -> inv i ∈ xs /\ idx (inv i) = i) ->
  alter_all idx upd xs l = imap (fun i a => upd (inv i) a) l.
Proof.
  intros Hnd Hlt Hinv. apply list_eq. intros i. rewrite list_lookup_imap.
  destruct (decide (i < length l)) as [Hi|Hi].
  - destruct (Hinv i Hi) as [Hx Hix]. rewrite <- Hix at 1.
    rewrite alter_all_lookup_in by done. by rewrite Hix.
  - rewrite alter_all_lookup_notin.
    + rewrite lookup_ge_None_2; [done|lia].
    + intros Hin. apply list_elem_of_fmap in Hin as [x [-> Hx]].
      specialize (Hlt x Hx). lia.
Qed.

Lemma imap_replicate {A B} (f : nat -> A -> B) (n : nat) (a : A) :
  imap f (replicate n a) = (fun i => f i a) <$> seq 0 n.
Proof.
  apply list_eq. intros i. rewrite list_lookup_imap, list_lookup_fmap.
  destruct (decide (i < n)).
  - rewrite lookup_replicate_2, lookup_seq_lt by done. done.
  - rewrite !lookup_ge_None_2; rewrite ?length_replicate, ?length_seq; (done || lia).
Qed.

(** [lia] after turning integer divisions into their equations. *)
Ltac zlia := Z.div_mod_to_equations; lia.

(** Case on every integer comparison of the goal, then [zlia]. *)
Ltac ltb_lia :=
  repeat match goal with
  | |- context [(?a <? ?b)%Z] => destruct (Z.ltb_spec a b)
  | |- context [(?a =? ?b)%Z] => destruct (Z.eqb_spec a b)
  end; zlia.

Lemma has_shape_alter {A} r c (f : list A -> list A) a (M : list (list A)) :
  has_shape r c M -> (forall row, length row = c -> length (f row) = c) ->
  has_shape r c (alter f a M).
Proof.
  intros [Hr Hc] Hf. split; [by rewrite length_alter|].
  apply Forall_alter; [done|]. intros row _. apply Hf.
Qed.

Lemma has_shape_lookup {A} r c (M : list (list A)) i :
  has_shape r c M -> i < r -> exists row, M !! i = Some row /\ length row = c.
Proof.
  intros [Hr Hc] Hi.
  assert (is_Some (M !! i)) as [row Hrow] by (apply lookup_lt_is_Some_2; lia).
  exists row. split; [done|]. exact (Forall_lookup_1 (fun row => length row = c) M i row Hc Hrow).
Qed.

(** ** Index arithmetic of column-major and row-major layouts *)

Lemma divmod_idx r i j : i < r -> (i + r * j) mod r = i /\ (i + r * j) / r = j.
Proof.
  intros Hi. split.
  - rewrite Nat.mul_comm, Nat.Div0.mod_add. apply Nat.mod_small. lia.
  - rewrite (Nat.add_comm i), Nat.mul_comm, Nat.div_add_l by lia.
    rewrite Nat.div_small by lia. lia.
Qed.

Lemma idx_divmod r k : 0 < r -> k = k mod r + r * (k / r) /\ k mod r < r.
Proof.
  intros Hr. split; [|apply Nat.mod_upper_bound; lia].
  rewrite (Nat.div_mod_eq k r) at 1. lia.
Qed.

Lemma divmod_lt r c k : 0 < r -> k < r * c -> k / r < c.
Proof. intros Hr Hk. apply Nat.Div0.div_lt_upper_bound. lia. Qed.

(** ** Lists read through total lookups *)

Section TotalLookup.
Context {A : Type} `{Inhabited A}.

Lemma fmap_lookup_total_seq (l : list A) : (fun i => l !!! i) <$> seq 0 (length l) = l.
Proof.
  apply list_eq. intros i. rewrite list_lookup_fmap.
  destruct (decide (i < length l)).
  - rewrite lookup_seq_lt by done. simpl. by rewrite list_lookup_lookup_total_lt.
  - rewrite !lookup_ge_None_2; rewrite ?length_seq; [done|lia..].
Qed.

(** Two lists related through a permutation of the indices [σ]
    ([l1[σ[k]] = l2[k]]) are permutations of each other. *)
Lemma Permutation_by_indices (l1 l2 : list A) (σ : list nat) :
  σ ≡ₚ seq 0 (length l1) -> length l2 = length l1 ->
  (forall k i, σ !! k = Some i -> l1 !! i = l2 !! k) -> l1 ≡ₚ l2.
Proof.
  intros Hσ Hlen Hidx.
  assert (Hl2 : l2 = (fun i => l1 !!! i) <$> σ).
  { apply list_eq. intros k. rewrite list_lookup_fmap.
    destruct (σ !! k) as [i|] eqn:Hk; simpl.
    - rewrite <- (Hidx k i Hk). apply list_lookup_lookup_total_lt.
      assert (Hi : i ∈ seq 0 (length l1)) by (rewrite <- Hσ; by eapply list_elem_of_lookup_2).
      apply elem_of_seq in Hi. lia.
    - apply lookup_ge_None_2. apply lookup_ge_None_1 in Hk.
      apply Permutation_length in Hσ. rewrite length_seq in Hσ. lia. }
  rewrite Hl2, Hσ. by rewrite fmap_lookup_total_seq.
Qed.

(** Arrays of the same shape with the same cells are equal. *)
Lemma mat_eq r c (M1 M2 : list (list A)) :
  has_shape r c M1 -> has_shape r c M2 ->
  (forall i j, i < r -> j < c -> lookup2 M1 i j = lookup2 M2 i j) -> M1 = M2.
Proof.
  intros H1 H2 Hij. apply list_eq. intros i.
  destruct (decide (i < r)) as [Hi|Hi].
  - destruct (has_shape_lookup r c M1 i H1 Hi) as [row1 [E1 L1]].
    destruct (has_shape_lookup r c M2 i H2 Hi) as [row2 [E2 L2]].
    rewrite E1, E2. f_equal. apply list_eq. intros j.
    destruct (decide (j < c)) as [Hj|Hj].
    + specialize (Hij i j Hi Hj). unfold lookup2 in Hij. by rewrite E1, E2 in Hij.
    + rewrite !lookup_ge_None_2; [done|lia..].
  - destruct H1 as [R1 _], H2 as [R2 _]. rewrite !lookup_ge_None_2; [done|lia..].
Qed.

Lemma lookup2_total r c (M : list (list A)) i j :
  has_shape r c M -> i < r -> j < c -> lookup2 M i j = Some ((M !!! i) !!! j).
Proof.
  intros HM Hi Hj. destruct (has_shape_lookup r c M i HM Hi) as [row [E L]].
  unfold lookup2. rewrite E. simpl. rewrite (list_lookup_total_correct M i row E).
  apply list_lookup_lookup_total_lt. lia.
Qed.

(** Row-major reading: [concat M] lists the rows one after the other. *)
Lemma lookup_concat_rows r c (M : list (list A)) i j :
  has_shape r c M -> i < r -> j < c -> concat M !! (i * c + j) = lookup2 M i j.
Proof.
  intros [Hr Hc]. revert r i Hr. induction M as [|row M IH]; intros r i Hr Hi Hj;
    simpl in *; [lia|].
  apply Forall_cons in Hc as [Hrow Hc]. destruct i as [|i].
  - unfold lookup2. simpl. rewrite lookup_app_l by lia. done.
  - rewrite lookup_app_r by lia. replace (S i * c + j - length row) with (i * c + j) by lia.
    apply (IH Hc (r - 1)); lia.
Qed.
Lemma length_concat_shape r c (M : list (list A)) :
  has_shape r c M -> length (concat M) = r * c.
Proof.
  intros [Hr Hc]. revert r Hr. induction Hc as [|row M Hrow Hc IH]; intros r Hr;
    simpl in *; [lia|].
  rewrite length_app, (IH (r - 1)) by lia. nia.
Qed.
End TotalLookup.

Lemma StronglySorted_lookup {A} (R : relation A) (l : list A) i j a b :
  StronglySorted R l -> i < j -> l !! i = Some a -> l !! j = Some b -> R a b.
Proof.
  intros Hs. revert i j. induction Hs as [|x l Hs IH Hx]; intros i j Hij Ha Hb; [done|].
  destruct i as [|i], j as [|j]; simpl in *; [lia| |lia|].
  - simplify_eq. rewrite Forall_forall in Hx. apply Hx. by eapply list_elem_of_lookup_2.
  - apply (IH i j); [lia|done|done].
Qed.

(** A total lookup commutes with a map that sends the default to the
    default. *)
Lemma list_lookup_total_fmap_inh {X Y} `{Inhabited X, Inhabited Y} (f : X -> Y)
    (l : list X) i :
  f inhabitant = inhabitant -> (f <$> l) !!! i = f (l !!! i).
Proof. intros Hf. rewrite !list_lookup_total_alt, list_lookup_fmap. by destruct (l !! i). Qed.

Lemma fmap_zip_with {X Y Z W} (g : Z -> W) (f : X -> Y -> Z) l k :
  g <$> zip_with f l k = zip_with (fun x y => g (f x y)) l k.
Proof. revert k. induction l as [|x l IH]; intros [|y k]; simpl; by rewrite ?IH. Qed.

(** An [n x n] array built cell by cell. *)
Lemma has_shape_grid {X} n (g : nat -> nat -> X) :
  has_shape n n ((fun k => (fun l => g k l) <$> seq 0 n) <$> seq 0 n).
Proof.
  split; [by rewrite length_fmap, length_seq|].
  apply Forall_fmap, Forall_forall. intros k _. simpl. by rewrite length_fmap, length_seq.
Qed.

Lemma has_shape_fmap2 {X Y} r c (f : X -> Y) (M : list (list X)) :
  has_shape r c M -> has_shape r c ((fun row : list X => f <$> row) <$> M).
Proof.
  intros [Hr Hc]. split; [by rewrite length_fmap|].
  apply Forall_fmap. eapply Forall_impl; [exact Hc|]. intros row Hrow. simpl.
  by rewrite length_fmap.
Qed.

Lemma has_shape_replicate {X} r c (x : X) : has_shape r c (replicate r (replicate c x)).
Proof.
  split; [apply length_replicate|]. apply Forall_replicate, length_replicate.
Qed.

Lemma concat_fmap2 {X Y} (f : X -> Y) (M : list (list X)) :
  concat ((fun row : list X => f <$> row) <$> M) = f <$> concat M.
Proof.
  induction M as [|row M IH]; [done|]. rewrite fmap_cons. cbn [concat].
  by rewrite IH, fmap_app.
Qed.
