(* ===== verification/LagGrid.v ===== *)
(** * LagGrid: the autocorrelation grid of [generate_surface]

    Lines 54-67 of [src/src/roughgan/data/generators.py]: [np.zeros],
    the lag bounds [txmin = -n // 2], [txmax = n // 2], the lag steps
    [dtx], [dty] and the two nested [for] loops that store
    [self.autocorrelation(tx, ty)] at [R[tx + txmax, ty + tymax]].  The
    autocorrelation model is a parameter of the section (it is defined in
    [Autocorrelation]); it may raise, as the Python method does.  The
    grid is a list of rows. *)

From S2P Require Import Prelude.

Section LagGrid.
Context {A : Type} (zero : A) (autocorrelation : Z -> Z -> res A).

(** [np.zeros((n, n))]: numpy refuses a negative dimension. *)
Definition np_zeros (n : Z) : res (list (list A)) :=
  if (n <? 0)%Z then Err ValueError
  else Ok (replicate (Z.to_nat n) (replicate (Z.to_nat n) zero)).

(** [R[i, j] = v] on a two-dimensional array stored by rows. *)
Definition np_setitem2 (R : list (list A)) (i j : Z) (v : A) : res (list (list A)) :=
  a <- np_index (length R) i ;;
  match R !! a with
  | Some row => b <- np_index (length row) j ;; Ok (alter (alter (fun _ => v) b) a R)
  | None => Err IndexError
  end.

(** [dtx = (txmax - txmin) // n_points] with [txmin = -n_points // 2]
    (Python reads [-n // 2] as [(-n) // 2]) and [txmax = n_points // 2]. *)
Definition lag_step (n : Z) : res Z := py_floordiv (n / 2 - (- n) / 2) n.

(** The body of the inner loop:
    [R[tx + txmax, ty + tymax] = self.autocorrelation(tx, ty)];
    Python evaluates the right-hand side before the subscripts. *)
Definition set_cell (txmax tymax tx ty : Z) (R : list (list A)) : res (list (list A)) :=
  v <- autocorrelation tx ty ;; np_setitem2 R (tx + txmax) (ty + tymax) v.

(** The body of the outer loop: [for ty in range(tymin, tymax, dty)];
    the inner [range] is built at every outer iteration. *)
Definition fill_row (tymin tymax dty txmax tx : Z) (R : list (list A)) :
    res (list (list A)) :=
  tys <- py_range tymin tymax dty ;;
  for_each tys (fun ty R => set_cell txmax tymax tx ty R) R.

(** Lines 54-67: the grid [R] together with the steps [dtx], [dty]
    (line 71 uses them again). *)
Definition autocorrelation_grid (n : Z) : res (list (list A) * Z * Z) :=
  R <- np_zeros n ;;
  let txmin := ((- n) / 2)%Z in
  let txmax := (n / 2)%Z in
  let tymin := ((- n) / 2)%Z in
  let tymax := (n / 2)%Z in
  dtx <- lag_step n ;;
  dty <- lag_step n ;;
  txs <- py_range txmin txmax dtx ;;
  R <- for_each txs (fun tx R => fill_row tymin tymax dty txmax tx R) R ;;
  Ok (R, dtx, dty).

(** The row (or column) that [R[tx + txmax, ...]] writes: numpy wraps
    the index [-1] to the last row. *)
Definition lag_index (n tx : Z) : nat :=
  Z.to_nat (if (tx + n / 2 <? 0)%Z then tx + n / 2 + n else tx + n / 2)%Z.

(** The lag stored in row [i]: [i - n // 2], except the last row of an
    odd grid, which holds the most negative lag [-(n + 1) / 2]. *)
Definition lag (n i : Z) : Z :=
  if (i - n / 2 <? n / 2)%Z then (i - n / 2)%Z else (i - n / 2 - n)%Z.

(** The values of [range(txmin, txmax)] once the step is known to be 1. *)
Definition lag_values (n : Z) : list Z :=
  (fun k => (- n) / 2 + Z.of_nat k)%Z <$> seq 0 (Z.to_nat (n / 2 - (- n) / 2)).

(** The grid the loops produce when the model [g] never raises. *)
Definition grid_table (g : Z -> Z -> A) (n : Z) : list (list A) :=
  (fun i => (fun j => g (lag n (Z.of_nat i)) (lag n (Z.of_nat j))) <$> seq 0 (Z.to_nat n))
    <$> seq 0 (Z.to_nat n).
End LagGrid.

(** Two models on integer lags, used by the witnesses at the end. *)
Definition lag_code (tx ty : Z) : Z := (10 * tx + ty)%Z.
Definition sq_lag (tx ty : Z) : Z := (tx * tx + ty * ty)%Z.

Section LagGridProofs.
Context {A : Type} (zero : A).

Lemma lag_step_eq n : n <> 0%Z -> lag_step n = Ok 1%Z.
Proof.
  intros Hn. unfold lag_step, py_floordiv.
  destruct (Z.eqb_spec n 0); [done|].
  replace (n / 2 - (- n) / 2)%Z with n by zlia. by rewrite Z.div_same.
Qed.

(** The lag step [(txmax - txmin) // n] is exactly 1 for every
    non-zero grid size: [txmax - txmin = n // 2 - (-n) // 2 = n]. *)
Lemma lag_step_one n : n <> 0%Z -> lag_step n = Ok 1%Z.
Proof. apply lag_step_eq. Qed.

Lemma lag_bounds n i : (0 <= i < n)%Z -> ((- n) / 2 <= lag n i < n / 2)%Z.
Proof. intros Hi. unfold lag. destruct (Z.ltb_spec (i - n / 2) (n / 2)); zlia. Qed.

Lemma lag_index_lag n i : (0 <= i < n)%Z -> lag_index n (lag n i) = Z.to_nat i.
Proof.
  intros Hi. unfold lag. destruct (Z.ltb_spec (i - n / 2) (n / 2));
    unfold lag_index; ltb_lia.
Qed.

Lemma lag_index_lt n tx :
  (0 < n)%Z -> ((- n) / 2 <= tx < n / 2)%Z -> lag_index n tx < Z.to_nat n.
Proof. intros Hn Htx. unfold lag_index. ltb_lia. Qed.

Lemma lag_index_inj n tx tx' :
  ((- n) / 2 <= tx < n / 2)%Z -> ((- n) / 2 <= tx' < n / 2)%Z ->
  lag_index n tx = lag_index n tx' -> tx = tx'.
Proof. unfold lag_index. ltb_lia. Qed.

(** [R[tx + txmax, ...]] addresses row [lag_index n tx]. *)
Lemma np_index_lag n tx :
  (0 < n)%Z -> ((- n) / 2 <= tx < n / 2)%Z ->
  np_index (Z.to_nat n) (tx + n / 2) = Ok (lag_index n tx).
Proof.
  intros Hn Htx. rewrite np_index_in by zlia. unfold lag_index.
  by rewrite Z2Nat.id by zlia.
Qed.

(** [lag_index] is a bijection from the lags onto the rows. *)
Lemma lag_values_bij n :
  (0 < n)%Z ->
  NoDup (lag_index n <$> lag_values n)
  /\ (forall tx, tx ∈ lag_values n -> lag_index n tx < Z.to_nat n)
  /\ (forall i, i < Z.to_nat n ->
        lag n (Z.of_nat i) ∈ lag_values n /\ lag_index n (lag n (Z.of_nat i)) = i).
Proof.
  intros Hn. unfold lag_values. split_and!.
  - apply NoDup_fmap_2_strong; [|apply NoDup_range_step1].
    intros x y Hx Hy. apply elem_of_range_step1 in Hx, Hy. by apply lag_index_inj.
  - intros tx Htx. apply elem_of_range_step1 in Htx. apply lag_index_lt; zlia.
  - intros i Hi. rewrite elem_of_range_step1, lag_index_lag by lia.
    split; [apply lag_bounds; lia|lia].
Qed.

Section TotalModel.
Context (f : Z -> Z -> res A) (g : Z -> Z -> A) (n : Z).
Hypothesis Hfg : forall tx ty, f tx ty = Ok (g tx ty).
Hypothesis Hn : (0 < n)%Z.

Lemma set_cell_spec tx ty R :
  ((- n) / 2 <= tx < n / 2)%Z -> ((- n) / 2 <= ty < n / 2)%Z ->
  has_shape (Z.to_nat n) (Z.to_nat n) R ->
  set_cell f (n / 2) (n / 2) tx ty R
  = Ok (alter (alter (fun _ => g tx ty) (lag_index n ty)) (lag_index n tx) R).
Proof.
  intros Htx Hty HR. unfold set_cell, np_setitem2. rewrite Hfg. res_simpl.
  destruct HR as [Hlen Hrows]. rewrite Hlen, np_index_lag by done. res_simpl.
  destruct (has_shape_lookup _ _ R (lag_index n tx) (conj Hlen Hrows))
    as [row [-> Hrow]]; [by apply lag_index_lt|].
  rewrite Hrow, np_index_lag by done. done.
Qed.

Lemma fill_row_spec tx R :
  ((- n) / 2 <= tx < n / 2)%Z -> has_shape (Z.to_nat n) (Z.to_nat n) R ->
  fill_row f ((- n) / 2) (n / 2) 1 (n / 2) tx R
  = Ok (alter (alter_all (lag_index n) (fun ty _ => g tx ty) (lag_values n))
              (lag_index n tx) R).
Proof.
  intros Htx HR. unfold fill_row. rewrite py_range_step1 by zlia. res_simpl.
  fold (lag_values n).
  destruct (for_each_inv (has_shape (Z.to_nat n) (Z.to_nat n))
    (fun ty R => alter (alter (fun _ => g tx ty) (lag_index n ty)) (lag_index n tx) R)
    (fun ty R => set_cell f (n / 2) (n / 2) tx ty R) (lag_values n) R HR)
    as [-> _].
  - intros ty R' Hty HR'. apply elem_of_range_step1 in Hty.
    rewrite set_cell_spec by done. split; [done|].
    apply has_shape_alter; [done|]. intros row Hrow. by rewrite length_alter.
  - by rewrite foldl_alter_same.
Qed.
End TotalModel.

Lemma autocorrelation_grid_eq (f : Z -> Z -> res A) (g : Z -> Z -> A) n :
  (forall tx ty, f tx ty = Ok (g tx ty)) -> (0 < n)%Z ->
  autocorrelation_grid zero f n = Ok (grid_table g n, 1%Z, 1%Z).
Proof.
  intros Hfg Hn. unfold autocorrelation_grid, np_zeros.
  destruct (Z.ltb_spec n 0); [lia|]. res_simpl.
  rewrite lag_step_eq by lia. res_simpl. rewrite py_range_step1 by zlia. res_simpl.
  fold (lag_values n).
  set (Z0 := replicate (Z.to_nat n) (replicate (Z.to_nat n) zero)).
  assert (HZ0 : has_shape (Z.to_nat n) (Z.to_nat n) Z0).
  { split; [apply length_replicate|]. apply Forall_replicate, length_replicate. }
  destruct (for_each_inv (has_shape (Z.to_nat n) (Z.to_nat n))
    (fun tx R => alter (alter_all (lag_index n) (fun ty _ => g tx ty) (lag_values n))
                       (lag_index n tx) R)
    (fun tx R => fill_row f ((- n) / 2) (n / 2) 1 (n / 2) tx R) (lag_values n) Z0 HZ0)
    as [-> _].
  - intros tx R Htx HR. apply elem_of_range_step1 in Htx.
    rewrite (fill_row_spec f g n Hfg Hn) by done. split; [done|].
    apply has_shape_alter; [done|]. intros row Hrow. by rewrite alter_all_length.
  - res_simpl. do 2 f_equal.
    destruct (lag_values_bij n Hn) as (Hnd & Hlt & Hinv).
    change (foldl _ Z0 (lag_values n)) with (alter_all (lag_index n)
      (fun tx => alter_all (lag_index n) (fun ty _ => g tx ty) (lag_values n))
      (lag_values n) Z0).
    unfold Z0. rewrite alter_all_bij with (inv := fun i => lag n (Z.of_nat i));
      rewrite ?length_replicate; try done.
    rewrite imap_replicate. unfold grid_table. f_equal. apply list_fmap_ext. intros _ i _.
    rewrite alter_all_bij with (inv := fun i => lag n (Z.of_nat i));
      rewrite ?length_replicate; try done.
    by rewrite imap_replicate.
Qed.

(** C5 When the autocorrelation model never raises, the nested loops of
    lines 65-67 succeed for every positive grid size, with steps
    [dtx = dty = 1], and fill every cell exactly once: cell [(i, j)]
    holds the model at lags [(lag n i, lag n j)]. *)
Theorem autocorrelation_grid_spec (f : Z -> Z -> res A) (g : Z -> Z -> A) n :
  (forall tx ty, f tx ty = Ok (g tx ty)) -> (0 < n)%Z ->
  autocorrelation_grid zero f n = Ok (grid_table g n, 1%Z, 1%Z).
Proof. apply autocorrelation_grid_eq. Qed.

Lemma autocorrelation_grid_nonpos_eq (f : Z -> Z -> res A) n :
  (n <= 0)%Z ->
  autocorrelation_grid zero f n
  = Err (if (n =? 0)%Z then ZeroDivisionError else ValueError).
Proof.
  intros Hn. unfold autocorrelation_grid, np_zeros.
  destruct (Z.eqb_spec n 0) as [->|Hn0]; [done|].
  by destruct (Z.ltb_spec n 0); [|lia].
Qed.

(** Error paths of lines 54-63: a negative size fails in [np.zeros]
    with [ValueError]; size 0 passes [np.zeros] and fails in the lag
    step [(txmax - txmin) // 0] with [ZeroDivisionError]. *)
Theorem autocorrelation_grid_nonpos (f : Z -> Z -> res A) n :
  (n <= 0)%Z ->
  autocorrelation_grid zero f n
  = Err (if (n =? 0)%Z then ZeroDivisionError else ValueError).
Proof. apply autocorrelation_grid_nonpos_eq. Qed.

Lemma lag_values_cons n :
  (0 < n)%Z -> exists rest, lag_values n = ((- n) / 2)%Z :: rest.
Proof.
  intros Hn. unfold lag_values.
  destruct (Z.to_nat (n / 2 - (- n) / 2)) as [|k] eqn:Hk; [zlia|].
  exists ((fun k => (- n) / 2 + Z.of_nat k)%Z <$> seq 1 k). simpl. f_equal. lia.
Qed.

Lemma autocorrelation_grid_err (f : Z -> Z -> res A) e n :
  (forall tx ty, f tx ty = Err e) -> (0 < n)%Z ->
  autocorrelation_grid zero f n = Err e.
Proof.
  intros Hf Hn. unfold autocorrelation_grid, np_zeros.
  destruct (Z.ltb_spec n 0); [lia|]. res_simpl.
  rewrite lag_step_eq by lia. res_simpl. rewrite py_range_step1 by zlia. res_simpl.
  fold (lag_values n). destruct (lag_values_cons n Hn) as [rest ->].
  cbn [for_each]. unfold fill_row at 1. rewrite py_range_step1 by zlia. res_simpl.
  fold (lag_values n). destruct (lag_values_cons n Hn) as [rest' ->].
  cbn [for_each]. unfold set_cell at 1. by rewrite Hf.
Qed.

(** An error of the autocorrelation model (for instance a zero
    correlation length) propagates out of the grid construction:
    nothing catches it. *)
Theorem autocorrelation_grid_raises (f : Z -> Z -> res A) e n :
  (forall tx ty, f tx ty = Err e) -> (0 < n)%Z ->
  autocorrelation_grid zero f n = Err e.
Proof. apply autocorrelation_grid_err. Qed.

Lemma grid_table_lookup (g : Z -> Z -> A) n i j :
  i < Z.to_nat n -> j < Z.to_nat n ->
  lookup2 (grid_table g n) i j = Some (g (lag n (Z.of_nat i)) (lag n (Z.of_nat j))).
Proof.
  intros Hi Hj. unfold lookup2, grid_table.
  rewrite list_lookup_fmap, lookup_seq_lt by done. simpl.
  by rewrite list_lookup_fmap, lookup_seq_lt by done.
Qed.

Lemma grid_table_lookup_inv (g : Z -> Z -> A) n i j v :
  lookup2 (grid_table g n) i j = Some v -> v = g (lag n (Z.of_nat i)) (lag n (Z.of_nat j)).
Proof.
  unfold lookup2, grid_table. intros E.
  destruct ((_ <$> seq 0 (Z.to_nat n)) !! i) as [row|] eqn:Er; [|done]. simpl in E.
  apply list_lookup_fmap_Some in Er as [i' [-> Hi']]. apply lookup_seq in Hi' as [-> _].
  apply list_lookup_fmap_Some in E as [j' [-> Hj']]. apply lookup_seq in Hj' as [-> _].
  done.
Qed.

Lemma autocorrelation_grid_centre_cell (f : Z -> Z -> res A) (g : Z -> Z -> A) n :
  (forall tx ty, f tx ty = Ok (g tx ty)) -> (2 <= n)%Z ->
  exists R, autocorrelation_grid zero f n = Ok (R, 1%Z, 1%Z)
    /\ lookup2 R (Z.to_nat (n / 2)) (Z.to_nat (n / 2)) = Some (g 0%Z 0%Z).
Proof.
  intros Hfg Hn. exists (grid_table g n).
  rewrite (autocorrelation_grid_eq f g n Hfg) by lia. split; [done|].
  rewrite grid_table_lookup by zlia. unfold lag. rewrite Z2Nat.id by zlia.
  destruct (Z.ltb_spec (n / 2 - n / 2) (n / 2)); [|zlia].
  by replace (n / 2 - n / 2)%Z with 0%Z by lia.
Qed.

(** For [n >= 2] the centre cell [R[n // 2, n // 2]] holds the
    model at lag [(0, 0)]. *)
Theorem autocorrelation_grid_center (f : Z -> Z -> res A) (g : Z -> Z -> A) n :
  (forall tx ty, f tx ty = Ok (g tx ty)) -> (2 <= n)%Z ->
  exists R, autocorrelation_grid zero f n = Ok (R, 1%Z, 1%Z)
    /\ lookup2 R (Z.to_nat (n / 2)) (Z.to_nat (n / 2)) = Some (g 0%Z 0%Z).
Proof. apply autocorrelation_grid_centre_cell. Qed.

(** A one-point grid never evaluates lag [(0, 0)]: [range(-1, 0)]
    is [[-1]] and [R[-1, -1]] is its only cell. *)
Theorem autocorrelation_grid_one (f : Z -> Z -> res A) (g : Z -> Z -> A) :
  (forall tx ty, f tx ty = Ok (g tx ty)) ->
  autocorrelation_grid zero f 1 = Ok ([[g (-1)%Z (-1)%Z]], 1%Z, 1%Z).
Proof. intros Hfg. by rewrite (autocorrelation_grid_eq f g 1 Hfg) by lia. Qed.

(** For an odd size [n = 2c + 1] the grid is not symmetric about its
    centre row [c]: row 0 holds lag [-c] but row [2c] holds lag
    [-(c + 1)], because [range(-n // 2, n // 2)] is
    [[-(c + 1), c)] and lag [-(c + 1)] lands at index [-1]. *)
Theorem autocorrelation_grid_odd_rows (f : Z -> Z -> res A) (g : Z -> Z -> A) c :
  (forall tx ty, f tx ty = Ok (g tx ty)) -> (1 <= c)%Z ->
  exists R, autocorrelation_grid zero f (2 * c + 1) = Ok (R, 1%Z, 1%Z)
    /\ lookup2 R 0 (Z.to_nat c) = Some (g (- c)%Z 0%Z)
    /\ lookup2 R (Z.to_nat (2 * c)) (Z.to_nat c) = Some (g (- (c + 1))%Z 0%Z).
Proof.
  intros Hfg Hc. exists (grid_table g (2 * c + 1)).
  rewrite (autocorrelation_grid_eq f g _ Hfg) by lia. split_and!; [done| |];
    rewrite grid_table_lookup by lia; do 2 f_equal; unfold lag;
    rewrite ?Z2Nat.id by lia; ltb_lia.
Qed.

(** For an even size [n = 2c] and a model even in its first lag
    (both autocorrelation models are), rows [c + k] and [c - k] are
    equal for [0 < k < c]: only row 0 (lag [-c]) has no mirror row. *)
Theorem autocorrelation_grid_even_symmetric (f : Z -> Z -> res A) (g : Z -> Z -> A) c :
  (forall tx ty, f tx ty = Ok (g tx ty)) ->
  (forall tx ty, g (- tx)%Z ty = g tx ty) -> (1 <= c)%Z ->
  exists R, autocorrelation_grid zero f (2 * c) = Ok (R, 1%Z, 1%Z)
    /\ forall k j, 0 < k < Z.to_nat c ->
         lookup2 R (Z.to_nat c + k) j = lookup2 R (Z.to_nat c - k) j.
Proof.
  intros Hfg Heven Hc. exists (grid_table g (2 * c)).
  rewrite (autocorrelation_grid_eq f g _ Hfg) by lia. split; [done|].
  intros k j Hk. destruct (decide (j < Z.to_nat (2 * c))) as [Hj|Hj].
  - rewrite !grid_table_lookup by lia. f_equal.
    replace (lag (2 * c) (Z.of_nat (Z.to_nat c + k)))
      with (- lag (2 * c) (Z.of_nat (Z.to_nat c - k)))%Z by (unfold lag; ltb_lia).
    apply Heven.
  - unfold lookup2, grid_table. rewrite !list_lookup_fmap, !lookup_seq_lt by lia.
    simpl. rewrite !lookup_ge_None_2; rewrite ?length_fmap, ?length_seq; [done|lia..].
Qed.
End LagGridProofs.

(** ** Witnesses on concrete grids *)

Example autocorrelation_grid_3 :
  autocorrelation_grid 0%Z (fun tx ty => Ok (lag_code tx ty)) 3
  = Ok ([[-11; -10; -12]; [-1; 0; -2]; [-21; -20; -22]]%Z, 1%Z, 1%Z).
Proof. vm_compute. reflexivity. Qed.

Example lag_step_128 : lag_step 128 = Ok 1%Z.
Proof. apply lag_step_one. lia. Qed.

Lemma autocorrelation_grid_spec_witness :
  autocorrelation_grid 0%Z (fun tx ty => Ok (lag_code tx ty)) 3
  = Ok (grid_table lag_code 3, 1%Z, 1%Z).
Proof. apply autocorrelation_grid_spec; [reflexivity|lia]. Defined.

Lemma autocorrelation_grid_nonpos_witness :
  autocorrelation_grid 0%Z (fun tx ty => Ok (lag_code tx ty)) 0 = Err ZeroDivisionError
  /\ autocorrelation_grid 0%Z (fun tx ty => Ok (lag_code tx ty)) (-4) = Err ValueError.
Proof. split; apply (autocorrelation_grid_nonpos 0%Z); lia. Defined.

Lemma autocorrelation_grid_raises_witness :
  autocorrelation_grid 0%Z (fun _ _ => Err ZeroDivisionError) 4 = Err ZeroDivisionError.
Proof. apply autocorrelation_grid_raises; [reflexivity|lia]. Defined.

Lemma autocorrelation_grid_center_witness :
  exists R, autocorrelation_grid 0%Z (fun tx ty => Ok (lag_code tx ty)) 4 = Ok (R, 1%Z, 1%Z)
    /\ lookup2 R 2 2 = Some (lag_code 0 0).
Proof. apply (autocorrelation_grid_center 0%Z _ lag_code 4); [reflexivity|lia]. Defined.

Lemma autocorrelation_grid_one_witness :
  autocorrelation_grid 0%Z (fun tx ty => Ok (lag_code tx ty)) 1
  = Ok ([[lag_code (-1) (-1)]], 1%Z, 1%Z).
Proof. apply autocorrelation_grid_one. reflexivity. Defined.

Lemma autocorrelation_grid_odd_rows_witness :
  exists R, autocorrelation_grid 0%Z (fun tx ty => Ok (sq_lag tx ty)) 3 = Ok (R, 1%Z, 1%Z)
    /\ lookup2 R 0 1 = Some 1%Z /\ lookup2 R 2 1 = Some 4%Z.
Proof. apply (autocorrelation_grid_odd_rows 0%Z _ sq_lag 1); [reflexivity|lia]. Defined.

Lemma autocorrelation_grid_even_symmetric_witness :
  exists R, autocorrelation_grid 0%Z (fun tx ty => Ok (sq_lag tx ty)) 4 = Ok (R, 1%Z, 1%Z)
    /\ forall k j, 0 < k < 2 -> lookup2 R (2 + k) j = lookup2 R (2 - k) j.
Proof.
  apply (autocorrelation_grid_even_symmetric 0%Z _ sq_lag 2);
    [reflexivity|intros; unfold sq_lag; lia|lia].
Defined.
