(* ===== verification/RankSwap.v ===== *)
(** * RankSwap: the rank-order transformation of [generate_surface]

    Lines 41-44 ([SurfaceGenerator.sort]), 96-100 (the slice [z_gs]) and
    110-123 of [src/src/roughgan/data/generators.py]: the Gaussian field
    [z_gs] and the Pearson sample [z_ngn] are flattened in column-major
    order, [Igs = np.argsort(v_gs)], [vs_ngn = np.sort(v_ngn)], the
    sorted sample is scattered with [v_ngs[Igs] = vs_ngn], reshaped in
    column-major order and conjugate-transposed ([.H], a transpose on
    real values).

    The values range over any type with a decidable total order [R]
    (numpy's float comparison without NaN).  [np.argsort] is an
    interface, the class [ArgSort]: numpy's default kind is an unstable
    quicksort, so the theorems hold for every argsort meeting the
    interface; [argsort_stable] (a stable merge sort of (index, value)
    pairs) is one instance.  [np.sort] is stdpp's [merge_sort]; every
    sorted permutation is equal to it, so the sorting algorithm numpy
    uses does not matter. *)

From S2P Require Import Prelude.

(** What the client code needs of [np.argsort]: a permutation of the
    indices that lists the values in order. *)
Class ArgSort {A : Type} `{Inhabited A} (R : relation A) := {
  argsort : list A -> list nat;
  argsort_permutation : forall v, argsort v ≡ₚ seq 0 (length v);
  argsort_sorted : forall v, Sorted R ((fun i => v !!! i) <$> argsort v)
}.

Section Arrays.
Context {A : Type} `{Inhabited A}.

(** [M.flatten(order="F")] of an [r x c] array: element [k] is
    [M[k mod r, k / r]], column after column. *)
Definition flatten_F (M : list (list A)) : list A :=
  let r := length M in
  let c := length (M !!! 0) in
  (fun k => (M !!! (k mod r)) !!! (k / r)) <$> seq 0 (r * c).

(** [v.reshape(r, c, order="F")]: cell [(i, j)] is [v[i + r * j]];
    numpy refuses a size mismatch with [ValueError]. *)
Definition reshape_F (r c : nat) (v : list A) : res (list (list A)) :=
  if Nat.eqb (length v) (r * c)
  then Ok ((fun i => (fun j => v !!! (i + r * j)) <$> seq 0 c) <$> seq 0 r)
  else Err ValueError.

(** [np.asmatrix(M).H] on real values: the transpose. *)
Definition mat_H (M : list (list A)) : list (list A) :=
  let r := length M in
  let c := length (M !!! 0) in
  (fun j => (fun i => (M !!! i) !!! j) <$> seq 0 r) <$> seq 0 c.

(** [M[r0:r1, c0:c1]]: Python slices clamp to the array. *)
Definition np_slice2 (M : list (list A)) (r0 r1 c0 c1 : nat) : list (list A) :=
  (fun row => take (c1 - c0) (drop c0 row)) <$> take (r1 - r0) (drop r0 M).

(** [dst[idx] = vals]: a value list of length 1 is broadcast, another
    length mismatch raises [ValueError], an index out of range raises
    [IndexError]; the cells are written in the order of [idx]. *)
Definition np_setitem_fancy (dst : list A) (idx : list nat) (vals : list A) : res (list A) :=
  vals' <- (if Nat.eqb (length vals) (length idx) then Ok vals
            else match vals with
                 | [x] => Ok (replicate (length idx) x)
                 | _ => Err ValueError
                 end) ;;
  for_each (zip idx vals')
    (fun p d => if decide (p.1 < length d) then Ok (alter (fun _ => p.2) p.1 d)
                else Err IndexError) dst.
End Arrays.

Section RankSwap.
Context {A : Type} `{Inhabited A} (R : relation A) `{!RelDecision R} `{!ArgSort R}.
Context (zero : A).

(** [np.sort(v)]. *)
Definition np_sort (v : list A) : list A := merge_sort R v.

(** [SurfaceGenerator.sort] (lines 41-44): [elements[indices], indices]
    with [indices = np.argsort(elements)]. *)
Definition sort_method (v : list A) : list A * list nat :=
  ((fun i => v !!! i) <$> argsort v, argsort v).

(** Lines 110-123; [n] is [self.n_points], [z_gs] the Gaussian field and
    [z_ngn] the Pearson sample, both [n x n]. *)
Definition rank_swap (n : nat) (z_gs z_ngn : list (list A)) : res (list (list A)) :=
  let v_gs := flatten_F z_gs in
  let v_ngn := flatten_F z_ngn in
  let Igs := argsort v_gs in
  let vs_ngn := np_sort v_ngn in
  v_ngs <- np_setitem_fancy (replicate (length vs_ngn) zero) Igs vs_ngn ;;
  M <- reshape_F n n v_ngs ;;
  Ok (mat_H M).
End RankSwap.

Section StableArgSort.
Context {A : Type} `{Inhabited A} (R : relation A) `{!RelDecision R}.

(** The order of (index, value) pairs by value. *)
Definition key_le (p q : nat * A) : Prop := R p.2 q.2.

#[export] Instance key_le_dec : RelDecision key_le := fun p q => decide (R p.2 q.2).

(** A stable argsort: merge sort of the pairs (index, value) by value. *)
Definition argsort_stable (v : list A) : list nat :=
  (merge_sort key_le (zip (seq 0 (length v)) v)).*1.
End StableArgSort.

Section StableArgSortProofs.
Context {A : Type} `{Inhabited A} (R : relation A) `{!RelDecision R} `{!Total R}.

Lemma zip_seq_lookup (v : list A) p :
  p ∈ zip (seq 0 (length v)) v -> v !! p.1 = Some p.2.
Proof.
  intros Hp. apply list_elem_of_lookup in Hp as [i Hi].
  apply lookup_zip_with_Some in Hi as (x & y & -> & Hx & Hy).
  apply lookup_seq in Hx as [-> _]. done.
Qed.

#[local] Instance key_le_total : Total (key_le R).
Proof. intros p q. unfold key_le. apply (total R). Qed.

Lemma argsort_stable_permutation (v : list A) :
  argsort_stable R v ≡ₚ seq 0 (length v).
Proof.
  unfold argsort_stable. rewrite merge_sort_Permutation.
  rewrite fst_zip; [done|]. rewrite length_seq. lia.
Qed.

Lemma argsort_stable_sorted (v : list A) :
  Sorted R ((fun i => v !!! i) <$> argsort_stable R v).
Proof.
  unfold argsort_stable.
  set (ps := merge_sort (key_le R) (zip (seq 0 (length v)) v)).
  assert (Hps : Forall (fun p => v !! p.1 = Some p.2) ps).
  { apply Forall_forall. intros p Hp. apply zip_seq_lookup.
    unfold ps in Hp. by rewrite merge_sort_Permutation in Hp. }
  replace ((fun i => v !!! i) <$> ps.*1) with ps.*2.
  - apply (Sorted_fmap snd (key_le R)); [by intros ?? | apply (Sorted_merge_sort (key_le R))].
  - rewrite <- list_fmap_compose. apply Forall_fmap_ext.
    eapply Forall_impl; [exact Hps|]. intros p Hp. simpl.
    symmetry. by apply list_lookup_total_correct.
Qed.

#[export] Instance argsort_stable_inst : ArgSort R := {|
  argsort := argsort_stable R;
  argsort_permutation := argsort_stable_permutation;
  argsort_sorted := argsort_stable_sorted
|}.
End StableArgSortProofs.

Section ArrayLemmas.
Context {A : Type} `{Inhabited A}.

Lemma shape_first_row r c (M : list (list A)) :
  has_shape r c M -> 0 < r -> length (M !!! 0) = c.
Proof.
  intros HM Hr. destruct (has_shape_lookup r c M 0 HM Hr) as [row [E L]].
  by rewrite (list_lookup_total_correct M 0 row E).
Qed.

Lemma length_flatten_F r c (M : list (list A)) :
  has_shape r c M -> length (flatten_F M) = r * c.
Proof.
  intros HM. unfold flatten_F. rewrite length_fmap, length_seq.
  destruct HM as [Hr Hc] eqn:E. rewrite Hr. destruct r as [|r]; [lia|].
  rewrite (shape_first_row (S r) c M) by (done || lia). done.
Qed.

Lemma flatten_F_lookup r c (M : list (list A)) k :
  has_shape r c M -> k < r * c -> flatten_F M !! k = lookup2 M (k mod r) (k / r).
Proof.
  intros HM Hk. assert (Hr : 0 < r) by lia.
  destruct (idx_divmod r k Hr) as [_ Hmod]. pose proof (divmod_lt r c k Hr Hk).
  rewrite (lookup2_total r c) by done. unfold flatten_F.
  rewrite (shape_first_row r c M HM Hr), (proj1 HM), list_lookup_fmap, lookup_seq_lt by done.
  done.
Qed.

Lemma flatten_F_lookup_ij r c (M : list (list A)) i j :
  has_shape r c M -> i < r -> j < c -> flatten_F M !! (i + r * j) = lookup2 M i j.
Proof.
  intros HM Hi Hj. rewrite (flatten_F_lookup r c) by (done || nia).
  by destruct (divmod_idx r i j Hi) as [-> ->].
Qed.

Lemma reshape_F_spec r c (v : list A) :
  length v = r * c ->
  exists M, reshape_F r c v = Ok M /\ has_shape r c M
    /\ forall i j, i < r -> j < c -> lookup2 M i j = v !! (i + r * j).
Proof.
  intros Hv. unfold reshape_F. rewrite Hv, Nat.eqb_refl. eexists. split; [done|]. split.
  - split; [by rewrite length_fmap, length_seq|].
    apply Forall_forall. intros row Hrow. apply list_elem_of_fmap in Hrow as [i [-> _]].
    by rewrite length_fmap, length_seq.
  - intros i j Hi Hj. unfold lookup2.
    rewrite list_lookup_fmap, lookup_seq_lt by done. simpl.
    rewrite list_lookup_fmap, lookup_seq_lt by done. simpl.
    symmetry. apply list_lookup_lookup_total_lt. nia.
Qed.

Lemma mat_H_spec r c (M : list (list A)) :
  has_shape r c M -> 0 < r ->
  has_shape c r (mat_H M)
  /\ forall i j, i < r -> j < c -> lookup2 (mat_H M) j i = lookup2 M i j.
Proof.
  intros HM Hr. unfold mat_H. rewrite (shape_first_row r c M HM Hr), (proj1 HM). split.
  - split; [by rewrite length_fmap, length_seq|].
    apply Forall_forall. intros row Hrow. apply list_elem_of_fmap in Hrow as [j [-> _]].
    by rewrite length_fmap, length_seq.
  - intros i j Hi Hj. rewrite (lookup2_total r c M i j) by done. unfold lookup2.
    rewrite list_lookup_fmap, lookup_seq_lt by done. simpl.
    by rewrite list_lookup_fmap, lookup_seq_lt by done.
Qed.

(** Column-major flattening of the transpose is row-major flattening. *)
Lemma flatten_F_mat_H r c (M : list (list A)) :
  has_shape r c M -> 0 < r -> 0 < c -> flatten_F (mat_H M) = concat M.
Proof.
  intros HM Hr Hc. destruct (mat_H_spec r c M HM Hr) as [HT HTl].
  apply list_eq. intros k. destruct (decide (k < r * c)) as [Hk|Hk].
  - rewrite (flatten_F_lookup c r) by (done || nia).
    destruct (idx_divmod c k Hc) as [Ek Hmod].
    assert (k / c < r) by (apply (divmod_lt c r k); nia).
    rewrite HTl by done.
    replace (concat M !! k) with (concat M !! (k / c * c + k mod c)) by (f_equal; lia).
    by rewrite (lookup_concat_rows r c).
  - rewrite !lookup_ge_None_2; [done| |].
    + rewrite (length_concat_shape r c) by done. lia.
    + rewrite (length_flatten_F c r) by done. nia.
Qed.

Lemma colmajor_perm r c :
  0 < r -> 0 < c -> (fun k => k mod r * c + k / r) <$> seq 0 (r * c) ≡ₚ seq 0 (r * c).
Proof.
  intros Hr Hc. apply NoDup_Permutation; [|apply NoDup_seq|].
  - apply NoDup_fmap_2_strong; [|apply NoDup_seq].
    intros k k' Hk Hk' E. apply elem_of_seq in Hk, Hk'.
    pose proof (divmod_lt r c k Hr ltac:(lia)). pose proof (divmod_lt r c k' Hr ltac:(lia)).
    destruct (idx_divmod r k Hr) as [Ek Hm], (idx_divmod r k' Hr) as [Ek' Hm'].
    destruct (divmod_idx c (k / r) (k mod r)) as [E1 E2]; [done|].
    destruct (divmod_idx c (k' / r) (k' mod r)) as [E1' E2']; [done|].
    replace (k / r + c * (k mod r)) with (k mod r * c + k / r) in E1, E2 by lia.
    replace (k' / r + c * (k' mod r)) with (k' mod r * c + k' / r) in E1', E2' by lia.
    rewrite E in E1, E2. lia.
  - intros x. rewrite list_elem_of_fmap, elem_of_seq. split.
    + intros [k [-> Hk]]. apply elem_of_seq in Hk.
      pose proof (divmod_lt r c k Hr ltac:(lia)). destruct (idx_divmod r k Hr). nia.
    + intros Hx. assert (Hq : x / c < r) by (apply (divmod_lt c r x); nia).
      destruct (idx_divmod c x Hc) as [Ex Hm].
      exists (x / c + r * (x mod c)). destruct (divmod_idx r (x / c) (x mod c) Hq) as [-> ->].
      split; [lia|]. apply elem_of_seq. nia.
Qed.

(** Column-major flattening lists the same cells as [concat]. *)
Lemma flatten_F_Permutation r c (M : list (list A)) :
  has_shape r c M -> flatten_F M ≡ₚ concat M.
Proof.
  intros HM. destruct (decide (r = 0 \/ c = 0)) as [Hrc|Hrc].
  - rewrite (nil_length_inv (flatten_F M)), (nil_length_inv (concat M)); [done| |].
    + rewrite (length_concat_shape r c) by done. nia.
    + rewrite (length_flatten_F r c) by done. nia.
  - symmetry. apply (Permutation_by_indices _ _ ((fun k => k mod r * c + k / r) <$> seq 0 (r * c))).
    + rewrite (length_concat_shape r c) by done. apply colmajor_perm; lia.
    + rewrite (length_flatten_F r c), (length_concat_shape r c) by done. done.
    + intros k x Hk. apply list_lookup_fmap_Some in Hk as [k' [-> Hk']].
      apply lookup_seq in Hk' as [-> Hk'']. simpl.
      rewrite (flatten_F_lookup r c) by done.
      apply (lookup_concat_rows r c); [done| |apply (divmod_lt r c); lia].
      apply Nat.mod_upper_bound. lia.
Qed.

(** Round trip: reshaping a column-major flattening in column-major
    order gives the array back. *)
Theorem reshape_flatten_F r c (M : list (list A)) :
  has_shape r c M -> 0 < r -> reshape_F r c (flatten_F M) = Ok M.
Proof.
  intros HM Hr. destruct (reshape_F_spec r c (flatten_F M)) as (M' & -> & HM' & L);
    [by apply length_flatten_F|].
  f_equal. apply (mat_eq r c); [done|done|]. intros i j Hi Hj.
  rewrite L by done. by apply (flatten_F_lookup_ij r c).
Qed.

Lemma flatten_reshape_F r c (v : list A) M :
  0 < r -> reshape_F r c v = Ok M -> flatten_F M = v.
Proof.
  intros Hr E. assert (Hv : length v = r * c).
  { unfold reshape_F in E. by destruct (Nat.eqb_spec (length v) (r * c)). }
  destruct (reshape_F_spec r c v Hv) as (M' & E' & HM' & L).
  rewrite E' in E. injection E as <-. apply list_eq. intros k.
  destruct (decide (k < r * c)) as [Hk|Hk].
  - rewrite (flatten_F_lookup r c) by done. destruct (idx_divmod r k Hr) as [Ek Hm].
    rewrite L by (done || by apply (divmod_lt r c)). by rewrite <- Ek.
  - rewrite !lookup_ge_None_2; [done|lia|]. rewrite (length_flatten_F r c) by done. lia.
Qed.

(** Lines 96-100: [z[0:n, 0:n]] of an [n x n] array is the array. *)
Lemma np_slice2_full n (M : list (list A)) :
  has_shape n n M -> np_slice2 M 0 n 0 n = M.
Proof.
  intros [Hr Hc]. unfold np_slice2. rewrite !Nat.sub_0_r, drop_0, take_ge by lia.
  clear Hr. induction Hc as [|row M Hrow Hc IH]; [done|]. simpl.
  rewrite drop_0, take_ge by lia. by f_equal.
Qed.

(** [dst[idx] = vals] with [idx] a permutation of the indices writes
    [vals[k]] at [idx[k]]. *)
Lemma np_setitem_fancy_perm (dst : list A) (idx : list nat) (vals : list A) :
  idx ≡ₚ seq 0 (length dst) -> length vals = length dst ->
  exists out, np_setitem_fancy dst idx vals = Ok out /\ length out = length dst
    /\ forall k i, idx !! k = Some i -> out !! i = vals !! k.
Proof.
  intros Hidx Hvals. pose proof (Permutation_length Hidx) as Hlen. rewrite length_seq in Hlen.
  assert (Hnd : NoDup idx) by (rewrite Hidx; apply NoDup_seq).
  assert (Hin : forall i, i ∈ idx -> i < length dst).
  { intros i Hi. rewrite Hidx, elem_of_seq in Hi. lia. }
  unfold np_setitem_fancy. replace (Nat.eqb (length vals) (length idx)) with true
    by (symmetry; apply Nat.eqb_eq; lia). res_simpl.
  destruct (for_each_inv (fun d => length d = length dst)
    (fun p d => alter (fun _ => p.2) p.1 d)
    (fun p d => if decide (p.1 < length d) then Ok (alter (fun _ => p.2) p.1 d)
                else Err IndexError) (zip idx vals) dst eq_refl) as [-> Hl].
  { intros [i x] d Hp Hd. simpl. apply elem_of_zip_l in Hp.
    rewrite decide_True by (rewrite Hd; by apply Hin). split; [done|].
    by rewrite length_alter. }
  eexists. split; [done|]. split; [done|]. intros k i Hk.
  assert (is_Some (vals !! k)) as [x Hx].
  { apply lookup_lt_is_Some_2. apply lookup_lt_Some in Hk. lia. }
  assert (Hp : (i, x) ∈ zip idx vals).
  { apply list_elem_of_lookup. exists k. by rewrite lookup_zip_with, Hk, Hx. }
  change (alter_all fst (fun p _ => p.2) (zip idx vals) dst !! (i, x).1 = vals !! k).
  rewrite alter_all_lookup_in by (done || by rewrite fst_zip by lia).
  simpl. rewrite Hx. assert (is_Some (dst !! i)) as [y ->]; [|done].
  apply lookup_lt_is_Some_2, Hin. by eapply list_elem_of_lookup_2.
Qed.
End ArrayLemmas.

Section RankSwapProofs.
Context {A : Type} `{Inhabited A} (R : relation A) `{!RelDecision R} `{!ArgSort R}.
Context `{!Total R, !Transitive R} (zero : A).

Lemma np_sort_sorted (v : list A) : Sorted R (np_sort R v).
Proof. by apply Sorted_merge_sort. Qed.

Lemma np_sort_perm (v : list A) : np_sort R v ≡ₚ v.
Proof. apply merge_sort_Permutation. Qed.

Lemma np_sort_sorted_perm_eq `{!AntiSymm (=) R} (l v : list A) :
  Sorted R l -> l ≡ₚ v -> l = np_sort R v.
Proof.
  intros Hl Hp. apply (Sorted_unique R); [done|apply np_sort_sorted|].
  by rewrite np_sort_perm.
Qed.

(** [np.sort] is determined by its contract: every sorted
    permutation of [v] is [np_sort v], whatever algorithm numpy runs. *)
Theorem np_sort_unique `{!AntiSymm (=) R} (l v : list A) :
  Sorted R l -> l ≡ₚ v -> l = np_sort R v.
Proof. apply np_sort_sorted_perm_eq. Qed.

(** [SurfaceGenerator.sort] (lines 41-44) returns [np.sort] of its
    input as first component, for every argsort meeting [ArgSort]. *)
Theorem sort_method_np_sort `{!AntiSymm (=) R} (v : list A) :
  (sort_method R v).1 = np_sort R v.
Proof.
  apply np_sort_sorted_perm_eq; [apply argsort_sorted|]. simpl.
  rewrite argsort_permutation. by rewrite fmap_lookup_total_seq.
Qed.

(** A strictly smaller value comes strictly earlier in [argsort]. *)
Lemma argsort_strict_order (v : list A) p q :
  p < length v -> q < length v -> ~ R (v !!! q) (v !!! p) ->
  exists kp kq, argsort v !! kp = Some p /\ argsort v !! kq = Some q /\ kp < kq.
Proof.
  intros Hp Hq Hlt.
  assert (Hin : forall i, i < length v -> exists k, argsort v !! k = Some i).
  { intros i Hi. apply list_elem_of_lookup. rewrite argsort_permutation, elem_of_seq. lia. }
  destruct (Hin p Hp) as [kp Ekp], (Hin q Hq) as [kq Ekq].
  exists kp, kq. split_and!; [done|done|].
  destruct (lt_eq_lt_dec kp kq) as [[Hk|<-]|Hk]; [done| |].
  - rewrite Ekp in Ekq. injection Ekq as <-. destruct Hlt. by destruct (total R (v !!! p) (v !!! p)).
  - exfalso. apply Hlt. eapply (StronglySorted_lookup R); [|exact Hk| |].
    + apply Sorted_StronglySorted; [apply _|apply argsort_sorted].
    + by rewrite list_lookup_fmap, Ekq.
    + by rewrite list_lookup_fmap, Ekp.
Qed.

(** The intermediate values of lines 110-121: the scattered vector
    [v_ngs] and the reshaped matrix before [.H]. *)
Lemma rank_swap_core n (z_gs z_ngn : list (list A)) :
  0 < n -> has_shape n n z_gs -> has_shape n n z_ngn ->
  exists v_ngs M, rank_swap R zero n z_gs z_ngn = Ok (mat_H M)
    /\ reshape_F n n v_ngs = Ok M /\ has_shape n n M /\ length v_ngs = n * n
    /\ (forall k p, argsort (flatten_F z_gs) !! k = Some p ->
          v_ngs !! p = np_sort R (flatten_F z_ngn) !! k)
    /\ (forall i j, i < n -> j < n -> lookup2 M i j = v_ngs !! (i + n * j)).
Proof.
  intros Hn Hgs Hngn. unfold rank_swap.
  pose proof (length_flatten_F n n z_gs Hgs) as Lgs.
  pose proof (length_flatten_F n n z_ngn Hngn) as Lngn.
  assert (Lvs : length (np_sort R (flatten_F z_ngn)) = n * n)
    by by rewrite np_sort_perm.
  destruct (np_setitem_fancy_perm (replicate (length (np_sort R (flatten_F z_ngn))) zero)
    (argsort (flatten_F z_gs)) (np_sort R (flatten_F z_ngn))) as (v_ngs & -> & Lv & Hv).
  { rewrite length_replicate, Lvs, <- Lgs. apply argsort_permutation. }
  { by rewrite length_replicate. }
  rewrite length_replicate, Lvs in Lv.
  destruct (reshape_F_spec n n v_ngs Lv) as (M & EM & HM & LM).
  exists v_ngs, M. res_simpl. rewrite EM. res_simpl. split_and!; done.
Qed.

(** C28 Functional behaviour of lines 110-123: on [n x n] inputs the
    rank swap succeeds with an [n x n] result whose cell [(j, i)] (the
    transpose) holds the [k]-th smallest reference value, where [k] is
    the rank of the Gaussian cell [(i, j)] in [np.argsort]. *)
Theorem rank_swap_spec n (z_gs z_ngn : list (list A)) :
  0 < n -> has_shape n n z_gs -> has_shape n n z_ngn ->
  exists out, rank_swap R zero n z_gs z_ngn = Ok out /\ has_shape n n out
    /\ forall i j, i < n -> j < n ->
         exists k, argsort (flatten_F z_gs) !! k = Some (i + n * j)
           /\ lookup2 out j i = np_sort R (flatten_F z_ngn) !! k.
Proof.
  intros Hn Hgs Hngn.
  destruct (rank_swap_core n z_gs z_ngn Hn Hgs Hngn) as (v & M & -> & _ & HM & Lv & Hv & LM).
  destruct (mat_H_spec n n M HM Hn) as [HT LT].
  exists (mat_H M). split_and!; [done|done|]. intros i j Hi Hj.
  assert (Hin : i + n * j ∈ argsort (flatten_F z_gs)).
  { rewrite argsort_permutation, elem_of_seq, (length_flatten_F n n) by done. nia. }
  apply list_elem_of_lookup in Hin as [k Hk]. exists k. split; [done|].
  rewrite LT, LM by done. by apply Hv.
Qed.

Lemma rank_swap_perm_eq n (z_gs z_ngn out : list (list A)) :
  0 < n -> has_shape n n z_gs -> has_shape n n z_ngn ->
  rank_swap R zero n z_gs z_ngn = Ok out -> concat out ≡ₚ concat z_ngn.
Proof.
  intros Hn Hgs Hngn E.
  destruct (rank_swap_core n z_gs z_ngn Hn Hgs Hngn) as (v & M & E' & EM & HM & Lv & Hv & _).
  rewrite E' in E. injection E as <-.
  destruct (mat_H_spec n n M HM Hn) as [HT _].
  rewrite <- (flatten_F_Permutation n n (mat_H M)), (flatten_F_mat_H n n) by done.
  rewrite <- (flatten_F_Permutation n n M), (flatten_reshape_F n n v M) by done.
  rewrite <- (flatten_F_Permutation n n z_ngn) by done.
  rewrite <- (np_sort_perm (flatten_F z_ngn)).
  apply (Permutation_by_indices _ _ (argsort (flatten_F z_gs))).
  - rewrite Lv, <- (length_flatten_F n n z_gs) by done. apply argsort_permutation.
  - rewrite np_sort_perm, (length_flatten_F n n) by done. done.
  - done.
Qed.

(** On [n x n] inputs the rank swap succeeds, with an [n x n] result
    holding the reference values. *)
Lemma rank_swap_ok n (z_gs z_ngn : list (list A)) :
  0 < n -> has_shape n n z_gs -> has_shape n n z_ngn ->
  exists out, rank_swap R zero n z_gs z_ngn = Ok out /\ has_shape n n out
    /\ concat out ≡ₚ concat z_ngn.
Proof.
  intros Hn Hgs Hngn.
  destruct (rank_swap_core n z_gs z_ngn Hn Hgs Hngn) as (v & M & E & _ & HM & _).
  exists (mat_H M). split_and!; [done|by apply (mat_H_spec n n M HM Hn)|].
  exact (rank_swap_perm_eq n z_gs z_ngn _ Hn Hgs Hngn E).
Qed.

(** C2 The multiset of output values is exactly the multiset of the
    reference sample: the rank swap only moves the Pearson values. *)
Theorem rank_swap_permutation n (z_gs z_ngn out : list (list A)) :
  0 < n -> has_shape n n z_gs -> has_shape n n z_ngn ->
  rank_swap R zero n z_gs z_ngn = Ok out -> concat out ≡ₚ concat z_ngn.
Proof. apply rank_swap_perm_eq. Qed.

(** C3 The rank swap preserves the order of the Gaussian field, up to
    the final transpose: when the Gaussian value at [(i, j)] is strictly
    below the one at [(i', j')], the output at [(j, i)] is at most the
    output at [(j', i')]. *)
Theorem rank_swap_monotone n (z_gs z_ngn out : list (list A)) i j i' j' :
  0 < n -> has_shape n n z_gs -> has_shape n n z_ngn ->
  rank_swap R zero n z_gs z_ngn = Ok out ->
  i < n -> j < n -> i' < n -> j' < n ->
  ~ R ((z_gs !!! i') !!! j') ((z_gs !!! i) !!! j) ->
  R ((out !!! j) !!! i) ((out !!! j') !!! i').
Proof.
  intros Hn Hgs Hngn E Hi Hj Hi' Hj' Hlt.
  destruct (rank_swap_core n z_gs z_ngn Hn Hgs Hngn) as (v & M & E' & EM & HM & Lv & Hv & LM).
  rewrite E' in E. injection E as <-.
  destruct (mat_H_spec n n M HM Hn) as [HT LT].
  pose proof (length_flatten_F n n z_gs Hgs) as Lgs.
  destruct (argsort_strict_order (flatten_F z_gs) (i + n * j) (i' + n * j'))
    as (kp & kq & Ekp & Ekq & Hk); [nia|nia| |].
  { rewrite !list_lookup_total_alt, !(flatten_F_lookup_ij n n) by done.
    by rewrite !(lookup2_total n n z_gs) by done. }
  assert (Hs : StronglySorted R (np_sort R (flatten_F z_ngn))).
  { apply Sorted_StronglySorted; [apply _|apply np_sort_sorted]. }
  pose proof (Hv kp _ Ekp) as Vp. pose proof (Hv kq _ Ekq) as Vq.
  rewrite <- LM in Vp, Vq by done. rewrite <- LT in Vp, Vq by done.
  rewrite (lookup2_total n n (mat_H M)) in Vp, Vq by done.
  eapply (StronglySorted_lookup R); [exact Hs|exact Hk|by rewrite Vp|by rewrite Vq].
Qed.
End RankSwapProofs.

(** ** Witnesses on integer arrays *)

Example argsort_stable_ties : argsort_stable Z.le [2; 1; 2; 1]%Z = [1; 3; 0; 2].
Proof. reflexivity. Qed.

Example rank_swap_2x2 :
  rank_swap Z.le 0%Z 2 [[3; 1]; [4; 2]]%Z [[10; 40]; [30; 20]]%Z
  = Ok [[30; 40]; [10; 20]]%Z.
Proof. vm_compute. reflexivity. Qed.

Lemma reshape_flatten_F_witness :
  reshape_F 2 3 (flatten_F [[1; 2; 3]; [4; 5; 6]]%Z) = Ok [[1; 2; 3]; [4; 5; 6]]%Z.
Proof. apply (reshape_flatten_F 2 3); [split; [reflexivity|repeat constructor]|lia]. Defined.

Lemma np_sort_unique_witness : [1; 2; 3]%Z = np_sort Z.le [3; 1; 2]%Z.
Proof.
  apply (np_sort_unique Z.le); [repeat constructor; simpl; lia|].
  apply Permutation_sym. apply (Permutation_trans (l' := [1; 3; 2]%Z)); constructor.
  constructor.
Defined.

Lemma sort_method_np_sort_witness :
  (sort_method Z.le [3; 1; 2]%Z).1 = np_sort Z.le [3; 1; 2]%Z.
Proof. apply (sort_method_np_sort Z.le). Defined.

Lemma rank_swap_spec_witness :
  exists out, rank_swap Z.le 0%Z 2 [[3; 1]; [4; 2]]%Z [[10; 40]; [30; 20]]%Z = Ok out
    /\ has_shape 2 2 out
    /\ forall i j, i < 2 -> j < 2 ->
         exists k, argsort (R := Z.le) (flatten_F [[3; 1]; [4; 2]]%Z) !! k = Some (i + 2 * j)
           /\ lookup2 out j i = np_sort Z.le (flatten_F [[10; 40]; [30; 20]]%Z) !! k.
Proof.
  apply (rank_swap_spec Z.le 0%Z 2); [lia| |];
    (split; [reflexivity|repeat constructor]).
Defined.

Lemma rank_swap_permutation_witness :
  concat [[30; 40]; [10; 20]]%Z ≡ₚ concat [[10; 40]; [30; 20]]%Z.
Proof.
  apply (rank_swap_permutation Z.le 0%Z 2 [[3; 1]; [4; 2]]%Z); [lia| | |vm_compute; reflexivity];
    (split; [reflexivity|repeat constructor]).
Defined.

Lemma rank_swap_monotone_witness :
  Z.le ((([[30; 40]; [10; 20]]%Z : list (list Z)) !!! 1) !!! 0)
       ((([[30; 40]; [10; 20]]%Z : list (list Z)) !!! 0) !!! 0).
Proof.
  apply (rank_swap_monotone Z.le 0%Z 2 [[3; 1]; [4; 2]]%Z [[10; 40]; [30; 20]]%Z);
    [lia| | |vm_compute; reflexivity|lia..|simpl; lia];
    (split; [reflexivity|repeat constructor]).
Defined.
