(* ===== verification/Stats.v ===== *)
(** * Stats: the two normalisations of [generate_surface]

    Lines 74-79 (the white noise [X]) and 90-93 (the filtered field [z])
    of [src/src/roughgan/data/generators.py], over the real numbers.
    A numpy float result that is not finite (a mean of an empty array,
    a division by a zero standard deviation: numpy warns and returns
    [nan] or [inf], it does not raise) is [None]; [option] is the monad
    of this file.  [np.mean(np.mean(M))] is the mean of all cells of
    [M] (the inner call has no axis and returns a scalar, the outer one
    the mean of that one value). *)

From S2P Require Import Prelude.
From Stdlib Require Import Reals Lra.

Local Open Scope R_scope.

(** The sum of a list of floats. *)
Definition rsum (l : list R) : R := foldr Rplus 0 l.

(** [np.mean] of a flat array; [None] (nan) for an empty one. *)
Definition np_mean (l : list R) : option R :=
  match l with
  | [] => None
  | _ => Some (rsum l / INR (length l))
  end.

(** [np.mean(np.mean(M))]. *)
Definition mean2 (M : list (list R)) : option R :=
  m ← np_mean (concat M); np_mean [m].

(** An elementwise numpy expression on a 2-D array. *)
Definition mat_map (f : R -> R) (M : list (list R)) : list (list R) :=
  (fun row : list R => f <$> row) <$> M.

(** [M / s] for a scalar [s]: not finite when [s = 0]. *)
Definition np_div_scalar (M : list (list R)) (s : R) : option (list (list R)) :=
  if Req_dec_T s 0 then None else Some (mat_map (fun x => x / s) M).

(** [np.sqrt(np.mean(np.mean((M - ave) ** 2)))], with [ave] computed
    before (lines 77-78 and 91-92). *)
Definition std_about (ave : R) (M : list (list R)) : option R :=
  v ← mean2 (mat_map (fun x => (x - ave) ^ 2) M); Some (sqrt v).

(** Lines 74-79: [aveX = np.mean(np.mean(X))],
    [stdX = np.sqrt(np.mean(np.mean((X - aveX) ** 2)))], [X = X / stdX].
    The mean is computed but not subtracted. *)
Definition normalize_noise (X : list (list R)) : option (list (list R)) :=
  aveX ← mean2 X;
  stdX ← std_about aveX X;
  np_div_scalar X stdX.

(** Lines 90-93: [z = ((z - avez) * self.rms) / stdz]. *)
Definition normalize_field (rms : R) (z : list (list R)) : option (list (list R)) :=
  avez ← mean2 z;
  stdz ← std_about avez z;
  np_div_scalar (mat_map (fun x => (x - avez) * rms) z) stdz.

(** The population standard deviation, as lines 75-78 compute it. *)
Definition pop_std (M : list (list R)) : option R :=
  m ← mean2 M; std_about m M.

(** ** Sums and means *)

Lemma obind_Some {X Y} (x : X) (f : X -> option Y) : (Some x ≫= f) = f x.
Proof. reflexivity. Qed.

Lemma rsum_cons x l : rsum (x :: l) = x + rsum l.
Proof. reflexivity. Qed.

Lemma rsum_app l1 l2 : rsum (l1 ++ l2) = rsum l1 + rsum l2.
Proof. induction l1 as [|x l1 IH]; simpl; [lra|]. unfold rsum in *. simpl. lra. Qed.

Lemma rsum_affine (a b : R) (l : list R) :
  rsum ((fun x => a * x + b) <$> l) = a * rsum l + b * INR (length l).
Proof.
  induction l as [|x l IH]; [simpl; unfold rsum; simpl; lra|].
  rewrite fmap_cons, !rsum_cons, IH, length_cons, S_INR. ring.
Qed.

Lemma rsum_scale (c : R) (f : R -> R) (l : list R) :
  rsum ((fun x => c * f x) <$> l) = c * rsum (f <$> l).
Proof.
  induction l as [|x l IH]; [unfold rsum; simpl; lra|].
  rewrite !fmap_cons, !rsum_cons, IH. ring.
Qed.

Lemma rsum_sq_nonneg (f : R -> R) (l : list R) : 0 <= rsum ((fun x => f x ^ 2) <$> l).
Proof.
  induction l as [|x l IH]; [unfold rsum; simpl; lra|].
  rewrite fmap_cons, rsum_cons. pose proof (pow2_ge_0 (f x)). lra.
Qed.

Lemma rsum_sq_zero (f : R -> R) (l : list R) :
  rsum ((fun x => f x ^ 2) <$> l) = 0 -> forall x, x ∈ l -> f x = 0.
Proof.
  induction l as [|y l IH]; intros Hs x Hx; [set_solver|].
  rewrite fmap_cons, rsum_cons in Hs.
  pose proof (pow2_ge_0 (f y)). pose proof (rsum_sq_nonneg f l).
  apply elem_of_cons in Hx as [->|Hx].
  - apply Rsqr_eq_0. unfold Rsqr. nra.
  - apply IH; [lra|done].
Qed.

Lemma concat_mat_map (f : R -> R) (M : list (list R)) :
  concat (mat_map f M) = f <$> concat M.
Proof.
  induction M as [|row M IH]; [done|]. simpl. by rewrite IH, fmap_app.
Qed.

Lemma mat_map_compose (f g : R -> R) (M : list (list R)) :
  mat_map f (mat_map g M) = mat_map (fun x => f (g x)) M.
Proof.
  unfold mat_map. rewrite <- list_fmap_compose. apply list_fmap_ext.
  intros _ row _. simpl. by rewrite <- list_fmap_compose.
Qed.

Lemma mat_map_ext (f g : R -> R) (M : list (list R)) :
  (forall x, f x = g x) -> mat_map f M = mat_map g M.
Proof.
  intros Hfg. unfold mat_map. apply list_fmap_ext. intros _ row _.
  apply list_fmap_ext. intros _ x _. apply Hfg.
Qed.

Lemma has_shape_mat_map r c (f : R -> R) (M : list (list R)) :
  has_shape r c M -> has_shape r c (mat_map f M).
Proof.
  intros [Hr Hc]. unfold mat_map. split; [by rewrite length_fmap|].
  apply Forall_fmap. eapply Forall_impl; [exact Hc|]. intros row Hrow. simpl.
  by rewrite length_fmap.
Qed.

Lemma mean2_spec (M : list (list R)) :
  concat M <> [] ->
  mean2 M = Some (rsum (concat M) / INR (length (concat M))).
Proof.
  intros Hne. unfold mean2, np_mean. destruct (concat M) as [|x l]; [done|].
  simpl. f_equal. unfold rsum. simpl. lra.
Qed.

Lemma concat_nonempty n (M : list (list R)) :
  has_shape n n M -> (0 < n)%nat -> concat M <> [].
Proof.
  intros HM Hn Hc. pose proof (length_concat_shape n n M HM) as L.
  rewrite Hc in L. simpl in L. nia.
Qed.

Lemma std_about_spec (ave : R) (M : list (list R)) :
  concat M <> [] ->
  std_about ave M
  = Some (sqrt (rsum ((fun x => (x - ave) ^ 2) <$> concat M) / INR (length (concat M)))).
Proof.
  intros Hne. unfold std_about. rewrite mean2_spec.
  - rewrite obind_Some. by rewrite concat_mat_map, length_fmap.
  - rewrite concat_mat_map. intros E. apply Hne. by apply fmap_nil_inv in E.
Qed.

(** A centred sum vanishes. *)
Lemma rsum_centered (c m : R) (l : list R) :
  l <> [] -> m = rsum l / INR (length l) ->
  rsum ((fun x => (x - m) * c) <$> l) = 0.
Proof.
  intros Hne ->. assert (HN : 0 < INR (length l)).
  { apply lt_0_INR. destruct l; [done|simpl; lia]. }
  rewrite (list_fmap_ext _ (fun x => c * x + (- (rsum l / INR (length l)) * c)) l)
    by (intros; ring).
  rewrite rsum_affine. field. lra.
Qed.

(** A field whose cells are not all equal has a positive variance. *)
Lemma variance_pos (l : list R) :
  (exists x y, x ∈ l /\ y ∈ l /\ x <> y) ->
  0 < rsum ((fun x => (x - rsum l / INR (length l)) ^ 2) <$> l) / INR (length l).
Proof.
  intros (x & y & Hx & Hy & Hxy). assert (HN : 0 < INR (length l)).
  { apply lt_0_INR. destruct l; [set_solver|simpl; lia]. }
  apply Rdiv_lt_0_compat; [|done].
  pose proof (rsum_sq_nonneg (fun x => x - rsum l / INR (length l)) l) as H0.
  destruct (Rle_lt_or_eq_dec _ _ H0) as [Hlt|Heq]; [done|].
  exfalso. symmetry in Heq. pose proof (rsum_sq_zero _ l Heq) as Hz.
  specialize (Hz x Hx). specialize (rsum_sq_zero _ l Heq y Hy). simpl in *. lra.
Qed.

(** C6 Lines 90-93 on an [n x n] field whose values are not all equal:
    the result is finite, has the same shape, mean exactly 0 and
    population standard deviation exactly [|rms|]. *)
Theorem normalize_field_moments n (rms : R) (z : list (list R)) :
  has_shape n n z -> (0 < n)%nat -> (exists x y, x ∈ concat z /\ y ∈ concat z /\ x <> y) ->
  exists z', normalize_field rms z = Some z' /\ has_shape n n z'
    /\ mean2 z' = Some 0 /\ pop_std z' = Some (Rabs rms).
Proof.
  intros Hz Hn Hxy. pose proof (concat_nonempty n z Hz Hn) as Hne.
  pose proof (variance_pos _ Hxy) as Hv.
  assert (HN : 0 < INR (length (concat z))).
  { apply lt_0_INR. destruct (concat z); [done|simpl; lia]. }
  unfold normalize_field. rewrite mean2_spec by done. rewrite obind_Some.
  rewrite std_about_spec by done. rewrite obind_Some.
  set (m := rsum (concat z) / INR (length (concat z))) in *.
  set (v := rsum ((fun x => (x - m) ^ 2) <$> concat z) / INR (length (concat z))) in *.
  pose proof (sqrt_lt_R0 v Hv) as Hs.
  unfold np_div_scalar. destruct (Req_dec_T _ _) as [E|_]; [lra|].
  eexists. split; [reflexivity|]. rewrite mat_map_compose.
  set (z' := mat_map (fun x => (x - m) * rms / sqrt v) z).
  assert (Hc : concat z' = (fun x => (x - m) * (rms / sqrt v)) <$> concat z).
  { unfold z'. rewrite concat_mat_map. apply list_fmap_ext. intros. field. lra. }
  assert (Hne' : concat z' <> []).
  { rewrite Hc. intros E. by apply fmap_nil_inv in E. }
  assert (Hmean : mean2 z' = Some 0).
  { rewrite mean2_spec by done. rewrite Hc, (rsum_centered _ m) by done.
    f_equal. lra. }
  split_and!; [by apply has_shape_mat_map|done|].
  unfold pop_std. rewrite Hmean, obind_Some, std_about_spec by done. f_equal.
  rewrite Hc, length_fmap, <- list_fmap_compose.
  rewrite (list_fmap_ext _ (fun x => (rms / sqrt v) ^ 2 * (x - m) ^ 2) (concat z))
    by (intros; simpl; ring).
  rewrite rsum_scale.
  replace ((rms / sqrt v) ^ 2 * rsum ((fun x => (x - m) ^ 2) <$> concat z)
            / INR (length (concat z)))
    with ((rms / sqrt v) ^ 2 * v) by (unfold v; unfold Rdiv; ring).
  replace ((rms / sqrt v) ^ 2 * v) with (rms * rms).
  - apply sqrt_Rsqr_abs.
  - rewrite <- (pow2_sqrt v) at 2 by lra. field. lra.
Qed.

Lemma rsum_const (c : R) (l : list R) :
  (forall x, x ∈ l -> x = c) -> rsum l = c * INR (length l).
Proof.
  induction l as [|y l IH]; intros Hc; [unfold rsum; simpl; lra|].
  rewrite rsum_cons, IH by (intros; apply Hc; set_solver).
  rewrite (Hc y) by set_solver. rewrite length_cons, S_INR. ring.
Qed.

(** A constant field has standard deviation 0 about its mean. *)
Lemma moments_const n (c : R) (z : list (list R)) :
  has_shape n n z -> (0 < n)%nat -> (forall x, x ∈ concat z -> x = c) ->
  mean2 z = Some c /\ std_about c z = Some 0.
Proof.
  intros Hz Hn Hc. pose proof (concat_nonempty n z Hz Hn) as Hne.
  assert (HN : 0 < INR (length (concat z))).
  { apply lt_0_INR. destruct (concat z); [done|simpl; lia]. }
  rewrite mean2_spec, std_about_spec by done. rewrite (rsum_const c) by done.
  rewrite (rsum_const 0 _); [|intros y Hy; apply list_elem_of_fmap in Hy as [x [-> Hx]];
    rewrite (Hc x Hx); field; lra].
  rewrite length_fmap. split; f_equal; [field; lra|].
  replace (0 * INR (length (concat z)) / INR (length (concat z))) with 0 by (field; lra).
  apply sqrt_0.
Qed.

(** C35 Lines 90-93 have no guard for a constant field: its standard
    deviation is 0 and [((z - avez) * rms) / stdz] is [0 / 0] in every
    cell, so the normalised field is not finite. *)
Theorem normalize_field_constant n (rms c : R) (z : list (list R)) :
  has_shape n n z -> (0 < n)%nat -> (forall x, x ∈ concat z -> x = c) ->
  normalize_field rms z = None.
Proof.
  intros Hz Hn Hc. destruct (moments_const n c z Hz Hn Hc) as [Hm Hs].
  unfold normalize_field. rewrite Hm, obind_Some, Hs, obind_Some.
  unfold np_div_scalar. by destruct (Req_dec_T 0 0).
Qed.

(** Lines 74-79 on a constant noise: [X / 0] is not finite. *)
Lemma normalize_noise_constant n (c : R) (X : list (list R)) :
  has_shape n n X -> (0 < n)%nat -> (forall x, x ∈ concat X -> x = c) ->
  normalize_noise X = None.
Proof.
  intros HX Hn Hc. destruct (moments_const n c X HX Hn Hc) as [Hm Hs].
  unfold normalize_noise. rewrite Hm, obind_Some, Hs, obind_Some.
  unfold np_div_scalar. by destruct (Req_dec_T 0 0).
Qed.

(** A finite result of lines 74-79 is [X] divided by a positive number. *)
Lemma normalize_noise_div (X X' : list (list R)) :
  normalize_noise X = Some X' -> exists s, 0 < s /\ X' = mat_map (fun x => x / s) X.
Proof.
  unfold normalize_noise. destruct (mean2 X) as [m|]; [rewrite obind_Some|done].
  unfold std_about. destruct (mean2 _) as [v|]; [rewrite !obind_Some|done].
  unfold np_div_scalar. destruct (Req_dec_T (sqrt v) 0) as [E|E]; [done|].
  intros [= <-]. exists (sqrt v). split; [|done].
  pose proof (sqrt_pos v). lra.
Qed.

Lemma normalize_field_affine_eq n (rms a b : R) (z : list (list R)) :
  has_shape n n z -> (0 < n)%nat -> 0 < a ->
  normalize_field rms (mat_map (fun x => a * x + b) z) = normalize_field rms z.
Proof.
  intros Hz Hn Ha. pose proof (concat_nonempty n z Hz Hn) as Hne.
  pose proof (concat_nonempty n _ (has_shape_mat_map n n (fun x => a * x + b) z Hz) Hn) as Hne'.
  assert (HN : 0 < INR (length (concat z))).
  { apply lt_0_INR. destruct (concat z); [done|simpl; lia]. }
  unfold normalize_field.
  rewrite !mean2_spec, !obind_Some, !std_about_spec, !obind_Some by done.
  rewrite !concat_mat_map, !length_fmap, rsum_affine.
  set (N := INR (length (concat z))) in *.
  set (m := rsum (concat z) / N).
  replace ((a * rsum (concat z) + b * N) / N) with (a * m + b) by (unfold m; field; lra).
  rewrite <- list_fmap_compose.
  rewrite (list_fmap_ext _ (fun x => a ^ 2 * (x - m) ^ 2) (concat z)) by (intros; simpl; ring).
  rewrite rsum_scale.
  set (S := rsum ((fun x => (x - m) ^ 2) <$> concat z)).
  assert (HS : 0 <= S) by apply rsum_sq_nonneg.
  replace (a ^ 2 * S / N) with (a ^ 2 * (S / N)) by (unfold Rdiv; ring).
  rewrite sqrt_mult_alt, sqrt_pow2 by (apply pow2_ge_0 || lra).
  assert (Hv : 0 <= sqrt (S / N)) by apply sqrt_pos.
  unfold np_div_scalar.
  destruct (Req_dec_T (a * sqrt (S / N)) 0) as [E1|E1], (Req_dec_T (sqrt (S / N)) 0) as [E2|E2];
    [done|nra|nra|].
  f_equal. rewrite !mat_map_compose. apply mat_map_ext. intros x. field. lra.
Qed.

(** The normalisation of lines 90-93 forgets any positive affine
    map of its input: [z] and [a * z + b] ([a > 0]) normalise to the
    same field (both finite or both not). *)
Theorem normalize_field_affine n (rms a b : R) (z : list (list R)) :
  has_shape n n z -> (0 < n)%nat -> 0 < a ->
  normalize_field rms (mat_map (fun x => a * x + b) z) = normalize_field rms z.
Proof. apply normalize_field_affine_eq. Qed.

(** C36 Lines 74-79 divide the white noise by its standard deviation but
    do not subtract its mean: the result has standard deviation 1 and
    mean [aveX / stdX], not 0. *)
Theorem normalize_noise_moments n (X : list (list R)) :
  has_shape n n X -> (0 < n)%nat -> (exists x y, x ∈ concat X /\ y ∈ concat X /\ x <> y) ->
  exists X' m s, mean2 X = Some m /\ std_about m X = Some s /\ 0 < s
    /\ normalize_noise X = Some X' /\ has_shape n n X'
    /\ mean2 X' = Some (m / s) /\ pop_std X' = Some 1.
Proof.
  intros HX Hn Hxy. pose proof (concat_nonempty n X HX Hn) as Hne.
  pose proof (variance_pos _ Hxy) as Hv.
  assert (HN : 0 < INR (length (concat X))).
  { apply lt_0_INR. destruct (concat X); [done|simpl; lia]. }
  set (m := rsum (concat X) / INR (length (concat X))) in *.
  set (v := rsum ((fun x => (x - m) ^ 2) <$> concat X) / INR (length (concat X))) in *.
  pose proof (sqrt_lt_R0 v Hv) as Hs.
  assert (Hc : concat (mat_map (fun x => x / sqrt v) X)
               = (fun x => / sqrt v * x + 0) <$> concat X).
  { rewrite concat_mat_map. apply list_fmap_ext. intros. unfold Rdiv. ring. }
  assert (Hne' : concat (mat_map (fun x => x / sqrt v) X) <> []).
  { rewrite Hc. intros E. by apply fmap_nil_inv in E. }
  assert (Hmean : mean2 (mat_map (fun x => x / sqrt v) X) = Some (m / sqrt v)).
  { rewrite mean2_spec, Hc, length_fmap, rsum_affine by done. apply (f_equal Some).
    unfold m. field. lra. }
  exists (mat_map (fun x => x / sqrt v) X), m, (sqrt v). split_and!.
  - by rewrite mean2_spec.
  - by rewrite std_about_spec.
  - done.
  - unfold normalize_noise. rewrite mean2_spec, obind_Some, std_about_spec, obind_Some by done.
    unfold np_div_scalar. fold m v. by destruct (Req_dec_T (sqrt v) 0) as [E|E]; [lra|].
  - by apply has_shape_mat_map.
  - done.
  - unfold pop_std. rewrite Hmean, obind_Some, std_about_spec by done. f_equal.
    rewrite Hc, length_fmap, <- list_fmap_compose.
    rewrite (list_fmap_ext _ (fun x => (/ sqrt v) ^ 2 * (x - m) ^ 2) (concat X))
      by (intros; simpl; field; lra).
    rewrite rsum_scale.
    replace ((/ sqrt v) ^ 2 * rsum ((fun x => (x - m) ^ 2) <$> concat X)
               / INR (length (concat X)))
      with ((/ sqrt v) ^ 2 * v) by (unfold v; unfold Rdiv; ring).
    replace ((/ sqrt v) ^ 2 * v) with 1; [apply sqrt_1|].
    rewrite <- (pow2_sqrt v) at 2 by lra. field. lra.
Qed.

(** ** Facts used by the pipeline *)

Lemma normalize_field_shape r c (rms : R) (z z' : list (list R)) :
  has_shape r c z -> normalize_field rms z = Some z' -> has_shape r c z'.
Proof.
  intros Hz. unfold normalize_field. destruct (mean2 z) as [m|]; [rewrite obind_Some|done].
  destruct (std_about m z) as [sd|]; [rewrite obind_Some|done].
  unfold np_div_scalar. destruct (Req_dec_T sd 0); [done|]. intros [= <-].
  by apply has_shape_mat_map, has_shape_mat_map.
Qed.

(** A noise that is not constant has a finite normalisation. *)
Lemma normalize_noise_Some n (X : list (list R)) :
  has_shape n n X -> (0 < n)%nat -> (exists x y, x ∈ concat X /\ y ∈ concat X /\ x <> y) ->
  exists X', normalize_noise X = Some X'.
Proof.
  intros HX Hn Hxy. pose proof (concat_nonempty n X HX Hn) as Hne.
  pose proof (sqrt_lt_R0 _ (variance_pos _ Hxy)) as Hs.
  unfold normalize_noise. rewrite mean2_spec, obind_Some, std_about_spec, obind_Some by done.
  unfold np_div_scalar. destruct (Req_dec_T _ 0) as [E|E]; [lra|by eexists].
Qed.

(** ** Witnesses on small fields *)

Lemma normalize_field_moments_witness :
  exists z', normalize_field 1 [[0; 1]; [2; 3]] = Some z' /\ has_shape 2 2 z'
    /\ mean2 z' = Some 0 /\ pop_std z' = Some (Rabs 1).
Proof.
  apply normalize_field_moments; [split; [reflexivity|repeat constructor]|lia|].
  exists 0, 1. split_and!; [apply list_elem_of_In; simpl; tauto..|lra].
Defined.

Lemma normalize_field_constant_witness :
  normalize_field 1 [[5; 5]; [5; 5]] = None.
Proof.
  apply (normalize_field_constant 2 1 5); [split; [reflexivity|repeat constructor]|lia|].
  intros x Hx. apply list_elem_of_In in Hx. simpl in Hx. intuition.
Defined.

Lemma normalize_field_affine_witness :
  normalize_field 1 (mat_map (fun x => 2 * x + 3) [[0; 1]; [2; 3]])
  = normalize_field 1 [[0; 1]; [2; 3]].
Proof. apply (normalize_field_affine 2); [split; [reflexivity|repeat constructor]|lia|lra]. Defined.

Lemma normalize_noise_moments_witness :
  exists X' m s, mean2 [[0; 1]; [1; 0]] = Some m /\ std_about m [[0; 1]; [1; 0]] = Some s
    /\ 0 < s /\ normalize_noise [[0; 1]; [1; 0]] = Some X' /\ has_shape 2 2 X'
    /\ mean2 X' = Some (m / s) /\ pop_std X' = Some 1.
Proof.
  apply normalize_noise_moments; [split; [reflexivity|repeat constructor]|lia|].
  exists 0, 1. split_and!; [apply list_elem_of_In; simpl; tauto..|lra].
Defined.
