(* ===== verification/Autocorrelation.v ===== *)
(** * Autocorrelation: the two autocorrelation models

    [NonGaussianSurfaceGenerator.autocorrelation] (lines 139-145) and
    [BesselNonGaussianSurfaceGenerator.autocorrelation] (lines 165-169)
    of [src/src/roughgan/data/generators.py], with the configuration the
    constructors store (lines 11-21, 127-137, 149-163), over the reals.

    Python's [tx / corlength_x] raises [ZeroDivisionError] on a zero
    divisor (the lags are Python ints, so even [0 / 0] raises).  The
    power [abs(r) ** (2 * alpha)] is a numpy float power: [0 ** y] is
    [0] for [y > 0], [1] for [y = 0] and [inf] for [y < 0], and
    [np.exp(-inf)] is [0]; [xreal] carries the infinity.  The model is
    over the reals: [np.exp] underflow to [0.0] for huge arguments is
    not modelled.  [sympy.besselj(0, x)] is [besselj0], defined by its
    power series [sum_k (-1)^k (x^2/4)^k / (k!)^2]. *)

From S2P Require Import Prelude LagGrid.
From Stdlib Require Import Reals Lra.

Local Open Scope R_scope.

(** The attributes [__init__] stores (lines 11-18). *)
Record config := {
  n_points : Z;
  rms : R;
  skewness : R;
  kurtosis : R;
  corlength_x : R;
  corlength_y : R;
  alpha : R
}.

(** [BesselNonGaussianSurfaceGenerator] adds [beta_x], [beta_y]
    (line 163). *)
Record bessel_config := {
  base : config;
  beta_x : R;
  beta_y : R
}.

(** The defaults of [NonGaussianSurfaceGenerator.__init__]
    (lines 127-137). *)
Definition default_config : config := {|
  n_points := 128; rms := 1; skewness := 0; kurtosis := 3;
  corlength_x := 4; corlength_y := 4; alpha := 1 |}.

(** The defaults of [BesselNonGaussianSurfaceGenerator.__init__]
    (lines 149-160). *)
Definition default_bessel_config : bessel_config := {|
  base := default_config; beta_x := 1; beta_y := 1 |}.

(** Configurations used by the witnesses: [alpha = 0], a zero
    correlation length, a zero Bessel period. *)
Definition flat_config : config := {|
  n_points := 8; rms := 1; skewness := 0; kurtosis := 3;
  corlength_x := 4; corlength_y := 4; alpha := 0 |}.
Definition zero_corlength_config : config := {|
  n_points := 8; rms := 1; skewness := 0; kurtosis := 3;
  corlength_x := 0; corlength_y := 4; alpha := 1 |}.
Definition zero_beta_config : bessel_config := {|
  base := default_config; beta_x := 0; beta_y := 1 |}.

(** Python's true division [x / y]. *)
Definition py_truediv (x y : R) : res R :=
  if Req_dec_T y 0 then Err ZeroDivisionError else Ok (x / y).

(** A float64 value that may be [+inf]. *)
Inductive xreal :=
| Fin (r : R)
| PInf.

(** [abs(x) ** y] on float64. *)
Definition np_abs_pow (x y : R) : xreal :=
  if Req_dec_T (Rabs x) 0 then
    (if Rlt_dec 0 y then Fin 0 else if Req_dec_T y 0 then Fin 1 else PInf)
  else Fin (Rpower (Rabs x) y).

(** [np.exp(-v)]. *)
Definition np_exp_neg (v : xreal) : R :=
  match v with
  | Fin r => exp (- r)
  | PInf => 0
  end.

(** Lines 139-145:
    [rms**2 * np.exp(-(abs(np.sqrt((tx/cx)**2 + (ty/cy)**2)) ** (2*alpha)))]. *)
Definition autocorrelation (c : config) (tx ty : Z) : res R :=
  a <- py_truediv (IZR tx) (corlength_x c) ;;
  b <- py_truediv (IZR ty) (corlength_y c) ;;
  Ok (rms c ^ 2 * np_exp_neg (np_abs_pow (sqrt (a ^ 2 + b ^ 2)) (2 * alpha c))).

(** The coefficients of J0 as a power series in [x^2 / 4]. *)
Definition j0_coef (k : nat) : R := (-1) ^ k / INR (fact k) ^ 2.

Lemma j0_coef_nonzero k : j0_coef k <> 0.
Proof.
  unfold j0_coef. pose proof (pow_nonzero (-1) k ltac:(lra)).
  pose proof (pow_nonzero _ 2 (INR_fact_neq_0 k)). intros E.
  apply Rmult_integral in E as [E|E]; [done|]. by apply Rinv_neq_0_compat in E.
Qed.

Lemma j0_coef_ratio k : Rabs (j0_coef (S k) / j0_coef k) = / INR (S k) ^ 2.
Proof.
  pose proof (INR_fact_neq_0 k). pose proof (pow_nonzero (-1) k ltac:(lra)).
  assert (HS : 0 < INR (S k)) by (apply lt_0_INR; lia).
  assert (E : j0_coef (S k) / j0_coef k = - / INR (S k) ^ 2).
  { unfold j0_coef. rewrite fact_simpl, mult_INR, <- tech_pow_Rmult.
    field. repeat split; lra || auto. }
  rewrite E, Rabs_Ropp, Rabs_pos_eq; [done|].
  apply Rlt_le, Rinv_0_lt_compat, pow_lt. lra.
Qed.

Lemma INR_S_sq_infty : cv_infty (fun k => INR (S k) ^ 2).
Proof.
  intros M. exists (Z.to_nat (up (Rabs M))). intros k Hk.
  destruct (archimed (Rabs M)) as [Hup _].
  assert (Hup0 : (0 <= up (Rabs M))%Z).
  { apply le_IZR. pose proof (Rabs_pos M). lra. }
  apply le_INR in Hk. rewrite INR_IZR_INZ, Z2Nat.id in Hk by done.
  pose proof (Rle_abs M). rewrite S_INR. pose proof (pos_INR k). nra.
Qed.

Lemma j0_coef_cv : Un_cv (fun k => Rabs (j0_coef (S k) / j0_coef k)) 0.
Proof.
  intros eps Heps. destruct (cv_infty_cv_0 _ INR_S_sq_infty eps Heps) as [N HN].
  exists N. intros k Hk. rewrite j0_coef_ratio. by apply HN.
Qed.

(** The sum of the series of J0 at [y = x^2 / 4] (Alembert's test). *)
Definition j0_series (y : R) : R :=
  proj1_sig (Alembert_C3 j0_coef y j0_coef_nonzero j0_coef_cv).

(** [sympy.besselj(0, x)]. *)
Definition besselj0 (x : R) : R := j0_series (x ^ 2 / 4).

(** Lines 165-169: the base model times
    [sympy.besselj(0, 2*np.pi*np.sqrt((tx/beta_x)**2 + (ty/beta_y)**2))];
    the base model is evaluated first. *)
Definition bessel_autocorrelation (c : bessel_config) (tx ty : Z) : res R :=
  v <- autocorrelation (base c) tx ty ;;
  a <- py_truediv (IZR tx) (beta_x c) ;;
  b <- py_truediv (IZR ty) (beta_y c) ;;
  Ok (v * besselj0 (2 * PI * sqrt (a ^ 2 + b ^ 2))).

(** ** The power series of J0 at 0 *)

Lemma pser_at_zero (An : nat -> R) : Pser An 0 (An 0%nat).
Proof.
  intros eps Heps. exists 0%nat. intros n _.
  replace (sum_f_R0 (fun k => An k * 0 ^ k) n) with (An 0%nat).
  - unfold Rdist. rewrite Rminus_diag, Rabs_R0. done.
  - induction n as [|n IH]; simpl; [ring|]. rewrite <- IH. ring.
Qed.

(** J0 takes the value 1 at 0, as [sympy.besselj(0, 0)] does. *)
Lemma besselj0_zero : besselj0 0 = 1.
Proof.
  unfold besselj0, j0_series.
  destruct (Alembert_C3 j0_coef (0 ^ 2 / 4) j0_coef_nonzero j0_coef_cv) as [l Hl]. simpl.
  replace (0 ^ 2 / 4) with 0 in Hl by field.
  rewrite (uniqueness_sum _ l (j0_coef 0%nat) Hl (pser_at_zero j0_coef)).
  unfold j0_coef. simpl. field.
Qed.

(** ** Helpers *)

Lemma exp_neg_bounds (r : R) : 0 <= r -> 0 < exp (- r) <= 1.
Proof.
  intros Hr. split; [apply exp_pos|]. destruct (Req_dec_T r 0) as [->|Hne].
  - rewrite Ropp_0, exp_0. lra.
  - left. rewrite <- exp_0. apply exp_increasing. lra.
Qed.

Lemma np_exp_neg_bounds (x y : R) : 0 <= np_exp_neg (np_abs_pow x y) <= 1.
Proof.
  unfold np_abs_pow.
  destruct (Req_dec_T (Rabs x) 0); [|simpl; unfold Rpower;
    pose proof (exp_neg_bounds (exp (y * ln (Rabs x))) (Rlt_le _ _ (exp_pos _))); lra].
  destruct (Rlt_dec 0 y); [|destruct (Req_dec_T y 0)]; simpl; [| |lra];
    [pose proof (exp_neg_bounds 0 (Rle_refl 0))|pose proof (exp_neg_bounds 1 Rle_0_1)]; lra.
Qed.

Lemma sq_opp_div (x y : R) : y <> 0 -> (- x / y) ^ 2 = (x / y) ^ 2.
Proof. intros Hy. field. done. Qed.

Lemma py_truediv_ok (x y : R) : y <> 0 -> py_truediv x y = Ok (x / y).
Proof. intros Hy. unfold py_truediv. by destruct (Req_dec_T y 0). Qed.

Lemma py_truediv_zero (x : R) : py_truediv x 0 = Err ZeroDivisionError.
Proof. unfold py_truediv. by destruct (Req_dec_T 0 0). Qed.

(** ** The base model *)

Lemma autocorrelation_origin_eq (c : config) :
  corlength_x c <> 0 -> corlength_y c <> 0 ->
  autocorrelation c 0 0
  = Ok (rms c ^ 2 * (if Rlt_dec 0 (alpha c) then 1
                     else if Req_dec_T (alpha c) 0 then exp (-1) else 0)).
Proof.
  intros Hx Hy. unfold autocorrelation.
  rewrite !py_truediv_ok by done. res_simpl. f_equal. f_equal.
  replace ((0 / corlength_x c) ^ 2 + (0 / corlength_y c) ^ 2) with 0 by (field; auto).
  rewrite sqrt_0. unfold np_abs_pow. rewrite Rabs_R0.
  destruct (Req_dec_T 0 0) as [_|]; [|done].
  destruct (Rlt_dec 0 (alpha c)), (Rlt_dec 0 (2 * alpha c)); try lra.
  - simpl. by rewrite Ropp_0, exp_0.
  - destruct (Req_dec_T (alpha c) 0), (Req_dec_T (2 * alpha c) 0); try lra; done.
Qed.

(** C27 The value of lines 139-145 at lag [(0, 0)]: [rms^2] when
    [alpha > 0], [rms^2 / e] when [alpha = 0] ([0 ** 0 = 1]) and [0]
    when [alpha < 0] ([0 ** negative = inf]). *)
Theorem autocorrelation_origin_cases (c : config) :
  corlength_x c <> 0 -> corlength_y c <> 0 ->
  autocorrelation c 0 0
  = Ok (rms c ^ 2 * (if Rlt_dec 0 (alpha c) then 1
                     else if Req_dec_T (alpha c) 0 then exp (-1) else 0)).
Proof. apply autocorrelation_origin_eq. Qed.

(** For [alpha > 0] the base model at lag [(0, 0)] is exactly
    [rms^2]. *)
Theorem autocorrelation_origin (c : config) :
  corlength_x c <> 0 -> corlength_y c <> 0 -> 0 < alpha c ->
  autocorrelation c 0 0 = Ok (rms c ^ 2).
Proof.
  intros Hx Hy Ha. rewrite autocorrelation_origin_eq by done.
  destruct (Rlt_dec 0 (alpha c)); [|lra]. by rewrite Rmult_1_r.
Qed.

Lemma autocorrelation_corlength0 (c : config) tx ty :
  corlength_x c = 0 \/ corlength_y c = 0 ->
  autocorrelation c tx ty = Err ZeroDivisionError.
Proof.
  intros [Hx|Hy]; unfold autocorrelation.
  - by rewrite Hx, py_truediv_zero.
  - destruct (Req_dec_T (corlength_x c) 0) as [->|Hx].
    + by rewrite py_truediv_zero.
    + by rewrite py_truediv_ok, Hy, py_truediv_zero by done.
Qed.

(** A zero correlation length is not rejected by [__init__]: every
    evaluation of the model raises [ZeroDivisionError]. *)
Theorem autocorrelation_zero_corlength (c : config) tx ty :
  corlength_x c = 0 \/ corlength_y c = 0 ->
  autocorrelation c tx ty = Err ZeroDivisionError.
Proof. apply autocorrelation_corlength0. Qed.

(** The base model is even in each lag. *)
Theorem autocorrelation_even (c : config) tx ty :
  autocorrelation c (- tx) ty = autocorrelation c tx ty
  /\ autocorrelation c tx (- ty) = autocorrelation c tx ty.
Proof.
  unfold autocorrelation, py_truediv. rewrite !opp_IZR.
  destruct (Req_dec_T (corlength_x c) 0), (Req_dec_T (corlength_y c) 0);
    split; try done; res_simpl; by rewrite sq_opp_div.
Qed.

Lemma autocorrelation_range (c : config) tx ty :
  corlength_x c <> 0 -> corlength_y c <> 0 ->
  exists v, autocorrelation c tx ty = Ok v /\ 0 <= v <= rms c ^ 2.
Proof.
  intros Hx Hy. unfold autocorrelation. rewrite !py_truediv_ok by done. res_simpl.
  eexists. split; [reflexivity|].
  pose proof (pow2_ge_0 (rms c)).
  pose proof (np_exp_neg_bounds (sqrt ((IZR tx / corlength_x c) ^ 2 + (IZR ty / corlength_y c) ^ 2))
                (2 * alpha c)). nra.
Qed.

(** Every value of the base model lies in [[0, rms^2]]. *)
Theorem autocorrelation_bounds (c : config) tx ty :
  corlength_x c <> 0 -> corlength_y c <> 0 ->
  exists v, autocorrelation c tx ty = Ok v /\ 0 <= v <= rms c ^ 2.
Proof. apply autocorrelation_range. Qed.

(** ** The Bessel model *)

(** The Bessel model at lag [(0, 0)] equals the base model there,
    [rms^2] for [alpha > 0]: J0 is 1 at 0. *)
Theorem bessel_autocorrelation_origin (c : bessel_config) :
  corlength_x (base c) <> 0 -> corlength_y (base c) <> 0 -> 0 < alpha (base c) ->
  beta_x c <> 0 -> beta_y c <> 0 ->
  bessel_autocorrelation c 0 0 = Ok (rms (base c) ^ 2).
Proof.
  intros Hx Hy Ha Hbx Hby. unfold bessel_autocorrelation.
  rewrite autocorrelation_origin by done. res_simpl.
  rewrite !py_truediv_ok by done. res_simpl.
  replace (2 * PI * sqrt ((0 / beta_x c) ^ 2 + (0 / beta_y c) ^ 2)) with 0.
  - by rewrite besselj0_zero, Rmult_1_r.
  - replace ((0 / beta_x c) ^ 2 + (0 / beta_y c) ^ 2) with 0 by (field; auto).
    rewrite sqrt_0. ring.
Qed.

Lemma bessel_autocorrelation_beta0 (c : bessel_config) tx ty :
  corlength_x (base c) <> 0 -> corlength_y (base c) <> 0 ->
  beta_x c = 0 \/ beta_y c = 0 ->
  bessel_autocorrelation c tx ty = Err ZeroDivisionError.
Proof.
  intros Hx Hy Hb. unfold bessel_autocorrelation.
  destruct (autocorrelation_range (base c) tx ty Hx Hy) as [v [-> _]]. res_simpl.
  destruct Hb as [Hb|Hb].
  - by rewrite Hb, py_truediv_zero.
  - destruct (Req_dec_T (beta_x c) 0) as [->|Hbx].
    + by rewrite py_truediv_zero.
    + by rewrite py_truediv_ok, Hb, py_truediv_zero by done.
Qed.

(** A zero period [beta_x] or [beta_y] raises [ZeroDivisionError]
    after the base model has been evaluated. *)
Theorem bessel_autocorrelation_zero_beta (c : bessel_config) tx ty :
  corlength_x (base c) <> 0 -> corlength_y (base c) <> 0 ->
  beta_x c = 0 \/ beta_y c = 0 ->
  bessel_autocorrelation c tx ty = Err ZeroDivisionError.
Proof. apply bessel_autocorrelation_beta0. Qed.

(** ** The lag grid of the base model (lines 54-67 with lines 139-145) *)

(** With the base model, the grid of [generate_surface] has [rms^2]
    at its centre and every cell in [[0, rms^2]]. *)
Theorem base_grid_spec (c : config) n :
  corlength_x c <> 0 -> corlength_y c <> 0 -> 0 < alpha c -> (2 <= n)%Z ->
  exists R, autocorrelation_grid 0 (autocorrelation c) n = Ok (R, 1%Z, 1%Z)
    /\ lookup2 R (Z.to_nat (n / 2)) (Z.to_nat (n / 2)) = Some (rms c ^ 2)
    /\ forall i j v, lookup2 R i j = Some v -> 0 <= v <= rms c ^ 2.
Proof.
  intros Hx Hy Ha Hn.
  set (g := fun tx ty => match autocorrelation c tx ty with Ok v => v | Err _ => 0 end).
  assert (Hfg : forall tx ty, autocorrelation c tx ty = Ok (g tx ty)).
  { intros tx ty. unfold g. by destruct (autocorrelation_range c tx ty Hx Hy) as [v [-> _]]. }
  destruct (autocorrelation_grid_centre_cell 0 (autocorrelation c) g n Hfg Hn) as [R [ER HR]].
  exists R. split_and!; [done| |].
  - rewrite HR. unfold g. by rewrite autocorrelation_origin.
  - intros i j v Hv. rewrite (autocorrelation_grid_eq 0 _ g n Hfg) in ER by lia.
    injection ER as <-. apply grid_table_lookup_inv in Hv as ->.
    unfold g. destruct (autocorrelation_range c (lag n (Z.of_nat i)) (lag n (Z.of_nat j)) Hx Hy)
      as [w [-> Hw]]. done.
Qed.

(** A zero correlation length passes the constructor and surfaces as
    a [ZeroDivisionError] in the first iteration of the lag-grid loop. *)
Theorem base_grid_zero_corlength (c : config) n :
  corlength_x c = 0 \/ corlength_y c = 0 -> (0 < n)%Z ->
  autocorrelation_grid 0 (autocorrelation c) n = Err ZeroDivisionError.
Proof.
  intros Hc Hn. apply autocorrelation_grid_err; [|done].
  intros tx ty. by apply autocorrelation_corlength0.
Qed.

(** ** Witnesses at the constructors' defaults *)

Lemma autocorrelation_origin_cases_witness :
  autocorrelation flat_config 0 0
  = Ok (rms flat_config ^ 2 * (if Rlt_dec 0 (alpha flat_config) then 1
        else if Req_dec_T (alpha flat_config) 0 then exp (-1) else 0)).
Proof. apply autocorrelation_origin_cases; simpl; lra. Defined.

Lemma autocorrelation_origin_witness :
  autocorrelation default_config 0 0 = Ok (rms default_config ^ 2).
Proof. apply autocorrelation_origin; simpl; lra. Defined.

Lemma autocorrelation_zero_corlength_witness :
  autocorrelation zero_corlength_config 3 1 = Err ZeroDivisionError.
Proof. apply autocorrelation_zero_corlength. left. reflexivity. Defined.

Lemma autocorrelation_bounds_witness :
  exists v, autocorrelation default_config 2 (-1) = Ok v /\ 0 <= v <= rms default_config ^ 2.
Proof. apply autocorrelation_bounds; simpl; lra. Defined.

Lemma bessel_autocorrelation_origin_witness :
  bessel_autocorrelation default_bessel_config 0 0 = Ok (rms (base default_bessel_config) ^ 2).
Proof. apply bessel_autocorrelation_origin; simpl; lra. Defined.

Lemma bessel_autocorrelation_zero_beta_witness :
  bessel_autocorrelation zero_beta_config 1 2 = Err ZeroDivisionError.
Proof. apply bessel_autocorrelation_zero_beta; simpl; [lra|lra|left; reflexivity]. Defined.

Lemma base_grid_spec_witness :
  exists R, autocorrelation_grid 0 (autocorrelation default_config) 4 = Ok (R, 1%Z, 1%Z)
    /\ lookup2 R (Z.to_nat (4 / 2)) (Z.to_nat (4 / 2)) = Some (rms default_config ^ 2)
    /\ forall i j v, lookup2 R i j = Some v -> 0 <= v <= rms default_config ^ 2.
Proof. apply base_grid_spec; simpl; (lra || lia). Defined.

Lemma base_grid_zero_corlength_witness :
  autocorrelation_grid 0 (autocorrelation zero_corlength_config) 4 = Err ZeroDivisionError.
Proof. apply base_grid_zero_corlength; [left; reflexivity|lia]. Defined.
