(* ===== verification/Spectral.v ===== *)
(** * Spectral: the Fourier steps of [generate_surface]

    Lines 69-71 (the power spectrum [AMPR] of the autocorrelation grid)
    and 81-88 (the white noise filtered by [sqrt(AMPR)]) of
    [src/src/roughgan/data/generators.py].  numpy's complex numbers are
    pairs of reals; [np.fft.fft2(X, s=(n, n))] and [np.fft.ifft2] are the
    two-dimensional discrete Fourier sums they compute, written out: the
    cell [(k, l)] of [fft2] is [sum_(a, b) X[a, b] exp(-2 pi i (a k + b l) / n)]
    and [ifft2] has the opposite sign and the factor [1 / n^2].  A cell
    outside the input reads as [0], which is numpy's zero padding of
    [s=(n, n)].

    The theorems show that the filter is linear in the noise and in the
    square root of the spectrum: a positive factor on either comes out
    of [filter_noise] unchanged, so that the final normalisation of
    lines 90-93 removes it. *)

From S2P Require Import Prelude Stats.
From Stdlib Require Import Reals Lra.

Local Open Scope R_scope.

(** A numpy [complex128]. *)
Record cplx := mkC { re : R; im : R }.

#[export] Instance cplx_inhabited : Inhabited cplx := populate (mkC 0 0).

Definition c0 : cplx := mkC 0 0.
Definition cadd (z w : cplx) : cplx := mkC (re z + re w) (im z + im w).
Definition cmul (z w : cplx) : cplx :=
  mkC (re z * re w - im z * im w) (re z * im w + im z * re w).
(** A real times a complex number. *)
Definition cscale (r : R) (z : cplx) : cplx := mkC (r * re z) (r * im z).
(** A float read as a complex number by [np.fft]. *)
Definition of_real (x : R) : cplx := mkC x 0.
(** [abs] of a complex number (line 71). *)
Definition cabs (z : cplx) : R := sqrt (re z ^ 2 + im z ^ 2).
(** [exp(i t)]. *)
Definition cis (t : R) : cplx := mkC (cos t) (sin t).
Definition csum (l : list cplx) : cplx := foldr cadd c0 l.

(** The two-dimensional Fourier sum at frequency [(k, l)], with the sign
    [sgn] of the exponent. *)
Definition dft2_at (sgn : R) (n : nat) (X : list (list cplx)) (k l : nat) : cplx :=
  csum ((fun a => csum ((fun b =>
           cmul ((X !!! a) !!! b) (cis (sgn * 2 * PI * INR (a * k + b * l) / INR n)))
         <$> seq 0 n)) <$> seq 0 n).

(** [np.fft.fft2(X, s=(n, n))]. *)
Definition fft2 (n : nat) (X : list (list cplx)) : list (list cplx) :=
  (fun k => (fun l => dft2_at (-1) n X k l) <$> seq 0 n) <$> seq 0 n.

(** [np.fft.ifft2(Y, s=(n, n))]. *)
Definition ifft2 (n : nat) (Y : list (list cplx)) : list (list cplx) :=
  (fun k => (fun l => cscale (/ INR (n * n)) (dft2_at 1 n Y k l)) <$> seq 0 n) <$> seq 0 n.

Definition cmat_map (f : cplx -> cplx) (M : list (list cplx)) : list (list cplx) :=
  (fun row : list cplx => f <$> row) <$> M.

(** A real array passed to [np.fft]. *)
Definition to_cmat (M : list (list R)) : list (list cplx) :=
  (fun row : list R => of_real <$> row) <$> M.

(** [np.real] (line 88). *)
Definition mat_re (M : list (list cplx)) : list (list R) :=
  (fun row : list cplx => re <$> row) <$> M.

(** Lines 70-71: [FR = np.fft.fft2(R, s=(n, n))] and
    [AMPR = np.sqrt(dtx**2 + dty**2) * abs(FR)]. *)
Definition spectrum (n : nat) (Rg : list (list R)) (dtx dty : Z) : list (list R) :=
  (fun row : list cplx => (fun w => sqrt (IZR dtx ^ 2 + IZR dty ^ 2) * cabs w) <$> row)
    <$> fft2 n (to_cmat Rg).

(** Lines 81-88: [XF = np.fft.fft2(X, s=(n, n))],
    [YF = XF * np.sqrt(AMPR)], [z = np.real(np.fft.ifft2(YF, s=(n, n)))]. *)
Definition filter_noise (n : nat) (AMPR X : list (list R)) : list (list R) :=
  let XF := fft2 n (to_cmat X) in
  let YF := zip_with (zip_with (fun x a => cscale (sqrt a) x)) XF AMPR in
  mat_re (ifft2 n YF).

(** ** Complex arithmetic *)

Lemma cplx_eq (z w : cplx) : re z = re w -> im z = im w -> z = w.
Proof. destruct z, w; simpl. by intros -> ->. Qed.

Ltac cplx_ring := apply cplx_eq; simpl; ring.

Lemma cscale_c0 r : cscale r c0 = c0.
Proof. cplx_ring. Qed.

Lemma cscale_cadd r z w : cscale r (cadd z w) = cadd (cscale r z) (cscale r w).
Proof. cplx_ring. Qed.

Lemma cmul_cscale_l r z w : cmul (cscale r z) w = cscale r (cmul z w).
Proof. cplx_ring. Qed.


Lemma cscale_comm r q z : cscale r (cscale q z) = cscale q (cscale r z).
Proof. cplx_ring. Qed.

Lemma of_real_scale r x : of_real (r * x) = cscale r (of_real x).
Proof. cplx_ring. Qed.


Lemma csum_scale r (f : nat -> cplx) (l : list nat) :
  csum ((fun a => cscale r (f a)) <$> l) = cscale r (csum (f <$> l)).
Proof.
  induction l as [|a l IH]; [symmetry; apply cscale_c0|].
  rewrite !fmap_cons. unfold csum in *. cbn [foldr]. by rewrite IH, cscale_cadd.
Qed.

Lemma csum_fmap_scale r (f g : nat -> cplx) (l : list nat) :
  (forall a, g a = cscale r (f a)) -> csum (g <$> l) = cscale r (csum (f <$> l)).
Proof.
  intros Hfg. rewrite <- csum_scale. f_equal. apply list_fmap_ext. intros _ a _. apply Hfg.
Qed.

(** ** Linearity of the Fourier steps *)

Lemma cmat_map_lookup_total f (X : list (list cplx)) a b :
  f c0 = c0 -> (cmat_map f X !!! a) !!! b = f ((X !!! a) !!! b).
Proof.
  intros Hf. unfold cmat_map.
  rewrite (list_lookup_total_fmap_inh (fun row : list cplx => f <$> row)) by done.
  by apply list_lookup_total_fmap_inh.
Qed.

Lemma dft2_at_scale sgn n r (X : list (list cplx)) k l :
  dft2_at sgn n (cmat_map (cscale r) X) k l = cscale r (dft2_at sgn n X k l).
Proof.
  unfold dft2_at. apply csum_fmap_scale. intros a. apply csum_fmap_scale. intros b.
  rewrite cmat_map_lookup_total by apply cscale_c0. apply cmul_cscale_l.
Qed.

Lemma cmat_map_seq f (g : nat -> nat -> cplx) n :
  cmat_map f ((fun k => (fun l => g k l) <$> seq 0 n) <$> seq 0 n)
  = (fun k => (fun l => f (g k l)) <$> seq 0 n) <$> seq 0 n.
Proof.
  unfold cmat_map. rewrite <- list_fmap_compose. apply list_fmap_ext. intros _ k _.
  simpl. by rewrite <- list_fmap_compose.
Qed.

Lemma fft2_scale n r (X : list (list cplx)) :
  fft2 n (cmat_map (cscale r) X) = cmat_map (cscale r) (fft2 n X).
Proof.
  unfold fft2. rewrite cmat_map_seq. apply list_fmap_ext. intros _ k _.
  apply list_fmap_ext. intros _ l _. apply dft2_at_scale.
Qed.

Lemma ifft2_scale n r (Y : list (list cplx)) :
  ifft2 n (cmat_map (cscale r) Y) = cmat_map (cscale r) (ifft2 n Y).
Proof.
  unfold ifft2. rewrite cmat_map_seq. apply list_fmap_ext. intros _ k _.
  apply list_fmap_ext. intros _ l _. by rewrite dft2_at_scale, cscale_comm.
Qed.

Lemma to_cmat_scale r (X : list (list R)) :
  to_cmat (mat_map (fun x => r * x) X) = cmat_map (cscale r) (to_cmat X).
Proof.
  unfold to_cmat, mat_map, cmat_map. rewrite <- !list_fmap_compose.
  apply list_fmap_ext. intros _ row _. simpl. rewrite <- !list_fmap_compose.
  apply list_fmap_ext. intros _ x _. apply of_real_scale.
Qed.

Lemma mat_re_scale r (M : list (list cplx)) :
  mat_re (cmat_map (cscale r) M) = mat_map (fun x => r * x) (mat_re M).
Proof.
  unfold mat_re, mat_map, cmat_map. rewrite <- !list_fmap_compose.
  apply list_fmap_ext. intros _ row _. simpl. by rewrite <- !list_fmap_compose.
Qed.

Lemma zip_with_cscale r (XF : list (list cplx)) (A : list (list R)) :
  zip_with (zip_with (fun x a => cscale (sqrt a) x)) (cmat_map (cscale r) XF) A
  = cmat_map (cscale r) (zip_with (zip_with (fun x a => cscale (sqrt a) x)) XF A).
Proof.
  unfold cmat_map. rewrite zip_with_fmap_l, fmap_zip_with.
  apply zip_with_ext; [|done|done]. intros row arow.
  rewrite zip_with_fmap_l, fmap_zip_with. apply zip_with_ext; [|done|done].
  intros x a. apply cscale_comm.
Qed.

(** The filter of lines 81-88 is linear in the noise: a factor [r] on
    [X] is a factor [r] on the filtered field. *)
Lemma filter_noise_scale n r (AMPR X : list (list R)) :
  filter_noise n AMPR (mat_map (fun x => r * x) X)
  = mat_map (fun x => r * x) (filter_noise n AMPR X).
Proof.
  unfold filter_noise.
  by rewrite to_cmat_scale, fft2_scale, zip_with_cscale, ifft2_scale, mat_re_scale.
Qed.

(** ** Shapes *)

Lemma has_shape_fft2 n (X : list (list cplx)) : has_shape n n (fft2 n X).
Proof. apply (has_shape_grid n (dft2_at (-1) n X)). Qed.

Lemma has_shape_ifft2 n (Y : list (list cplx)) : has_shape n n (ifft2 n Y).
Proof. apply (has_shape_grid n (fun k l => cscale (/ INR (n * n)) (dft2_at 1 n Y k l))). Qed.

Lemma has_shape_spectrum n (Rg : list (list R)) dtx dty :
  has_shape n n (spectrum n Rg dtx dty).
Proof. apply has_shape_fmap2, has_shape_fft2. Qed.

(** The filtered field is [n x n] whatever the noise. *)
Lemma has_shape_filter_noise n (AMPR X : list (list R)) :
  has_shape n n (filter_noise n AMPR X).
Proof. apply has_shape_fmap2, has_shape_ifft2. Qed.
