(* ===== verification/Generator.v ===== *)
(** * Generator: the driver protocol of [SurfaceGenerator]

    Lines 11-39 of [src/src/roughgan/data/generators.py] and their
    callers [load_dataset_from_generator] ([src/src/roughgan/data/loaders.py],
    lines 13-20) and [generate] ([src/src/roughml/cli/dataset.py],
    lines 42-49).

    The machine state is the one generator object (its configuration,
    [_mean] and [_length]), the Python generator frames that
    [__iter__] has created, and numpy's global random state.  The
    operations are [g(length)] ([__call__]: it stores the length in the
    object and returns the same object), [len(g)] ([__len__] through
    Python's [len], which refuses a negative or non-integer result),
    [iter(g)] (a new frame, no code run yet) and [next(it)] (the first
    call evaluates [range(self._length)], every call that yields runs
    [generate_surface]).  A frame that returned or raised is finished:
    [next] on it raises [StopIteration] again.

    [generate_surface] is a parameter of the section: the theorems here
    hold for any surface computation that reads the object and threads
    the random state.  [gen_seq] runs the loop of [__iter__] eagerly;
    [collect_refines_gen_seq] shows that the lazy frames compute it,
    with a [StopIteration] raised by [generate_surface] turned into
    [RuntimeError] as Python does for generator bodies. *)

From S2P Require Import Prelude.

(** The state of a frame of the generator function [__iter__]. *)
Inductive frame :=
| Created
| Running (remaining : nat)
| Finished.

Section Driver.
Context {Cfg Seed Surface : Type}.

(** The attributes of a generator object. *)
Record gen_obj := {
  cfg : Cfg;
  g_mean : Z;
  g_length : pyval
}.

Record machine := {
  obj : gen_obj;
  frames : list frame;
  rng : Seed
}.

Context (generate_surface : gen_obj -> Seed -> res (Surface * Seed)).

(** [__init__] (lines 11-21): [_mean = 0], [_length = 0]. *)
Definition gen_init (c : Cfg) (s : Seed) : machine :=
  {| obj := {| cfg := c; g_mean := 0; g_length := PInt 0 |}; frames := []; rng := s |}.

(** [g(length)] (lines 29-32): [self._length = length; return self]. *)
Definition m_call (len : pyval) (m : machine) : machine :=
  {| obj := {| cfg := cfg (obj m); g_mean := g_mean (obj m); g_length := len |};
     frames := frames m; rng := rng m |}.

(** [len(g)] (lines 34-35): Python's [len] raises [ValueError] for a
    negative [__len__] and [TypeError] for a non-integer one. *)
Definition m_len (m : machine) : res Z :=
  match g_length (obj m) with
  | PInt z => if (z <? 0)%Z then Err ValueError else Ok z
  | PNone => Err TypeError
  end.

(** [iter(g)] (line 37): a new frame; returns its index. *)
Definition m_iter (m : machine) : machine * nat :=
  ({| obj := obj m; frames := frames m ++ [Created]; rng := rng m |}, length (frames m)).

(** An exception leaving a generator body: a [StopIteration] raised
    inside it becomes a [RuntimeError] (PEP 479). *)
Definition gen_error (e : pyexc) : pyexc :=
  match e with
  | StopIteration => RuntimeError
  | _ => e
  end.

(** One pass of [for _ in range(...): yield self.generate_surface()]
    with [k] values of the range left. *)
Definition run_step (o : gen_obj) (k : nat) (s : Seed) : res Surface * frame * Seed :=
  match k with
  | O => (Err StopIteration, Finished, s)
  | S k' =>
      match generate_surface o s with
      | Ok (surf, s') => (Ok surf, Running k', s')
      | Err e => (Err (gen_error e), Finished, s)
      end
  end.

(** [next] on a frame: the first call evaluates [range(self._length)]
    ([TypeError] for [None]; a negative int gives an empty range). *)
Definition frame_next (o : gen_obj) (f : frame) (s : Seed) : res Surface * frame * Seed :=
  match f with
  | Created =>
      match g_length o with
      | PNone => (Err TypeError, Finished, s)
      | PInt z => run_step o (Z.to_nat z) s
      end
  | Running k => run_step o k s
  | Finished => (Err StopIteration, Finished, s)
  end.

(** [next(it)] for the frame [id]. *)
Definition m_next (id : nat) (m : machine) : res Surface * machine :=
  match frames m !! id with
  | None => (Err TypeError, m)
  | Some f =>
      let '(r, f', s') := frame_next (obj m) f (rng m) in
      (r, {| obj := obj m; frames := <[id := f']> (frames m); rng := s' |})
  end.

(** [for x in it: out.append(x)]: [next] until [StopIteration], any
    other exception propagates; [None] when the fuel runs out. *)
Fixpoint drain (fuel : nat) (id : nat) (m : machine) : option (res (list Surface) * machine) :=
  match fuel with
  | O => None
  | S fuel' =>
      let '(r, m') := m_next id m in
      match r with
      | Ok surf =>
          match drain fuel' id m' with
          | Some (Ok rest, m'') => Some (Ok (surf :: rest), m'')
          | Some (Err e, m'') => Some (Err e, m'')
          | None => None
          end
      | Err StopIteration => Some (Ok [], m')
      | Err e => Some (Err e, m')
      end
  end.

(** [for surface in g(len): surfaces.append(surface)] (loaders.py
    lines 16-18). *)
Definition collect (fuel : nat) (len : pyval) (m : machine) :
    option (res (list Surface) * machine) :=
  let '(m', id) := m_iter (m_call len m) in drain fuel id m'.

(** [tqdm.tqdm(generator(dataset_size))] then the loop (dataset.py lines
    43-45): tqdm asks [len()] for its total and catches only
    [TypeError] (and [AttributeError]). *)
Definition cli_collect (fuel : nat) (len : pyval) (m : machine) :
    option (res (list Surface) * machine) :=
  let m1 := m_call len m in
  match m_len m1 with
  | Err ValueError => Some (Err ValueError, m1)
  | _ => let '(m', id) := m_iter m1 in drain fuel id m'
  end.

(** The loop of lines 38-39 run eagerly, the reference the lazy frames
    implement: [k] calls of [generate_surface] threading the random
    state, stopped by the first exception. *)
Fixpoint gen_seq (o : gen_obj) (k : nat) (s : Seed) : res (list Surface) * Seed :=
  match k with
  | O => (Ok [], s)
  | S k' =>
      match generate_surface o s with
      | Ok (surf, s') =>
          let '(r, s'') := gen_seq o k' s' in (rest <- r ;; Ok (surf :: rest), s'')
      | Err e => (Err (gen_error e), s)
      end
  end.

(** Every operation a client can perform on the machine. *)
Inductive op :=
| OpCall (len : pyval)
| OpIter
| OpNext (id : nat).

Definition m_step (o : op) (m : machine) : machine :=
  match o with
  | OpCall len => m_call len m
  | OpIter => fst (m_iter m)
  | OpNext id => snd (m_next id m)
  end.

(** Reachability by any sequence of operations. *)
Inductive reachable (m0 : machine) : machine -> Prop :=
| reach_init : reachable m0 m0
| reach_step o m : reachable m0 m -> reachable m0 (m_step o m).
End Driver.

(** [load_dataset_from_generator] (loaders.py lines 13-18) up to the
    dataset container: a fresh generator, then [for surface in
    generate_surfaces(limit)]; [limit] defaults to [None]. *)
Definition load_dataset_from_generator {Cfg Seed Surface}
    (generate_surface : gen_obj -> Seed -> res (Surface * Seed))
    (fuel : nat) (limit : pyval) (c : Cfg) (s : Seed) :
    option (res (list Surface) * machine) :=
  collect generate_surface fuel limit (gen_init c s).

(** A surface source for the witnesses: the surface is the current
    random state, which it advances by one. *)
Definition counter_gen (o : @gen_obj unit) (s : nat) : res (nat * nat) := Ok (s, S s).

Definition m_start : @machine unit nat := gen_init tt 0.

Section DriverProofs.
Context {Cfg Seed Surface : Type}.
Context (gen : @gen_obj Cfg -> Seed -> res (Surface * Seed)).

(** [generate_surface] never raises on an object with configuration
    [c] (for instance when [c] holds valid parameters). *)
Definition gen_total (c : Cfg) : Prop :=
  forall o s, cfg o = c -> exists surf s', gen o s = Ok (surf, s').

Lemma lookup_frames_insert (fs : list frame) id f f' :
  fs !! id = Some f -> <[id := f']> fs !! id = Some f'.
Proof. intros H. apply list_lookup_insert_eq. by eapply lookup_lt_Some. Qed.

Lemma m_next_running_0 id (m : machine) :
  frames m !! id = Some (Running 0) ->
  m_next gen id m
  = (Err StopIteration, {| obj := obj m; frames := <[id := Finished]> (frames m); rng := rng m |}).
Proof. intros Hf. unfold m_next. by rewrite Hf. Qed.

Lemma m_next_running_S id (m : machine) k surf s' :
  frames m !! id = Some (Running (S k)) -> gen (obj m) (rng m) = Ok (surf, s') ->
  m_next gen id m
  = (Ok surf, {| obj := obj m; frames := <[id := Running k]> (frames m); rng := s' |}).
Proof. intros Hf Hg. unfold m_next. rewrite Hf. simpl. by rewrite Hg. Qed.

(** Draining a running frame with [k] values left yields [k] surfaces
    and leaves the frame finished. *)
Lemma drain_running k fuel id (m : machine) :
  gen_total (cfg (obj m)) -> frames m !! id = Some (Running k) -> k < fuel ->
  exists ss m', drain gen fuel id m = Some (Ok ss, m') /\ length ss = k
    /\ frames m' !! id = Some Finished /\ obj m' = obj m
    /\ length (frames m') = length (frames m).
Proof.
  revert fuel m. induction k as [|k IH]; intros fuel m Hgen Hf Hk;
    (destruct fuel as [|fuel]; [lia|]); cbn [drain].
  - rewrite m_next_running_0 by done.
    eexists [], _. split_and!; [done|done| |done|].
    + cbn [frames]. by eapply lookup_frames_insert.
    + cbn [frames]. by rewrite length_insert.
  - destruct (Hgen (obj m) (rng m) eq_refl) as (surf & s' & Hg).
    rewrite (m_next_running_S id m k surf s' Hf Hg).
    destruct (IH fuel {| obj := obj m; frames := <[id:=Running k]> (frames m); rng := s' |})
      as (ss & m' & E & Hlen & Hfin & Hobj & Hfl); [exact Hgen|by eapply lookup_frames_insert|lia|].
    rewrite E. eexists (surf :: ss), m'. cbn [frames] in Hfl. rewrite length_insert in Hfl.
    split_and!; [done|by rewrite length_cons, Hlen|done|done|done].
Qed.

(** The first [next] of a frame evaluates [range(self._length)]: from
    then on the frame behaves as a running frame with that many values. *)
Lemma m_next_created (id : nat) (m : machine) z :
  frames m !! id = Some Created -> g_length (obj m) = PInt z ->
  m_next gen id m
  = m_next gen id {| obj := obj m; frames := <[id := Running (Z.to_nat z)]> (frames m);
                     rng := rng m |}.
Proof.
  intros Hf Hl. unfold m_next. cbn [frames obj rng].
  rewrite Hf, (lookup_frames_insert _ _ _ _ Hf). cbn [frame_next]. rewrite Hl.
  destruct (run_step gen (obj m) (Z.to_nat z) (rng m)) as [[r f'] s'].
  by rewrite list_insert_insert_eq.
Qed.

Lemma drain_created fuel id (m : machine) z :
  gen_total (cfg (obj m)) -> frames m !! id = Some Created -> g_length (obj m) = PInt z ->
  Z.to_nat z < fuel ->
  exists ss m', drain gen fuel id m = Some (Ok ss, m') /\ length ss = Z.to_nat z
    /\ frames m' !! id = Some Finished /\ obj m' = obj m
    /\ length (frames m') = length (frames m).
Proof.
  intros Hgen Hf Hl Hk. destruct fuel as [|fuel]; [lia|].
  destruct (drain_running (Z.to_nat z) (S fuel) id
    {| obj := obj m; frames := <[id := Running (Z.to_nat z)]> (frames m); rng := rng m |})
    as (ss & m' & E & Hlen & Hfin & Hobj & Hfl); [done|by eapply lookup_frames_insert|done|].
  exists ss, m'. simpl in Hfl. rewrite length_insert in Hfl.
  split_and!; [|done|done|done|done].
  simpl. rewrite (m_next_created id m z Hf Hl). exact E.
Qed.

Lemma m_iter_lookup (m : @machine Cfg Seed) :
  frames (fst (m_iter m)) !! snd (m_iter m) = Some Created.
Proof. simpl. apply list_lookup_middle. done. Qed.

(** A surface returned by [next] comes from one call of
    [generate_surface] on the (unchanged) object. *)
Lemma m_next_Ok id (m m1 : machine) surf :
  m_next gen id m = (Ok surf, m1) ->
  obj m1 = obj m /\ exists s', gen (obj m) (rng m) = Ok (surf, s').
Proof.
  unfold m_next, frame_next, run_step. repeat case_match; intros; simplify_eq; eauto.
Qed.


(** Every surface of a completed loop satisfies what every call of
    [generate_surface] on the object guarantees. *)
Lemma drain_Forall (P : Surface -> Prop) fuel id (m m' : machine) ss :
  (forall s surf s', gen (obj m) s = Ok (surf, s') -> P surf) ->
  drain gen fuel id m = Some (Ok ss, m') -> Forall P ss.
Proof.
  revert m ss. induction fuel as [|fuel IH]; intros m ss HP E; [done|].
  cbn [drain] in E. destruct (m_next gen id m) as [r m1] eqn:Em.
  destruct r as [surf|e].
  - destruct (m_next_Ok id m m1 surf Em) as [Hobj [s' Hg]].
    destruct (drain gen fuel id m1) as [[[rest|e] m'']|] eqn:Ed; simplify_eq.
    constructor; [by eapply HP|]. eapply IH; [|exact Ed]. rewrite Hobj. exact HP.
  - destruct e; simplify_eq; constructor.
Qed.

(** With a non-negative count, [len()] succeeds and the command line's
    loop is the loader's. *)
Lemma cli_collect_collect fuel z (m : machine) :
  (0 <= z)%Z -> cli_collect gen fuel (PInt z) m = collect gen fuel (PInt z) m.
Proof.
  intros Hz. unfold cli_collect, m_len. cbn [obj g_length m_call].
  by destruct (Z.ltb_spec z 0); [lia|].
Qed.

(** [for surface in g(k)] yields exactly [max(k, 0)] surfaces, and
    the frame is exhausted afterwards: one more [next] raises
    [StopIteration]. *)
Theorem collect_count fuel z (m : machine) :
  gen_total (cfg (obj m)) -> Z.to_nat z < fuel ->
  exists ss m', collect gen fuel (PInt z) m = Some (Ok ss, m')
    /\ length ss = Z.to_nat z
    /\ fst (m_next gen (length (frames m)) m') = Err StopIteration.
Proof.
  intros Hgen Hk. unfold collect.
  destruct (drain_created fuel (length (frames m)) (fst (m_iter (m_call (PInt z) m))) z)
    as (ss & m' & E & Hlen & Hfin & _ & _); [done|exact (m_iter_lookup (m_call (PInt z) m))|done|done|].
  exists ss, m'. split_and!; [exact E|done|].
  unfold m_next. by rewrite Hfin.
Qed.

(** Draining a running frame is the eager loop on the rest of the
    range, errors included. *)
Lemma drain_running_seq k fuel id (m : machine) :
  frames m !! id = Some (Running k) -> k < fuel ->
  exists m', drain gen fuel id m = Some ((gen_seq gen (obj m) k (rng m)).1, m')
    /\ rng m' = (gen_seq gen (obj m) k (rng m)).2 /\ obj m' = obj m.
Proof.
  revert fuel m. induction k as [|k IH]; intros fuel m Hf Hk;
    (destruct fuel as [|fuel]; [lia|]); cbn [drain gen_seq].
  - rewrite m_next_running_0 by done. by eexists.
  - destruct (gen (obj m) (rng m)) as [[surf s']|e] eqn:Hg.
    + rewrite (m_next_running_S id m k surf s' Hf Hg).
      destruct (IH fuel {| obj := obj m; frames := <[id:=Running k]> (frames m); rng := s' |})
        as (m' & E & Hr & Ho); [by eapply lookup_frames_insert|lia|].
      rewrite E. cbn [obj rng] in *.
      destruct (gen_seq gen (obj m) k s') as [[rest|e] s''] eqn:Hs; simpl; by eexists.
    + unfold m_next. rewrite Hf. cbn. rewrite Hg.
      destruct e; eexists; (split; [reflexivity|done]).
Qed.

Lemma drain_created_seq fuel id (m : machine) z :
  frames m !! id = Some Created -> g_length (obj m) = PInt z -> Z.to_nat z < fuel ->
  exists m', drain gen fuel id m = Some ((gen_seq gen (obj m) (Z.to_nat z) (rng m)).1, m')
    /\ rng m' = (gen_seq gen (obj m) (Z.to_nat z) (rng m)).2 /\ obj m' = obj m.
Proof.
  intros Hf Hl Hk. destruct fuel as [|fuel]; [lia|].
  destruct (drain_running_seq (Z.to_nat z) (S fuel) id
    {| obj := obj m; frames := <[id := Running (Z.to_nat z)]> (frames m); rng := rng m |})
    as (m' & E & Hr & Ho); [by eapply lookup_frames_insert|done|].
  exists m'. split_and!; [|done|done]. simpl. rewrite (m_next_created id m z Hf Hl). exact E.
Qed.

Lemma drain_created_none fuel id (m : machine) :
  frames m !! id = Some Created -> g_length (obj m) = PNone ->
  exists m', drain gen (S fuel) id m = Some (Err TypeError, m').
Proof. intros Hf Hl. cbn [drain]. unfold m_next. rewrite Hf. cbn. rewrite Hl. by eexists. Qed.

(** C10 Refinement of the generator protocol by the eager loop: for any
    count [k] and enough fuel, [for surface in g(k)] returns what the
    list [[generate_surface() for _ in range(k)]] evaluates to (the
    first [max(k, 0)] surfaces, or the first exception, a
    [StopIteration] turned into [RuntimeError]) and leaves the random
    state where that loop leaves it. *)
Theorem collect_refines_gen_seq fuel z (m : machine) :
  Z.to_nat z < fuel ->
  exists m', collect gen fuel (PInt z) m
             = Some ((gen_seq gen (obj (m_call (PInt z) m)) (Z.to_nat z) (rng m)).1, m')
    /\ rng m' = (gen_seq gen (obj (m_call (PInt z) m)) (Z.to_nat z) (rng m)).2
    /\ obj m' = obj (m_call (PInt z) m).
Proof.
  intros Hk. unfold collect.
  exact (drain_created_seq fuel _ _ z (m_iter_lookup (m_call (PInt z) m)) eq_refl Hk).
Qed.

(** C8 [load_dataset_from_generator] called without [limit] fails:
    [range(None)] raises [TypeError] at the first iteration. *)
Theorem load_dataset_from_generator_default fuel (c : Cfg) (s : Seed) :
  exists m', load_dataset_from_generator gen (S fuel) PNone c s = Some (Err TypeError, m').
Proof.
  unfold load_dataset_from_generator, collect.
  apply drain_created_none; [exact (m_iter_lookup (m_call PNone (gen_init c s)))|done].
Qed.

(** C34 A negative count: iterating yields no surface, but [len()] raises
    [ValueError], so the command line's [tqdm(generator(n))] fails where
    the loader returns an empty list. *)
Theorem negative_count z fuel (m : machine) :
  (z < 0)%Z -> 0 < fuel ->
  (exists m', cli_collect gen fuel (PInt z) m = Some (Err ValueError, m'))
  /\ (exists m', collect gen fuel (PInt z) m = Some (Ok [], m')).
Proof.
  intros Hz Hfuel. split.
  - unfold cli_collect, m_len. cbn [obj g_length m_call]. destruct (Z.ltb_spec z 0); [|lia].
    by eexists.
  - unfold collect, m_iter, m_call. destruct fuel as [|fuel]; [lia|].
    cbn [drain fst snd]. unfold m_next. cbn [frames obj rng].
    rewrite list_lookup_middle by done. cbn.
    replace (Z.to_nat z) with 0 by lia. by eexists.
Qed.

(** C33 [__call__] and the lazy [range]: an iterator created by
    [iter(g(a))] and first advanced after [g(b)] yields [b] surfaces, not
    [a]: the count lives in the shared generator object and is read at
    the first [next]. *)
Theorem iterator_reads_count_late a b fuel (m : machine) :
  gen_total (cfg (obj m)) -> Z.to_nat b < fuel ->
  exists ss m', drain gen fuel (length (frames m))
                  (m_call (PInt b) (fst (m_iter (m_call (PInt a) m)))) = Some (Ok ss, m')
    /\ length ss = Z.to_nat b.
Proof.
  intros Hgen Hfuel.
  destruct (drain_created fuel (length (frames m))
    (m_call (PInt b) (fst (m_iter (m_call (PInt a) m)))) b)
    as (ss & m' & E & Hlen & _); [done|exact (m_iter_lookup (m_call (PInt a) m))|done|done|].
  by exists ss, m'.
Qed.

(** Once an iterator has started, a later [g(b)] does not change how
    many surfaces it still yields: [a - 1] after the first. *)
Theorem started_iterator_keeps_count a b fuel (m : machine) :
  gen_total (cfg (obj m)) -> (0 < a)%Z -> Z.to_nat a <= fuel ->
  exists surf m1 ss m2,
    m_next gen (length (frames m)) (fst (m_iter (m_call (PInt a) m))) = (Ok surf, m1)
    /\ drain gen fuel (length (frames m)) (m_call (PInt b) m1) = Some (Ok ss, m2)
    /\ length ss = Z.to_nat a - 1.
Proof.
  intros Hgen Ha Hfuel. set (m0 := fst (m_iter (m_call (PInt a) m))).
  set (id := length (frames m)).
  assert (Hf0 : frames m0 !! id = Some Created) by exact (m_iter_lookup (m_call (PInt a) m)).
  destruct (Hgen (obj m0) (rng m0) eq_refl) as (surf & s' & Hg).
  rewrite (m_next_created id m0 a Hf0 eq_refl).
  destruct (Z.to_nat a) as [|k] eqn:Ek; [lia|].
  rewrite (m_next_running_S id {| obj := obj m0; frames := <[id := Running (S k)]> (frames m0);
                                  rng := rng m0 |} k surf s');
    [|by eapply lookup_frames_insert|exact Hg].
  destruct (drain_running k fuel id
    (m_call (PInt b) {| obj := obj m0; frames := <[id := Running k]>
       (<[id := Running (S k)]> (frames m0)); rng := s' |})) as (ss & m2 & E & Hlen & _);
    [done| |lia|].
  { cbn [frames m_call]. by eapply lookup_frames_insert, lookup_frames_insert. }
  exists surf. eexists. exists ss, m2. split_and!; [reflexivity|exact E|lia].
Qed.

(** C32 The sequence is restartable, unlike what the spec asks: after
    [for s in g(k)] has exhausted one iterator, iterating [g] again
    (without calling it) yields [k] surfaces once more. *)
Theorem iteration_restarts z fuel (m : machine) :
  gen_total (cfg (obj m)) -> Z.to_nat z < fuel ->
  exists ss1 m1 ss2 m2,
    collect gen fuel (PInt z) m = Some (Ok ss1, m1) /\ length ss1 = Z.to_nat z
    /\ drain gen fuel (snd (m_iter m1)) (fst (m_iter m1)) = Some (Ok ss2, m2)
    /\ length ss2 = Z.to_nat z.
Proof.
  intros Hgen Hfuel. unfold collect.
  destruct (drain_created fuel (length (frames m)) (fst (m_iter (m_call (PInt z) m))) z)
    as (ss1 & m1 & E1 & L1 & _ & Hobj & _);
    [done|exact (m_iter_lookup (m_call (PInt z) m))|done|done|].
  destruct (drain_created fuel (snd (m_iter m1)) (fst (m_iter m1)) z)
    as (ss2 & m2 & E2 & L2 & _); [cbn; by rewrite Hobj|apply m_iter_lookup|cbn; by rewrite Hobj|done|].
  by exists ss1, m1, ss2, m2.
Qed.

Lemma m_step_obj_cfg o (m : @machine Cfg Seed) :
  cfg (obj (m_step gen o m)) = cfg (obj m) /\ g_mean (obj (m_step gen o m)) = g_mean (obj m).
Proof.
  destruct o as [len| |id]; cbn; [done|done|]. unfold m_next.
  destruct (frames m !! id) as [f|]; [|done].
  by destruct (frame_next gen (obj m) f (rng m)) as [[r f'] s'].
Qed.

(** Invariant: no sequence of [g(n)], [iter] and [next] changes the
    configuration or [_mean] of the generator object. *)
Theorem config_invariant (m0 m : @machine Cfg Seed) :
  reachable gen m0 m -> cfg (obj m) = cfg (obj m0) /\ g_mean (obj m) = g_mean (obj m0).
Proof.
  induction 1 as [|o m Hr [IHc IHm]]; [done|].
  destruct (m_step_obj_cfg o m) as [Hc Hm]. by rewrite Hc, Hm.
Qed.

(** Exhaustion is permanent: a finished frame stays finished whatever
    operations follow. *)
Theorem finished_stays_finished (m0 m : @machine Cfg Seed) id :
  reachable gen m0 m -> frames m0 !! id = Some Finished -> frames m !! id = Some Finished.
Proof.
  intros Hr Hf. induction Hr as [|o m Hr IH]; [done|].
  destruct o as [len| |id']; cbn; [done|by apply lookup_app_l_Some|].
  unfold m_next. destruct (frames m !! id') as [f|] eqn:E; [|done].
  destruct (frame_next gen (obj m) f (rng m)) as [[r f'] s'] eqn:Ef. cbn.
  destruct (decide (id = id')) as [<-|Hne].
  - rewrite IH in E. injection E as <-. cbn in Ef. injection Ef as _ <- _.
    by eapply lookup_frames_insert.
  - by rewrite list_lookup_insert_ne.
Qed.
End DriverProofs.

(** ** Witnesses with the counter source *)

Lemma counter_gen_total c : gen_total counter_gen c.
Proof. intros o s _. by exists s, (S s). Qed.

Example collect_three :
  fst <$> collect counter_gen 5 (PInt 3) m_start = Some (Ok [0; 1; 2]).
Proof. reflexivity. Qed.

Lemma collect_count_witness :
  exists ss m', collect counter_gen 4 (PInt 3) m_start = Some (Ok ss, m')
    /\ length ss = Z.to_nat 3
    /\ fst (m_next counter_gen (length (frames m_start)) m') = Err StopIteration.
Proof. apply (collect_count counter_gen); [exact (counter_gen_total _)|lia]. Defined.

Lemma negative_count_witness :
  (exists m', cli_collect counter_gen 3 (PInt (-2)) m_start = Some (Err ValueError, m'))
  /\ (exists m', collect counter_gen 3 (PInt (-2)) m_start = Some (Ok [], m')).
Proof. apply (negative_count counter_gen); lia. Defined.

Lemma iterator_reads_count_late_witness :
  exists ss m', drain counter_gen 6 (length (frames m_start))
                  (m_call (PInt 5) (fst (m_iter (m_call (PInt 3) m_start)))) = Some (Ok ss, m')
    /\ length ss = Z.to_nat 5.
Proof. apply (iterator_reads_count_late counter_gen); [exact (counter_gen_total _)|lia]. Defined.

Lemma started_iterator_keeps_count_witness :
  exists surf m1 ss m2,
    m_next counter_gen (length (frames m_start)) (fst (m_iter (m_call (PInt 3) m_start)))
      = (Ok surf, m1)
    /\ drain counter_gen 3 (length (frames m_start)) (m_call (PInt 5) m1) = Some (Ok ss, m2)
    /\ length ss = Z.to_nat 3 - 1.
Proof. apply (started_iterator_keeps_count counter_gen); [exact (counter_gen_total _)|lia|lia]. Defined.

Lemma iteration_restarts_witness :
  exists ss1 m1 ss2 m2,
    collect counter_gen 3 (PInt 2) m_start = Some (Ok ss1, m1) /\ length ss1 = Z.to_nat 2
    /\ drain counter_gen 3 (snd (m_iter m1)) (fst (m_iter m1)) = Some (Ok ss2, m2)
    /\ length ss2 = Z.to_nat 2.
Proof. apply (iteration_restarts counter_gen); [exact (counter_gen_total _)|lia]. Defined.

Lemma config_invariant_witness :
  cfg (obj (m_step counter_gen (OpCall (PInt 7)) m_start)) = cfg (obj m_start)
  /\ g_mean (obj (m_step counter_gen (OpCall (PInt 7)) m_start)) = g_mean (obj m_start).
Proof. apply (config_invariant counter_gen). apply reach_step, reach_init. Defined.

Lemma finished_stays_finished_witness :
  frames (m_step counter_gen OpIter
    (snd (m_next counter_gen 0 (fst (m_iter (m_call (PInt 0) m_start)))))) !! 0
  = Some Finished.
Proof.
  apply (finished_stays_finished counter_gen
    (snd (m_next counter_gen 0 (fst (m_iter (m_call (PInt 0) m_start)))))).
  - apply reach_step, reach_init.
  - reflexivity.
Defined.

Lemma collect_refines_gen_seq_witness :
  exists m', collect counter_gen 4 (PInt 3) m_start
             = Some ((gen_seq counter_gen (obj (m_call (PInt 3) m_start)) (Z.to_nat 3) (rng m_start)).1, m')
    /\ rng m' = (gen_seq counter_gen (obj (m_call (PInt 3) m_start)) (Z.to_nat 3) (rng m_start)).2
    /\ obj m' = obj (m_call (PInt 3) m_start).
Proof. apply (collect_refines_gen_seq counter_gen). lia. Defined.

(** A [StopIteration] raised by [generate_surface] does not end the loop
    quietly: the frame raises [RuntimeError]. *)
Example collect_stop_iteration :
  fst <$> collect (fun (_ : @gen_obj unit) (_ : nat) => @Err (nat * nat) StopIteration) 3 (PInt 2) m_start
  = Some (Err RuntimeError).
Proof. reflexivity. Qed.
