(* ===== verification/Loaders.v ===== *)
(** * Loaders: the loaders of [loaders.py]

    Lines 13-64 of [src/src/roughgan/data/loaders.py]: the last step of
    [load_dataset_from_generator] (line 20, over the loop modelled in
    [Generator]), [load_dataset_from_zip] (23-40), [load_dataset_from_pt]
    (43-52) and [load_multiple_datasets_from_pt] (55-64).  Each is a Python
    generator function; a caller runs it with [next] or a [for] loop.
    The first two yield once, and their model is the value of that
    [next]. The third yields once per dataset file, and its model is
    the list of values yielded, with the exception that ends the loop
    if there is one ([gen_run]).

    The file system is explicit state ([fs]): the directories that
    exist and, for each, the entries [iterdir] returns in its order.
    Reading a file's contents is a parameter: [load_mat] is
    [sio.loadmat(file)["data"]] ([KeyError] when the file has no
    [data]), [from_pt] is [NanoroughSurfaceDataset.from_pt].  The
    dataset container ([roughgan/data/sets.py], not among the sources;
    the spec gives only its interface, in its section 6) is modelled by
    what these loaders use of it: [from_list], and the attributes
    [surfaces] and [transforms].

    Python's parts are written out: [itertools.islice] with a stop that
    is [None], an int ([ValueError] when negative) or a tuple
    ([ValueError]), pathlib's [suffix], the slice [[:limit]] with a
    negative [limit], and the truth value of a list. *)

From S2P Require Import Prelude Generator.
From Stdlib Require Import Strings.String Strings.Ascii.

Local Open Scope string_scope.
Local Open Scope list_scope.

(** An entry of a directory listing: its name and whether it is a
    directory. *)
Record entry := {
  e_name : string;
  e_is_dir : bool
}.

(** The file system: the existing directories, and the listing of each
    directory in the order [Path.iterdir] yields it. *)
Record fs := {
  fs_dirs : list string;
  fs_listing : string -> list entry
}.

Definition is_dir (f : fs) (d : string) : bool := existsb (String.eqb d) (fs_dirs f).

(** [dir / name]. *)
Definition path_join (d name : string) : string := d ++ "/" ++ name.

(** [PurePath.suffix]: from the last dot of the name, unless that dot
    is the first or the last character. *)
Fixpoint last_dot (i : nat) (cs : list ascii) (found : option nat) : option nat :=
  match cs with
  | [] => found
  | c :: cs' => last_dot (S i) cs' (if Ascii.eqb c "." then Some i else found)
  end.

Definition py_suffix (name : string) : string :=
  match last_dot 0 (list_ascii_of_string name) None with
  | Some i =>
      if (0 <? i)%nat && (i <? String.length name - 1)%nat
      then substring i (String.length name - i) name else ""
  | None => ""
  end.

(** [itertools.islice(it, stop)]: [None] takes everything, a
    non-negative int takes a prefix, anything else raises [ValueError]. *)
Definition islice {X} (l : list X) (stop : pyval) : res (list X) :=
  match stop with
  | PNone => Ok l
  | PInt k => if (k <? 0)%Z then Err ValueError else Ok (take (Z.to_nat k) l)
  end.

(** [xs[:k]] for an int [k]: a negative [k] counts from the end. *)
Definition py_slice_to {X} (k : Z) (xs : list X) : list X :=
  if (0 <=? k)%Z then take (Z.to_nat k) xs
  else take (Z.to_nat (Z.of_nat (List.length xs) + k)) xs.

(** The limit of [load_multiple_datasets_from_pt]: a value or a tuple. *)
Inductive limit_arg :=
| LVal (v : pyval)
| LTuple (vs : list pyval).

(** The run of a generator: the values it yielded and the exception
    that ended it, if any. *)
Definition gen_run (X : Type) : Type := list X * option pyexc.

Section Loaders.
Context {Surface Transform : Type}.

(** [NanoroughSurfaceDataset] (spec, section 6): surfaces and the
    transforms applied when an item is read. *)
Record dataset := {
  ds_surfaces : list Surface;
  ds_transforms : list Transform
}.

(** [NanoroughSurfaceDataset.from_list(surfaces, transforms=...)]. *)
Definition from_list (surfaces : list Surface) (transforms : list Transform) : dataset :=
  {| ds_surfaces := surfaces; ds_transforms := transforms |}.

(** [sio.loadmat(path)["data"]]. *)
Context (load_mat : string -> res Surface).
(** [NanoroughSurfaceDataset.from_pt(path)]. *)
Context (from_pt : string -> res dataset).
(** The members of a zip archive, as the entries [extractall] creates at
    the top of the target directory. *)
Context (zip_members : string -> list entry).

(** [cache_dir.mkdir(parents=True, exist_ok=True)] followed by
    [ZipFile(dataset_path).extractall(cache_dir)]. *)
Definition extract (f : fs) (zip cache : string) : fs :=
  {| fs_dirs := cache :: fs_dirs f;
     fs_listing := fun d => if String.eqb d cache then zip_members zip else fs_listing f d |}.

(** The loop of lines 31-38. *)
Definition mat_step (cache : string) (e : entry) (surfaces : list Surface) :
    res (list Surface) :=
  if e_is_dir e || negb (String.eqb (py_suffix (e_name e)) ".mat") then Ok surfaces
  else x <- load_mat (path_join cache (e_name e)) ;; Ok (surfaces ++ [x]).

(** Lines 23-40.  [cache_dir] defaults to [None], on which [.is_dir()]
    raises [AttributeError]; the archive is extracted only when the cache
    directory does not exist yet. *)
Definition load_dataset_from_zip (f : fs) (dataset_path : string)
    (transforms : list Transform) (limit : pyval) (cache_dir : option string) :
    res (fs * (string * dataset)) :=
  match cache_dir with
  | None => Err AttributeError
  | Some cache =>
      let f' := if is_dir f cache then f else extract f dataset_path cache in
      files <- islice (fs_listing f' cache) limit ;;
      surfaces <- for_each files (mat_step cache) [] ;;
      Ok (f', (dataset_path, from_list surfaces transforms))
  end.

(** Lines 43-52: the [limit] first surfaces ([[:limit, :]]) and, when
    the list of transforms is not empty, the new transforms. *)
Definition load_dataset_from_pt (dataset_path : string) (transforms : list Transform)
    (limit : pyval) : res (string * dataset) :=
  ds <- from_pt dataset_path ;;
  let ds1 :=
    match limit with
    | PNone => ds
    | PInt k => {| ds_surfaces := py_slice_to k (ds_surfaces ds);
                   ds_transforms := ds_transforms ds |}
    end in
  let ds2 :=
    match transforms with
    | [] => ds1
    | _ => {| ds_surfaces := ds_surfaces ds1; ds_transforms := transforms |}
    end in
  Ok (dataset_path, ds2).

(** Lines 56-58: one limit for both, or a pair unpacked from a tuple
    ([ValueError] for a tuple of another length). *)
Definition split_limit (limit : limit_arg) : res (pyval * pyval) :=
  match limit with
  | LVal v => Ok (v, v)
  | LTuple [a; b] => Ok (a, b)
  | LTuple _ => Err ValueError
  end.

(** The loop of lines 60-64: a [.pt] file yields its dataset; an error
    ends the generator. *)
Fixpoint pt_loop (dir : string) (transforms : list Transform) (surfaces_limit : pyval)
    (files : list entry) : gen_run (string * dataset) :=
  match files with
  | [] => ([], None)
  | e :: rest =>
      if e_is_dir e || negb (String.eqb (py_suffix (e_name e)) ".pt")
      then pt_loop dir transforms surfaces_limit rest
      else
        match load_dataset_from_pt (path_join dir (e_name e)) transforms surfaces_limit with
        | Ok y => let '(ys, err) := pt_loop dir transforms surfaces_limit rest in (y :: ys, err)
        | Err ex => ([], Some ex)
        end
  end.

(** Lines 55-64. *)
Definition load_multiple_datasets_from_pt (f : fs) (datasets_dir : string)
    (transforms : list Transform) (limit : limit_arg) : gen_run (string * dataset) :=
  match split_limit limit with
  | Err ex => ([], Some ex)
  | Ok (datasets_limit, surfaces_limit) =>
      match islice (fs_listing f datasets_dir) datasets_limit with
      | Err ex => ([], Some ex)
      | Ok files => pt_loop datasets_dir transforms surfaces_limit files
      end
  end.
End Loaders.

(** Lines 13-20: the loop of [load_dataset_from_generator], then the one
    pair it yields, [(None, NanoroughSurfaceDataset.from_list(surfaces,
    transforms=transforms))]; an exception of the loop ends the
    generator before it yields. *)
Definition load_dataset_from_generator_yield {Cfg Seed Surface Transform}
    (gen : @gen_obj Cfg -> Seed -> res (Surface * Seed)) (fuel : nat)
    (transforms : list Transform) (limit : pyval) (c : Cfg) (s : Seed) :
    option (gen_run (option string * @dataset Surface Transform)) :=
  match load_dataset_from_generator gen fuel limit c s with
  | None => None
  | Some (Ok surfaces, _) => Some ([(None, from_list surfaces transforms)], None)
  | Some (Err e, _) => Some ([], Some e)
  end.

(** A [.mat] file of the cache: not a directory, suffix [.mat]. *)
Definition is_mat (e : entry) : bool :=
  negb (e_is_dir e) && String.eqb (py_suffix (e_name e)) ".mat".

Definition is_pt (e : entry) : bool :=
  negb (e_is_dir e) && String.eqb (py_suffix (e_name e)) ".pt".

(** ** Properties *)

Section LoaderProofs.
Context {Surface Transform : Type}.
Context (load_mat : string -> res Surface).
Context (from_pt : string -> res (@dataset Surface Transform)).
Context (zip_members : string -> list entry).

Lemma islice_int {X} (l : list X) k :
  (0 <= k)%Z -> islice l (PInt k) = Ok (take (Z.to_nat k) l).
Proof. intros Hk. unfold islice. by destruct (Z.ltb_spec k 0); [lia|]. Qed.

(** The loop of lines 31-38 appends, in order, the data of the [.mat]
    files it meets. *)
Lemma for_each_mat_step cache files (acc : list Surface) (val : string -> Surface) :
  (forall e, e ∈ files -> is_mat e = true ->
     load_mat (path_join cache (e_name e)) = Ok (val (path_join cache (e_name e)))) ->
  for_each files (mat_step load_mat cache) acc
  = Ok (acc ++ ((fun e => val (path_join cache (e_name e))) <$> filter (fun e => is_mat e = true) files)).
Proof.
  revert acc. induction files as [|e files IH]; intros acc Hval; simpl; [by rewrite app_nil_r|].
  unfold mat_step at 1. rewrite filter_cons. unfold is_mat in *.
  destruct (e_is_dir e) eqn:Ed, (String.eqb (py_suffix (e_name e)) ".mat") eqn:Es;
    cbn [orb negb andb]; simpl.
  - apply IH. intros e' He'. apply Hval. by apply elem_of_cons; right.
  - apply IH. intros e' He'. apply Hval. by apply elem_of_cons; right.
  - rewrite (Hval e) by (rewrite ?elem_of_cons, ?Ed, ?Es; auto). res_simpl.
    rewrite IH; [by rewrite <- app_assoc|]. intros e' He'. apply Hval. by apply elem_of_cons; right.
  - apply IH. intros e' He'. apply Hval. by apply elem_of_cons; right.
Qed.

Lemma is_dir_extract f zip cache : is_dir (extract zip_members f zip cache) cache = true.
Proof. unfold is_dir. simpl. by rewrite String.eqb_refl. Qed.

Lemma listing_extract f zip cache :
  fs_listing (extract zip_members f zip cache) cache = zip_members zip.
Proof. simpl. by rewrite String.eqb_refl. Qed.

(** C13 [limit] counts directory entries, not surfaces: with an existing
    cache, [load_dataset_from_zip(limit=k)] returns the data of the
    [.mat] files among the first [k] entries of the listing, so
    sub-directories (such as an archive's [__MACOSX]) and other files
    among them make it return fewer than [k] surfaces. *)
Theorem load_dataset_from_zip_limit f p (transforms : list Transform) k cache (val : string -> Surface) :
  is_dir f cache = true -> (0 <= k)%Z ->
  (forall e, e ∈ take (Z.to_nat k) (fs_listing f cache) -> is_mat e = true ->
     load_mat (path_join cache (e_name e)) = Ok (val (path_join cache (e_name e)))) ->
  load_dataset_from_zip load_mat zip_members f p transforms (PInt k) (Some cache)
  = Ok (f, (p, from_list ((fun e => val (path_join cache (e_name e)))
                            <$> filter (fun e => is_mat e = true)
                                  (take (Z.to_nat k) (fs_listing f cache))) transforms)).
Proof.
  intros Hd Hk Hval. unfold load_dataset_from_zip. rewrite Hd, islice_int by done. res_simpl.
  by rewrite (for_each_mat_step _ _ _ val).
Qed.

(** C14 The cache is never refreshed: once a call has succeeded with a
    cache directory, a call with any other archive and the same cache
    returns the first archive's surfaces and leaves the file system as
    it is. *)
Theorem load_dataset_from_zip_stale_cache f p1 p2 (transforms : list Transform) limit cache f1 y1 :
  load_dataset_from_zip load_mat zip_members f p1 transforms limit (Some cache) = Ok (f1, y1) ->
  load_dataset_from_zip load_mat zip_members f1 p2 transforms limit (Some cache)
  = Ok (f1, (p2, y1.2)).
Proof.
  unfold load_dataset_from_zip. destruct (is_dir f cache) eqn:Hd.
  - destruct (islice _ limit) as [files|e] eqn:Hf; res_simpl; [|done].
    destruct (for_each files _ []) as [surfaces|e] eqn:Hs; res_simpl; [|done].
    intros [= <- <-]. rewrite Hd, Hf. res_simpl. by rewrite Hs.
  - destruct (islice _ limit) as [files|e] eqn:Hf; res_simpl; [|done].
    destruct (for_each files _ []) as [surfaces|e] eqn:Hs; res_simpl; [|done].
    intros [= <- <-]. rewrite is_dir_extract, listing_extract.
    rewrite listing_extract in Hf. rewrite Hf. res_simpl. by rewrite Hs.
Qed.

(** C18 A negative [limit] is not rejected: [[:limit, :]] drops the
    last [|limit|] surfaces of the stored dataset. *)
Theorem load_dataset_from_pt_negative_limit p (transforms : list Transform) k ds :
  from_pt p = Ok ds -> (k < 0)%Z -> (Z.to_nat (- k) <= List.length (ds_surfaces ds))%nat ->
  exists ds' dropped, load_dataset_from_pt from_pt p transforms (PInt k) = Ok (p, ds')
    /\ ds_surfaces ds = ds_surfaces ds' ++ dropped /\ List.length dropped = Z.to_nat (- k).
Proof.
  intros Hp Hk Hlen. unfold load_dataset_from_pt. rewrite Hp. res_simpl.
  set (keep := Z.to_nat (Z.of_nat (List.length (ds_surfaces ds)) + k)).
  assert (Hs : py_slice_to k (ds_surfaces ds) = take keep (ds_surfaces ds)).
  { unfold py_slice_to. by destruct (Z.leb_spec 0 k); [lia|]. }
  destruct transforms; (eexists _, (drop keep (ds_surfaces ds)); split_and!;
    [reflexivity | simpl; by rewrite Hs, take_drop | rewrite length_drop; unfold keep; lia]).
Qed.

Lemma pt_loop_bound dir transforms k files :
  (0 <= k)%Z -> (forall path, exists ds, from_pt path = Ok ds) ->
  (pt_loop from_pt dir transforms (PInt k) files).2 = None
  /\ (List.length (pt_loop from_pt dir transforms (PInt k) files).1 <= List.length files)%nat
  /\ Forall (fun y => List.length (ds_surfaces y.2) <= Z.to_nat k)%nat
       (pt_loop from_pt dir transforms (PInt k) files).1.
Proof.
  intros Hk Hpt. induction files as [|e files (IHe & IHl & IHf)]; simpl; [split_and!; auto|].
  destruct (_ || _); simpl; [split_and!; [done|lia|done]|].
  destruct (Hpt (path_join dir (e_name e))) as [ds Eds].
  unfold load_dataset_from_pt. rewrite Eds. res_simpl.
  destruct (pt_loop from_pt dir transforms (PInt k) files) as [ys err]. simpl in *.
  split_and!; [done|lia|]. constructor; [|done]. simpl.
  unfold py_slice_to. destruct (Z.leb_spec 0 k); [|lia].
  destruct transforms; simpl; rewrite length_take; lia.
Qed.

(** C17 An int [limit] bounds both counts of
    [load_multiple_datasets_from_pt]: when every dataset file loads, the
    generator ends without error after at most [limit] datasets, each
    with at most [limit] surfaces. *)
Theorem load_multiple_datasets_from_pt_int_limit f dir transforms k :
  (0 <= k)%Z -> (forall path, exists ds, from_pt path = Ok ds) ->
  (load_multiple_datasets_from_pt from_pt f dir transforms (LVal (PInt k))).2 = None
  /\ (List.length (load_multiple_datasets_from_pt from_pt f dir transforms (LVal (PInt k))).1
      <= Z.to_nat k)%nat
  /\ Forall (fun y => List.length (ds_surfaces y.2) <= Z.to_nat k)%nat
       (load_multiple_datasets_from_pt from_pt f dir transforms (LVal (PInt k))).1.
Proof.
  intros Hk Hpt. unfold load_multiple_datasets_from_pt. cbn [split_limit]. rewrite islice_int by done.
  destruct (pt_loop_bound dir transforms k (take (Z.to_nat k) (fs_listing f dir)) Hk Hpt)
    as (H1 & H2 & H3).
  split_and!; [done| |done]. rewrite length_take in H2. lia.
Qed.
End LoaderProofs.

(** ** Witnesses on a concrete archive *)

Module LoaderExamples.
(** A surface read from a file is the length of its path. *)
Definition load_len (path : string) : res nat := Ok (String.length path).
Definition pt_four (path : string) : res (@dataset nat unit) := Ok (from_list [1; 2; 3; 4] []).

Definition mk_file (n : string) : entry := {| e_name := n; e_is_dir := false |}.
Definition macosx : entry := {| e_name := "__MACOSX"; e_is_dir := true |}.

Definition zip_of (zip : string) : list entry :=
  if String.eqb zip "a.zip" then [macosx; mk_file "a.mat"; mk_file "readme.txt"; mk_file "b.mat"]
  else [mk_file "c.mat"].

Definition empty_fs : fs := {| fs_dirs := []; fs_listing := fun _ => [] |}.
(** The cache after extracting [a.zip]. *)
Definition cached_fs : fs := extract zip_of empty_fs "a.zip" "cache".
Definition pt_fs : fs :=
  {| fs_dirs := ["ds"];
     fs_listing := fun _ => [mk_file "x.pt"; mk_file "notes.txt"; mk_file "y.pt"; mk_file "z.pt"] |}.

Lemma load_dataset_from_zip_limit_witness :
  load_dataset_from_zip load_len zip_of cached_fs "a.zip" (@nil unit) (PInt 3) (Some "cache")
  = Ok (cached_fs, ("a.zip", from_list [String.length "cache/a.mat"] [])).
Proof.
  rewrite (load_dataset_from_zip_limit load_len zip_of cached_fs "a.zip" [] 3 "cache" String.length);
    [reflexivity | reflexivity | lia | intros; reflexivity].
Defined.

Lemma load_dataset_from_zip_stale_cache_witness :
  exists f1 y1,
    load_dataset_from_zip load_len zip_of empty_fs "a.zip" (@nil unit) PNone (Some "cache") = Ok (f1, y1)
    /\ load_dataset_from_zip load_len zip_of f1 "b.zip" [] PNone (Some "cache") = Ok (f1, ("b.zip", y1.2))
    /\ ds_surfaces y1.2 = [String.length "cache/a.mat"; String.length "cache/b.mat"].
Proof.
  eexists _, _. split; [reflexivity|]. split; [|reflexivity].
  apply (load_dataset_from_zip_stale_cache load_len zip_of empty_fs "a.zip"). reflexivity.
Defined.

Lemma load_dataset_from_pt_negative_limit_witness :
  exists ds' dropped, load_dataset_from_pt pt_four "d.pt" (@nil unit) (PInt (-1)) = Ok ("d.pt", ds')
    /\ ds_surfaces (from_list [1; 2; 3; 4] (@nil unit)) = ds_surfaces ds' ++ dropped
    /\ List.length dropped = Z.to_nat (- -1).
Proof. apply load_dataset_from_pt_negative_limit; [reflexivity | lia | simpl; lia]. Defined.

Lemma load_multiple_datasets_from_pt_int_limit_witness :
  (load_multiple_datasets_from_pt pt_four pt_fs "ds" (@nil unit) (LVal (PInt 2))).2 = None
  /\ (List.length (load_multiple_datasets_from_pt pt_four pt_fs "ds" (@nil unit) (LVal (PInt 2))).1
      <= Z.to_nat 2)%nat
  /\ Forall (fun y => List.length (ds_surfaces y.2) <= Z.to_nat 2)%nat
       (load_multiple_datasets_from_pt pt_four pt_fs "ds" (@nil unit) (LVal (PInt 2))).1.
Proof.
  apply load_multiple_datasets_from_pt_int_limit; [lia | intros; eexists; reflexivity].
Defined.

(** [load_dataset_from_generator(limit=3)] on a counter yields one
    dataset of three surfaces; the default [limit=None] yields nothing
    and raises [TypeError]. *)
Example load_dataset_from_generator_counter :
  load_dataset_from_generator_yield counter_gen 5 (@nil unit) (PInt 3) tt 0
  = Some ([(None, from_list [0; 1; 2] [])], None)
  /\ load_dataset_from_generator_yield counter_gen 5 (@nil unit) PNone tt 0
  = Some ([], Some TypeError).
Proof. split; reflexivity. Qed.

(** The default [cache_dir=None] of [load_dataset_from_zip] raises. *)
Example load_dataset_from_zip_default_cache :
  load_dataset_from_zip load_len zip_of empty_fs "a.zip" (@nil unit) PNone None = Err AttributeError.
Proof. reflexivity. Qed.

(** The [.pt] files among the first two entries: [notes.txt] counts. *)
Example load_multiple_datasets_from_pt_count :
  fst <$> (load_multiple_datasets_from_pt pt_four pt_fs "ds" (@nil unit) (LVal (PInt 2))).1
  = ["ds/x.pt"].
Proof. reflexivity. Qed.

(** A tuple limit of another length, and a negative [datasets_limit]. *)
Example load_multiple_datasets_from_pt_errors :
  (load_multiple_datasets_from_pt pt_four pt_fs "ds" (@nil unit) (LTuple [PInt 1; PInt 2; PInt 3]))
  = ([], Some ValueError)
  /\ (load_multiple_datasets_from_pt pt_four pt_fs "ds" (@nil unit) (LTuple [PInt (-1); PNone]))
  = ([], Some ValueError).
Proof. split; reflexivity. Qed.

(** pathlib's suffix: a leading dot is not a suffix, the last dot is. *)
Example py_suffix_cases :
  py_suffix ".mat" = "" /\ py_suffix "a.tar.mat" = ".mat" /\ py_suffix "a." = ""
  /\ py_suffix "readme" = "".
Proof. split_and!; reflexivity. Qed.
End LoaderExamples.
