(* ===== verification/Quantizer.v ===== *)
(** * Quantizer: [src/src/roughgan/content/quantization.py]

    [KBinsDiscretizerQuantizer] (lines 21-34) flattens a batch of
    surfaces into one row per surface, bins every column with sklearn's
    [KBinsDiscretizer] and reshapes the labels back to the batch's shape;
    [__call__] bins one more surface with the fitted bins.

    - numpy arrays are [ndarray]: a shape and the elements in row-major
      order; [reshape] and [reshape(n, -1)] are written out with their
      [ValueError]s;
    - the discretizer is an interface: [Discretizer] (the calls the
      quantizer makes) and [DiscretizerLaws] (what it promises: a fitted
      ordinal discretizer keeps the shape of its input, and rejects an
      input with another number of features).  The quantizer's shape
      theorem is proved against the interface;
    - [kbins] models sklearn's [KBinsDiscretizer] (its [fit] and
      [transform], the three strategies, the three encodings) and is an
      instance whose laws are proved.  [KMeans] (for
      [strategy="kmeans"]) is a class of its own: only the cluster
      centres it returns are used;
    - with the sklearn model: labels are bin indices, [__call__] is
      monotone, and [__call__] on a training surface [surfaces[i]]
      ([np_getitem]) gives [quantizer.surfaces[i]]; for any discretizer,
      a one-dimensional batch leaves a quantizer that cannot be
      called. *)

From S2P Require Import Prelude.
From Stdlib Require Import Reals Lra.

(** ** numpy arrays *)

(** An [np.ndarray]: its shape and its elements in row-major order. *)
Record ndarray := mkArr { shape : list nat; elems : list R }.

Definition size (sh : list nat) : nat := foldr Nat.mul 1 sh.

(** [a.reshape( *sh)] on a dense array: no argument is a [TypeError],
    another number of elements a [ValueError]. *)
Definition reshape (a : ndarray) (sh : list nat) : res ndarray :=
  match sh with
  | [] => Err TypeError
  | _ => if Nat.eqb (size sh) (List.length (elems a)) then Ok (mkArr sh (elems a))
         else Err ValueError
  end.

(** [a[i]] for an int [0 <= i]: the [i]-th sub-array along the first
    axis; a zero-dimensional array, or an index past the end, is an
    [IndexError]. *)
Definition np_getitem (a : ndarray) (i : nat) : res ndarray :=
  match shape a with
  | [] => Err IndexError
  | n :: rest =>
      if Nat.ltb i n then Ok (mkArr rest (take (size rest) (drop (i * size rest) (elems a))))
      else Err IndexError
  end.

(** [a.reshape(n, -1)]: the second length is inferred, which needs [n]
    to divide the number of elements ([n = 0] cannot be inferred). *)
Definition reshape_infer (a : ndarray) (n : nat) : res ndarray :=
  if Nat.eqb n 0 then Err ValueError
  else if Nat.eqb (List.length (elems a) mod n) 0
       then Ok (mkArr [n; List.length (elems a) / n] (elems a))
       else Err ValueError.

(** The [n] rows of length [m] of a row-major array. *)
Fixpoint chunks {A} (n m : nat) (l : list A) : list (list A) :=
  match n with
  | O => []
  | S n' => take m l :: chunks n' m (drop m l)
  end.

(** A two-dimensional array as the list of its rows, the way sklearn
    reads it. *)
Definition to_rows (a : ndarray) : list (list R) :=
  match shape a with
  | [n; m] => chunks n m (elems a)
  | _ => []
  end.

(** The output of an sklearn transformer: rows, dense or a scipy sparse
    matrix. *)
Record disc_out := { out_rows : list (list R); out_sparse : bool }.

(** [Y.reshape( *sh)] on a transformer's output: a scipy sparse matrix
    only takes two dimensions. *)
Definition reshape_out (Y : disc_out) (sh : list nat) : res ndarray :=
  if out_sparse Y && negb (Nat.eqb (List.length sh) 2) then Err ValueError
  else reshape (mkArr [List.length (out_rows Y)] (concat (out_rows Y))) sh.

(** ** The discretizer interface *)

(** The arguments of [KBinsDiscretizer] the quantizer passes on. *)
Inductive encode := Onehot | OnehotDense | Ordinal.
Inductive strategy := Uniform | Quantile | KMeansStrategy.

Record kwargs := {
  kw_n_bins : option nat;
  kw_encode : option encode;
  kw_strategy : option strategy
}.

(** What the quantizer calls: the constructor, [fit_transform],
    [transform], and the number of features seen by [fit]. *)
Class Discretizer (D : Type) := {
  disc_new : kwargs -> D;
  disc_fit_transform : D -> list (list R) -> res (D * disc_out);
  disc_transform : D -> list (list R) -> res disc_out;
  disc_n_features : D -> option nat;
  disc_ordinal : D -> bool
}.

(** What an ordinal discretizer promises. *)
Class DiscretizerLaws (D : Type) `{Discretizer D} := {
  fit_transform_shape : forall d X n m,
    disc_ordinal d = true -> 0 < n -> 0 < m -> has_shape n m X ->
    exists d' Y, disc_fit_transform d X = Ok (d', Y)
      /\ has_shape n m (out_rows Y) /\ out_sparse Y = false
      /\ disc_n_features d' = Some m /\ disc_ordinal d' = true;
  transform_shape : forall d X n m,
    disc_ordinal d = true -> disc_n_features d = Some m -> 0 < n -> has_shape n m X ->
    exists Y, disc_transform d X = Ok Y /\ has_shape n m (out_rows Y) /\ out_sparse Y = false;
  transform_mismatch : forall d X n m m',
    disc_n_features d = Some m -> has_shape n m' X -> m' <> m ->
    disc_transform d X = Err ValueError
}.

(** ** The quantizers *)

(** [class Quantizer(Configuration, ABC)] (lines 8-18): a quantizer is
    called on a tensor. *)
Class Quantizer (Q : Type) := quantize : Q -> ndarray -> res ndarray.

Section KBinsQuantizer.
Context {D : Type} `{Discretizer D}.

(** A [KBinsDiscretizerQuantizer] object. *)
Record kbins_quantizer := {
  underlying : D;
  original_shape : list nat;
  q_surfaces : ndarray
}.

(** Lines 23-24. *)
Definition set_default_encode (kw : kwargs) : kwargs :=
  match kw_encode kw with
  | None => {| kw_n_bins := kw_n_bins kw; kw_encode := Some Ordinal;
               kw_strategy := kw_strategy kw |}
  | Some _ => kw
  end.

(** [__init__] (lines 22-31).  [surfaces=None] raises on [.shape]; a
    zero-dimensional array has no [shape[0]]. *)
Definition kbins_quantizer_init (kw : kwargs) (surfaces : option ndarray) :
    res kbins_quantizer :=
  let u := disc_new (set_default_encode kw) in
  match surfaces with
  | None => Err AttributeError
  | Some s =>
      match shape s with
      | [] => Err IndexError
      | n :: rest =>
          X <- reshape_infer s n ;;
          r <- disc_fit_transform u (to_rows X) ;;
          out <- reshape_out r.2 (shape s) ;;
          Ok {| underlying := r.1; original_shape := rest; q_surfaces := out |}
      end
  end.

(** [__call__] (lines 33-34). *)
Definition kbins_quantizer_call (q : kbins_quantizer) (tensor : ndarray) : res ndarray :=
  X <- reshape_infer tensor 1 ;;
  Y <- disc_transform (underlying q) (to_rows X) ;;
  reshape_out Y (original_shape q).

#[export] Instance kbins_quantizer_quantizer : Quantizer kbins_quantizer :=
  kbins_quantizer_call.
End KBinsQuantizer.

(** ** sklearn's [KBinsDiscretizer] *)

(** The cluster centres [KMeans(n_clusters=len(init), init=init,
    n_init=1).fit(column[:, None]).cluster_centers_[:, 0]]. *)
Class KMeans := kmeans_centers : list R -> list R -> list R.

#[local] Instance Rle_rel_dec : RelDecision Rle := Rle_dec.
#[export] Instance R_inhabited : Inhabited R := populate 0%R.

(** The bins of one feature: [bin_edges_[j][1:-1]] and [n_bins_[j]]. *)
Record feature_bins := { fb_inner : list R; fb_n_bins : nat }.

(** A [KBinsDiscretizer]: its parameters and, once fitted, the bins of
    each feature. *)
Record kbins := {
  kb_n_bins : nat;
  kb_encode : encode;
  kb_strategy : strategy;
  kb_bins : option (list feature_bins)
}.

(** [KBinsDiscretizer( **kwargs)]: the defaults [n_bins=5],
    [encode="onehot"], [strategy="quantile"]. *)
Definition KBinsDiscretizer (kw : kwargs) : kbins :=
  {| kb_n_bins := default 5 (kw_n_bins kw);
     kb_encode := default Onehot (kw_encode kw);
     kb_strategy := default Quantile (kw_strategy kw);
     kb_bins := None |}.

(** [np.linspace(a, b, n + 1)]. *)
Definition linspace (a b : R) (n : nat) : list R :=
  (fun i => a + INR i * (b - a) / INR n)%R <$> seq 0 (S n).

(** [np.percentile(s, 100 * i / n)] of a sorted [s], numpy's linear
    interpolation between the two closest ranks. *)
Definition percentile_at (s : list R) (n i : nat) : R :=
  let pos := i * (List.length s - 1) in
  let lo := pos / n in
  (s !!! lo + INR (pos mod n) / INR n * (s !!! S lo - s !!! lo))%R.

(** [(a[1:] + a[:-1]) * 0.5]. *)
Definition midpoints (a : list R) : list R :=
  zip_with (fun x y => (x + y) * / 2)%R (tail a) a.

(** [mask = np.ediff1d(e, to_begin=np.inf) > 1e-8; e = e[mask]]: an
    edge closer than [1e-8] to the one before it is removed. *)
Fixpoint mask_close (prev : R) (es : list R) : list R :=
  match es with
  | [] => []
  | e :: es' =>
      if Rlt_dec (/ 100000000) (e - prev) then e :: mask_close e es' else mask_close e es'
  end.

Definition remove_small_bins (es : list R) : list R :=
  match es with
  | [] => []
  | e :: es' => e :: mask_close e es'
  end.

(** [a[1:-1]]. *)
Definition inner (es : list R) : list R := take (List.length es - 2) (drop 1 es).

Section KBinsFit.
Context `{KMeans}.

(** The bins of one column in [KBinsDiscretizer.fit]: a constant column
    gets the single bin [(-inf, inf)]; otherwise the edges of the
    strategy, with the bins narrower than [1e-8] removed for [quantile]
    and [kmeans]. *)
Definition fit_feature (strat : strategy) (nb : nat) (col : list R) : feature_bins :=
  let cmin := foldr Rmin (hd 0%R col) col in
  let cmax := foldr Rmax (hd 0%R col) col in
  if Req_dec_T cmin cmax then {| fb_inner := []; fb_n_bins := 1 |}
  else
    let es :=
      match strat with
      | Uniform => linspace cmin cmax nb
      | Quantile => remove_small_bins ((percentile_at (merge_sort Rle col) nb) <$> seq 0 (S nb))
      | KMeansStrategy =>
          let centers := merge_sort Rle (kmeans_centers col (midpoints (linspace cmin cmax nb))) in
          remove_small_bins ([cmin] ++ midpoints centers ++ [cmax])
      end in
    {| fb_inner := inner es; fb_n_bins := List.length es - 1 |}.

(** Column [j] of a matrix stored by rows. *)
Definition column (X : list (list R)) (j : nat) : list R := (fun row => row !!! j) <$> X.

(** [KBinsDiscretizer.fit]: an empty input or fewer than two bins is a
    [ValueError]. *)
Definition kbins_fit (d : kbins) (X : list (list R)) : res kbins :=
  match X with
  | [] => Err ValueError
  | row :: _ =>
      if Nat.eqb (List.length row) 0 then Err ValueError
      else if Nat.ltb (kb_n_bins d) 2 then Err ValueError
      else Ok {| kb_n_bins := kb_n_bins d; kb_encode := kb_encode d;
                 kb_strategy := kb_strategy d;
                 kb_bins := Some ((fun j => fit_feature (kb_strategy d) (kb_n_bins d) (column X j))
                                   <$> seq 0 (List.length row)) |}
  end.
End KBinsFit.

(** [np.searchsorted(a, x, side="right")] on a sorted [a]: the number of
    leading elements not above [x]. *)
Fixpoint searchsorted_right (a : list R) (x : R) : nat :=
  match a with
  | [] => 0
  | e :: a' => if Rle_dec e x then S (searchsorted_right a' x) else 0
  end.

(** The one-hot vector of a label among [k] bins. *)
Definition one_hot (k lab : nat) : list R :=
  (fun i => if Nat.eqb i lab then 1%R else 0%R) <$> seq 0 k.

(** [KBinsDiscretizer.transform]: an unfitted discretizer, an empty input
    or another number of features is a [ValueError]; each value becomes
    the index of its bin, encoded by [encode]. *)
Definition kbins_transform (d : kbins) (X : list (list R)) : res disc_out :=
  match kb_bins d with
  | None => Err ValueError
  | Some bins =>
      match X with
      | [] => Err ValueError
      | row :: _ =>
          if negb (Nat.eqb (List.length row) (List.length bins)) then Err ValueError
          else
            let labels := (fun r => zip_with (fun fb x => searchsorted_right (fb_inner fb) x) bins r) <$> X in
            match kb_encode d with
            | Ordinal => Ok {| out_rows := (fun r => INR <$> r) <$> labels; out_sparse := false |}
            | enc =>
                Ok {| out_rows := (fun r => concat (zip_with (fun fb lab => one_hot (fb_n_bins fb) lab) bins r))
                                    <$> labels;
                      out_sparse := match enc with Onehot => true | _ => false end |}
            end
      end
  end.

#[export] Instance kbins_discretizer `{KMeans} : Discretizer kbins := {|
  disc_new := KBinsDiscretizer;
  disc_fit_transform := fun d X => d' <- kbins_fit d X ;; Y <- kbins_transform d' X ;; Ok (d', Y);
  disc_transform := kbins_transform;
  disc_n_features := fun d => List.length <$> kb_bins d;
  disc_ordinal := fun d => match kb_encode d with Ordinal => Nat.leb 2 (kb_n_bins d) | _ => false end
|}.

(** ** numpy lemmas *)

Lemma chunks_shape {A} n m (l : list A) :
  List.length l = n * m -> has_shape n m (chunks n m l).
Proof.
  revert l. induction n as [|n IH]; intros l Hl; [split; [done|constructor]|].
  destruct (IH (drop m l)) as [Hn Hr]; [rewrite length_drop; lia|].
  split; [simpl; lia|]. constructor; [rewrite length_take; lia|done].
Qed.

Lemma chunks_lookup {A} n m (l : list A) i :
  i < n -> chunks n m l !! i = Some (take m (drop (i * m) l)).
Proof.
  revert l i. induction n as [|n IH]; intros l [|i] Hi; simpl; [lia|lia|by rewrite drop_0|].
  rewrite IH by lia. by rewrite drop_drop, Nat.add_comm.
Qed.

Lemma concat_row_slice {A} n m (M : list (list A)) i r :
  has_shape n m M -> M !! i = Some r -> take m (drop (i * m) (concat M)) = r.
Proof.
  intros [_ Hrows]. revert i. induction Hrows as [|row M Hrow Hrows IH]; intros [|i] Hi; [done|done| |].
  - injection Hi as <-. simpl. rewrite drop_0, take_app_length'; [done|lia].
  - simpl in *. rewrite <- drop_drop, drop_app_length' by lia. by apply IH.
Qed.

Lemma reshape_infer_Ok (s : ndarray) n rest :
  shape s = n :: rest -> 0 < n -> size (shape s) = List.length (elems s) ->
  reshape_infer s n = Ok (mkArr [n; size rest] (elems s)).
Proof.
  intros Hs Hn Hsz. rewrite Hs in Hsz. simpl in Hsz. unfold reshape_infer.
  rewrite <- Hsz, (Nat.mul_comm n), Nat.Div0.mod_mul, Nat.div_mul by lia.
  by destruct (Nat.eqb_spec n 0); [lia|].
Qed.

Lemma reshape_infer_row (t : ndarray) :
  reshape_infer t 1 = Ok (mkArr [1; List.length (elems t)] (elems t)).
Proof. unfold reshape_infer. by rewrite Nat.mod_1_r, Nat.div_1_r. Qed.

Lemma to_rows_shape n m (l : list R) :
  List.length l = n * m -> has_shape n m (to_rows (mkArr [n; m] l)).
Proof. apply chunks_shape. Qed.

Lemma reshape_out_dense (Y : disc_out) n m sh :
  out_sparse Y = false -> has_shape n m (out_rows Y) -> sh <> [] -> size sh = n * m ->
  reshape_out Y sh = Ok (mkArr sh (concat (out_rows Y))).
Proof.
  intros Hsp HY Hsh Hsz. unfold reshape_out, reshape. rewrite Hsp. simpl.
  rewrite (length_concat_shape n m) by done. destruct sh as [|a sh]; [done|].
  by rewrite Hsz, Nat.eqb_refl.
Qed.

(** ** The quantizer against the interface *)

Section QuantizerLaws.
Context {D : Type} `{DiscretizerLaws D}.

Lemma kbins_quantizer_init_Ok kw s n rest :
  disc_ordinal (disc_new (set_default_encode kw)) = true ->
  shape s = n :: rest -> 0 < n -> 0 < size rest -> size (shape s) = List.length (elems s) ->
  exists q, kbins_quantizer_init kw (Some s) = Ok q /\ shape (q_surfaces q) = shape s
    /\ original_shape q = rest /\ disc_n_features (underlying q) = Some (size rest)
    /\ disc_ordinal (underlying q) = true.
Proof.
  intros Hord Hs Hn Hr Hsz. unfold kbins_quantizer_init. rewrite Hs, <- Hs.
  rewrite (reshape_infer_Ok s n rest) by done. res_simpl.
  assert (Hl : List.length (elems s) = n * size rest) by (rewrite <- Hsz, Hs; done).
  destruct (fit_transform_shape _ _ n (size rest) Hord Hn Hr (to_rows_shape _ _ _ Hl))
    as (d' & Y & -> & HY & Hsp & Hf & Ho).
  res_simpl. rewrite (reshape_out_dense Y n (size rest)); [|done|done|by rewrite Hs|].
  - res_simpl. by eexists.
  - rewrite Hs. done.
Qed.

Lemma kbins_quantizer_call_Ok (q : kbins_quantizer) t m :
  disc_ordinal (underlying q) = true -> disc_n_features (underlying q) = Some m ->
  original_shape q <> [] -> size (original_shape q) = m -> List.length (elems t) = m ->
  exists z, kbins_quantizer_call q t = Ok z /\ shape z = original_shape q.
Proof.
  intros Hord Hf Hne Hsz Ht. unfold kbins_quantizer_call. rewrite reshape_infer_row, Ht. res_simpl.
  destruct (transform_shape _ _ 1 m Hord Hf ltac:(lia) (to_rows_shape 1 m (elems t) ltac:(lia)))
    as (Y & -> & HY & Hsp).
  res_simpl. rewrite (reshape_out_dense Y 1 m) by (done || lia). by eexists.
Qed.

(** C11 [KBinsDiscretizerQuantizer] keeps shapes, for every discretizer
    that satisfies the laws: with an ordinal discretizer and a batch of
    [n > 0] non-empty surfaces, [__init__] returns quantized surfaces of
    the batch's shape, and [__call__] then maps a tensor of the size of
    one surface to an array of the shape of one surface. *)
Theorem kbins_quantizer_shape kw s n rest :
  disc_ordinal (disc_new (set_default_encode kw)) = true ->
  shape s = n :: rest -> 0 < n -> 0 < size rest -> size (shape s) = List.length (elems s) ->
  exists q, kbins_quantizer_init kw (Some s) = Ok q /\ shape (q_surfaces q) = shape s
    /\ original_shape q = rest
    /\ forall t, rest <> [] -> List.length (elems t) = size rest ->
         exists z, kbins_quantizer_call q t = Ok z /\ shape z = rest.
Proof.
  intros Hord Hs Hn Hr Hsz.
  destruct (kbins_quantizer_init_Ok kw s n rest Hord Hs Hn Hr Hsz) as (q & Hq & Hsh & Ho & Hf & Hd).
  exists q. split_and!; [done|done|done|]. intros t Hne Ht. rewrite <- Ho.
  apply (kbins_quantizer_call_Ok q t (size rest)); by rewrite ?Ho.
Qed.

(** [__call__] on a fitted quantizer rejects a tensor whose number of
    elements is not the number of features seen by [fit]. *)
Lemma kbins_quantizer_call_mismatch (q : kbins_quantizer) t m :
  disc_n_features (underlying q) = Some m -> List.length (elems t) <> m ->
  kbins_quantizer_call q t = Err ValueError.
Proof.
  intros Hf Ht. unfold kbins_quantizer_call. rewrite reshape_infer_row. res_simpl.
  rewrite (transform_mismatch _ _ 1 m (List.length (elems t)) Hf); [done| |done].
  apply to_rows_shape. lia.
Qed.
End QuantizerLaws.

Section OneDimensional.
Context {D : Type} `{Discretizer D}.

Lemma kbins_quantizer_init_original_shape kw s q n rest :
  shape s = n :: rest -> kbins_quantizer_init kw (Some s) = Ok q -> original_shape q = rest.
Proof.
  intros Hs. unfold kbins_quantizer_init. rewrite Hs.
  destruct (reshape_infer s n); res_simpl; [|done].
  destruct (disc_fit_transform _ _); res_simpl; [|done].
  destruct (reshape_out _ _); res_simpl; [|done]. by intros [= <-].
Qed.

(** C19 A quantizer built on a batch of scalars (a one-dimensional
    [surfaces], so [original_shape = surfaces.shape[1:] = ()]) can never
    be called: [__call__] ends in [reshape( *())], which raises, for
    every discretizer and every tensor. *)
Theorem kbins_quantizer_call_1d kw s q n t :
  shape s = [n] -> kbins_quantizer_init kw (Some s) = Ok q ->
  exists e, kbins_quantizer_call q t = Err e.
Proof.
  intros Hs Hq. pose proof (kbins_quantizer_init_original_shape kw s q n [] Hs Hq) as Ho.
  unfold kbins_quantizer_call. rewrite reshape_infer_row. res_simpl.
  destruct (disc_transform _ _) as [Y|e]; res_simpl; [|by exists e].
  unfold reshape_out, reshape. rewrite Ho. destruct (out_sparse Y && _); by eexists.
Qed.
End OneDimensional.

(** ** The sklearn model satisfies the interface *)

Lemma length_inner es : List.length (inner es) = List.length es - 2.
Proof. unfold inner. rewrite length_take, length_drop. lia. Qed.

Lemma length_mask_close prev es : List.length (mask_close prev es) <= List.length es.
Proof.
  revert prev. induction es as [|e es IH]; intros prev; simpl; [lia|].
  destruct (Rlt_dec _ _); simpl; specialize (IH e); lia.
Qed.

Lemma length_remove_small_bins es : List.length (remove_small_bins es) <= List.length es.
Proof. destruct es as [|e es]; simpl; [lia|]. pose proof (length_mask_close e es). lia. Qed.

Lemma length_linspace a b n : List.length (linspace a b n) = S n.
Proof. unfold linspace. by rewrite length_fmap, length_seq. Qed.

Lemma length_tail {A} (l : list A) : List.length (tail l) = List.length l - 1.
Proof. destruct l; simpl; lia. Qed.

Lemma length_midpoints a : List.length (midpoints a) = List.length a - 1.
Proof. unfold midpoints. rewrite length_zip_with, length_tail. lia. Qed.

Lemma searchsorted_right_le a x : searchsorted_right a x <= List.length a.
Proof. induction a as [|e a IH]; simpl; [lia|]. destruct (Rle_dec e x); lia. Qed.

Lemma kbins_fit_Ok_inv `{KMeans} d X d' :
  kbins_fit d X = Ok d' ->
  exists row rest, X = row :: rest /\ 2 <= kb_n_bins d /\ List.length row <> 0 /\
    d' = {| kb_n_bins := kb_n_bins d; kb_encode := kb_encode d; kb_strategy := kb_strategy d;
            kb_bins := Some ((fun j => fit_feature (kb_strategy d) (kb_n_bins d) (column X j))
                              <$> seq 0 (List.length row)) |}.
Proof.
  unfold kbins_fit. destruct X as [|row rest]; [done|].
  destruct (Nat.eqb_spec (List.length row) 0); [done|].
  destruct (Nat.ltb_spec (kb_n_bins d) 2); [done|]. intros [= <-]. by exists row, rest.
Qed.

Lemma kbins_fit_shape `{KMeans} d X n m :
  0 < n -> 0 < m -> 2 <= kb_n_bins d -> has_shape n m X ->
  exists d', kbins_fit d X = Ok d' /\ kb_encode d' = kb_encode d /\ kb_n_bins d' = kb_n_bins d
    /\ option_map List.length (kb_bins d') = Some m.
Proof.
  intros Hn Hm Hb [HX Hrows]. unfold kbins_fit. destruct X as [|row rest]; simpl in HX; [lia|].
  pose proof (Forall_inv Hrows) as Hrow; simpl in Hrow. rewrite Hrow.
  destruct (Nat.eqb_spec m 0); [lia|]. destruct (Nat.ltb_spec (kb_n_bins d) 2); [lia|].
  eexists. split_and!; [reflexivity..|]. simpl. by rewrite length_fmap, length_seq.
Qed.

(** An ordinal [transform] keeps the shape of its input. *)
Lemma kbins_transform_ordinal d bins X n m :
  kb_encode d = Ordinal -> kb_bins d = Some bins -> List.length bins = m -> 0 < n ->
  has_shape n m X ->
  exists Y, kbins_transform d X = Ok Y /\ has_shape n m (out_rows Y) /\ out_sparse Y = false.
Proof.
  intros He Hb Hl Hn [HX Hrows]. unfold kbins_transform. rewrite Hb.
  destruct X as [|row rest]; simpl in HX; [lia|]. pose proof (Forall_inv Hrows) as Hrow; simpl in Hrow.
  rewrite Hrow, <- Hl, Nat.eqb_refl, He. cbn [negb]. eexists. split_and!; [reflexivity| |done].
  cbn [out_rows]. apply has_shape_fmap2. split; [rewrite length_fmap; simpl; lia|].
  apply Forall_fmap, (Forall_impl _ _ _ Hrows). intros r Hr. simpl.
  rewrite length_zip_with. lia.
Qed.

Lemma kbins_transform_mismatch d X n m m' :
  option_map List.length (kb_bins d) = Some m -> has_shape n m' X -> m' <> m ->
  kbins_transform d X = Err ValueError.
Proof.
  intros Hb [HX Hrows] Hne. unfold kbins_transform.
  destruct (kb_bins d) as [bins|]; [|done]. simpl in Hb. injection Hb as Hb.
  destruct X as [|row rest]; [done|]. pose proof (Forall_inv Hrows) as Hrow; simpl in Hrow.
  rewrite Hrow. by destruct (Nat.eqb_spec m' (List.length bins)); [lia|].
Qed.

(** The sklearn model satisfies the interface's laws: a fitted ordinal
    [KBinsDiscretizer] keeps the shape of its input, in [fit_transform]
    and in [transform], and [transform] rejects an input with another
    number of features, whatever the strategy. *)
Lemma kbins_laws_proof `{KMeans} : DiscretizerLaws kbins.
Proof.
  split.
  - intros d X n m Hord Hn Hm HX. cbn -[Nat.leb kbins_fit kbins_transform] in *.
    destruct (kb_encode d) eqn:He; try done. apply Nat.leb_le in Hord.
    destruct (kbins_fit_shape d X n m Hn Hm Hord HX) as (d' & -> & He' & Hb' & Hl). res_simpl.
    destruct (kb_bins d') as [bins|] eqn:Hbins; [|done]. injection Hl as Hl.
    destruct (kbins_transform_ordinal d' bins X n m) as (Y & -> & HY & Hsp);
      [by rewrite He'|done|done|done|done|].
    res_simpl. exists d', Y. split_and!; [done..| |].
    + rewrite Hbins. simpl. congruence.
    + rewrite He', He, Hb'. by apply Nat.leb_le.
  - intros d X n m Hord Hf Hn HX. cbn -[Nat.leb kbins_fit kbins_transform] in *.
    destruct (kb_encode d) eqn:He; try done. destruct (kb_bins d) as [bins|] eqn:Hb; [|done].
    injection Hf as Hf. by apply (kbins_transform_ordinal d bins X n m).
  - intros d X n m m' Hf HX Hne. cbn -[Nat.leb kbins_fit kbins_transform] in *. by apply (kbins_transform_mismatch d X n m m').
Qed.

#[export] Instance kbins_laws `{KMeans} : DiscretizerLaws kbins := kbins_laws_proof.


(** ** Bounds on the labels *)

Definition is_label (nb : nat) (v : R) : Prop := exists k, v = INR k /\ k < nb.

Lemma Forall_zip_with_l {A B C} (P : C -> Prop) (f : A -> B -> C) l k :
  Forall (fun x => forall y, P (f x y)) l -> Forall P (zip_with f l k).
Proof.
  intros Hl. revert k. induction Hl as [|x l Hx Hl IH]; intros [|y k]; simpl; constructor; auto.
Qed.

Lemma one_hot_labels nb k lab : 2 <= nb -> Forall (is_label nb) (one_hot k lab).
Proof.
  intros Hnb. apply Forall_fmap, Forall_forall. intros i _. simpl.
  destruct (Nat.eqb i lab); [exists 1 | exists 0]; split; [done|lia|done|lia].
Qed.

Lemma reshape_out_elems Y sh a : reshape_out Y sh = Ok a -> elems a = concat (out_rows Y).
Proof.
  unfold reshape_out, reshape. destruct (_ && _); [done|]. destruct sh; [done|].
  by destruct (Nat.eqb _ _); [intros [= <-]|].
Qed.

Section KBinsBounds.
Context `{KMeans}.
(** [KMeans] returns one centre per initial centre. *)
Hypothesis kmeans_len : forall col init, List.length (kmeans_centers col init) = List.length init.

Lemma fit_feature_inner strat nb col : List.length (fb_inner (fit_feature strat nb col)) <= nb - 1.
Proof.
  unfold fit_feature. cbn zeta. destruct (Req_dec_T _ _); cbn [fb_inner]; [simpl; lia|].
  rewrite length_inner. destruct strat; [rewrite length_linspace; lia| |];
    match goal with |- context [remove_small_bins ?es] =>
      pose proof (length_remove_small_bins es) as Hlen end.
  - rewrite length_fmap, length_seq in Hlen. lia.
  - rewrite !length_app, length_midpoints, (Permutation_length (merge_sort_Permutation _ _)),
      kmeans_len, length_midpoints, length_linspace in Hlen. cbn [List.length] in Hlen. lia.
Qed.

Lemma kbins_fit_bins d X d' :
  kbins_fit d X = Ok d' -> 2 <= kb_n_bins d /\ kb_n_bins d' = kb_n_bins d /\ kb_encode d' = kb_encode d
  /\ exists bins, kb_bins d' = Some bins
       /\ Forall (fun fb => List.length (fb_inner fb) <= kb_n_bins d - 1) bins.
Proof.
  intros (row & rest & -> & Hb & _ & ->)%kbins_fit_Ok_inv. split_and!; [done..|].
  eexists. split; [reflexivity|]. apply Forall_fmap, Forall_forall. intros j _. apply fit_feature_inner.
Qed.

Lemma kbins_transform_labels d bins X Y :
  kb_bins d = Some bins -> 2 <= kb_n_bins d ->
  Forall (fun fb => List.length (fb_inner fb) <= kb_n_bins d - 1) bins ->
  kbins_transform d X = Ok Y -> Forall (Forall (is_label (kb_n_bins d))) (out_rows Y).
Proof.
  intros Hb Hnb Hbins. unfold kbins_transform. rewrite Hb. destruct X as [|row rest] eqn:EX; [done|].
  destruct (negb _); [done|]. rewrite <- EX.
  assert (Hl : forall r, Forall (fun k => k < kb_n_bins d)
                 (zip_with (fun fb x => searchsorted_right (fb_inner fb) x) bins r)).
  { intros r. apply Forall_zip_with_l, (Forall_impl _ _ _ Hbins). intros fb Hfb x.
    pose proof (searchsorted_right_le (fb_inner fb) x). lia. }
  destruct (kb_encode d); intros [= <-]; cbn [out_rows]; rewrite !Forall_fmap;
    apply Forall_forall; intros r _; unfold compose.
  1,2: rewrite Forall_concat; apply Forall_zip_with_l, Forall_forall; intros fb _ lab;
    by apply one_hot_labels.
  apply Forall_fmap, (Forall_impl _ _ _ (Hl r)). intros k Hk. by exists k.
Qed.
End KBinsBounds.

(** ** The quantizer on the sklearn model *)

Lemma reshape_infer_Err a n e : reshape_infer a n = Err e -> e = ValueError.
Proof. unfold reshape_infer. by repeat case_match; intros [= <-]. Qed.

Lemma kbins_fit_Err `{KMeans} d X e : kbins_fit d X = Err e -> e = ValueError.
Proof. unfold kbins_fit. by repeat case_match; intros [= <-]. Qed.

Lemma kbins_transform_Err d X e : kbins_transform d X = Err e -> e = ValueError.
Proof. unfold kbins_transform. by repeat case_match; intros [= <-]. Qed.

(** With [encode="onehot"], [transform] returns a scipy sparse matrix. *)
Lemma kbins_transform_onehot d X Y :
  kb_encode d = Onehot -> kbins_transform d X = Ok Y -> out_sparse Y = true.
Proof.
  intros He. unfold kbins_transform. rewrite He. by repeat case_match; intros [= <-].
Qed.

Lemma set_default_encode_n_bins kw :
  kb_n_bins (KBinsDiscretizer (set_default_encode kw)) = default 5 (kw_n_bins kw).
Proof. unfold set_default_encode. by destruct (kw_encode kw). Qed.

Section KBinsQuantizerProofs.
Context `{KMeans}.
Hypothesis kmeans_len : forall col init, List.length (kmeans_centers col init) = List.length init.

(** C15 Every value of the quantized surfaces is a bin index: an integer
    in [[0, n_bins)], [n_bins] being the argument (default 5), for
    every strategy and every encoding. *)
Theorem kbins_quantizer_labels kw s q :
  kbins_quantizer_init (D := kbins) kw (Some s) = Ok q ->
  Forall (is_label (default 5 (kw_n_bins kw))) (elems (q_surfaces q)).
Proof.
  unfold kbins_quantizer_init. destruct (shape s) as [|n rest]; [done|].
  destruct (reshape_infer s n) as [X|e]; res_simpl; [|done]. cbn [disc_fit_transform disc_new kbins_discretizer].
  destruct (kbins_fit _ _) as [d'|e] eqn:Hfit; res_simpl; [|done].
  destruct (kbins_transform d' _) as [Y|e] eqn:Htr; res_simpl; [|done].
  cbn [fst snd]. destruct (reshape_out Y (n :: rest)) as [out|e] eqn:Hout; res_simpl; [|done].
  intros [= <-]. cbn [q_surfaces]. rewrite (reshape_out_elems _ _ _ Hout), Forall_concat.
  destruct (kbins_fit_bins kmeans_len _ _ _ Hfit) as (Hnb & Hnb' & _ & bins & Hbins & Hin).
  rewrite <- set_default_encode_n_bins, <- Hnb'.
  apply (kbins_transform_labels d' bins (to_rows X) Y Hbins); [lia|by rewrite Hnb'|done].
Qed.
End KBinsQuantizerProofs.

(** C16 [encode="onehot"] cannot be used: [fit_transform] returns a scipy
    sparse matrix, which [reshape( *surfaces.shape)] rejects for a batch
    that is not two-dimensional, so [__init__] raises [ValueError] on
    every such batch. *)
Theorem kbins_quantizer_onehot_error `{KMeans} kw s :
  kw_encode kw = Some Onehot -> shape s <> [] -> List.length (shape s) <> 2 ->
  kbins_quantizer_init (D := kbins) kw (Some s) = Err ValueError.
Proof.
  intros He Hs Hl. unfold kbins_quantizer_init. destruct (shape s) as [|n rest]; [done|].
  destruct (reshape_infer s n) as [X|e] eqn:Hr; res_simpl; [|by apply reshape_infer_Err in Hr as ->].
  cbn [disc_fit_transform disc_new kbins_discretizer].
  destruct (kbins_fit _ _) as [d'|e] eqn:Hfit; res_simpl; [|by apply kbins_fit_Err in Hfit as ->].
  destruct (kbins_transform d' _) as [Y|e] eqn:Htr; res_simpl;
    [|by apply kbins_transform_Err in Htr as ->].
  destruct (kbins_fit_Ok_inv _ _ _ Hfit) as (row & rest' & _ & _ & _ & Hd).
  assert (Hsp : out_sparse Y = true).
  { apply (kbins_transform_onehot d' (to_rows X)); [|done].
    rewrite Hd. unfold set_default_encode, KBinsDiscretizer. rewrite He. cbn. by rewrite He. }
  cbn [fst snd]. unfold reshape_out. rewrite Hsp.
  by destruct (Nat.eqb_spec (List.length (n :: rest)) 2).
Qed.

(** ** Monotonicity *)

Lemma searchsorted_right_mono a x y : (x <= y)%R -> searchsorted_right a x <= searchsorted_right a y.
Proof.
  intros Hxy. induction a as [|e a IH]; simpl; [lia|].
  destruct (Rle_dec e x), (Rle_dec e y); try lia. exfalso. lra.
Qed.

Lemma labels_mono bins l1 l2 :
  Forall2 Rle l1 l2 ->
  Forall2 Rle (INR <$> zip_with (fun fb x => searchsorted_right (fb_inner fb) x) bins l1)
              (INR <$> zip_with (fun fb x => searchsorted_right (fb_inner fb) x) bins l2).
Proof.
  intros Ht. apply Forall2_fmap. revert bins.
  induction Ht as [|x y l1 l2 Hxy Hl IH]; intros [|fb bins]; simpl; constructor;
    [apply le_INR, searchsorted_right_mono, Hxy|apply IH].
Qed.

Lemma chunks_one {A} (l : list A) : chunks 1 (List.length l) l = [l].
Proof. simpl. by rewrite take_ge. Qed.

(** The labels of one row under [transform]. *)
Lemma kbins_transform_row d bins (r : list R) Y :
  kb_bins d = Some bins -> kb_encode d = Ordinal -> kbins_transform d [r] = Ok Y ->
  out_rows Y = [INR <$> zip_with (fun fb x => searchsorted_right (fb_inner fb) x) bins r].
Proof.
  intros Hb He. unfold kbins_transform. rewrite Hb, He.
  destruct (negb _); [done|]. by intros [= <-].
Qed.

Lemma kbins_transform_ordinal_rows d bins X row rest :
  kb_encode d = Ordinal -> kb_bins d = Some bins -> X = row :: rest ->
  List.length row = List.length bins ->
  kbins_transform d X
  = Ok {| out_rows := (fun r => INR <$> zip_with (fun fb x => searchsorted_right (fb_inner fb) x) bins r) <$> X;
          out_sparse := false |}.
Proof.
  intros He Hb -> Hl. unfold kbins_transform. rewrite Hb, Hl, Nat.eqb_refl, He. cbn zeta.
  by rewrite <- list_fmap_compose.
Qed.

Lemma labels_shape bins n m (X : list (list R)) :
  List.length bins = m -> has_shape n m X ->
  has_shape n m ((fun r => INR <$> zip_with (fun fb x => searchsorted_right (fb_inner fb) x) bins r) <$> X).
Proof.
  intros Hb [Hn Hrows]. split; [by rewrite length_fmap|].
  apply Forall_fmap, (Forall_impl _ _ _ Hrows). intros r Hr. simpl.
  rewrite length_fmap, length_zip_with. lia.
Qed.

Section Monotone.
Context `{KMeans}.

Lemma kbins_quantizer_call_elems (q : @kbins_quantizer kbins) t z bins :
  kb_bins (underlying q) = Some bins -> kb_encode (underlying q) = Ordinal ->
  kbins_quantizer_call q t = Ok z ->
  elems z = INR <$> zip_with (fun fb x => searchsorted_right (fb_inner fb) x) bins (elems t).
Proof.
  intros Hb He. unfold kbins_quantizer_call. rewrite reshape_infer_row. res_simpl.
  unfold to_rows. cbn [shape elems]. rewrite chunks_one.
  destruct (disc_transform _ _) as [Y|e] eqn:HY; res_simpl; [|done].
  intros Hz. rewrite (reshape_out_elems _ _ _ Hz), (kbins_transform_row _ _ _ _ Hb He HY).
  simpl. by rewrite app_nil_r.
Qed.

(** C21 [__call__] keeps the order of the values: with an ordinal
    discretizer, a tensor that is everywhere at least another one is
    quantized to labels that are everywhere at least the other's
    labels, whatever the strategy and the fitted bins. *)
Theorem kbins_quantizer_call_monotone (q : @kbins_quantizer kbins) t1 t2 z1 z2 :
  kb_encode (underlying q) = Ordinal -> Forall2 Rle (elems t1) (elems t2) ->
  kbins_quantizer_call q t1 = Ok z1 -> kbins_quantizer_call q t2 = Ok z2 ->
  Forall2 Rle (elems z1) (elems z2).
Proof.
  intros He Ht H1 H2. destruct (kb_bins (underlying q)) as [bins|] eqn:Hb.
  - rewrite (kbins_quantizer_call_elems _ _ _ _ Hb He H1), (kbins_quantizer_call_elems _ _ _ _ Hb He H2).
    by apply labels_mono.
  - unfold kbins_quantizer_call in H1. rewrite reshape_infer_row in H1. cbn in H1.
    unfold kbins_transform in H1. by rewrite Hb in H1.
Qed.
End Monotone.

(** ** A training surface is quantized as in the batch *)

Section TrainingSample.
Context `{KMeans}.

Lemma kbins_quantizer_init_ordinal kw s q n rest :
  kw_encode kw = None \/ kw_encode kw = Some Ordinal ->
  shape s = n :: rest -> kbins_quantizer_init kw (Some s) = Ok q ->
  exists bins, kb_bins (underlying q) = Some bins /\ kb_encode (underlying q) = Ordinal
    /\ original_shape q = rest /\ List.length bins = size rest
    /\ List.length (elems s) = n * size rest
    /\ q_surfaces q
       = mkArr (n :: rest)
           (concat ((fun r => INR <$> zip_with (fun fb x => searchsorted_right (fb_inner fb) x) bins r)
                    <$> chunks n (size rest) (elems s))).
Proof.
  intros Henc Hs. unfold kbins_quantizer_init. rewrite Hs. unfold reshape_infer.
  destruct (Nat.eqb_spec n 0) as [|Hn]; [done|].
  destruct (Nat.eqb_spec (List.length (elems s) mod n) 0) as [Hmod|]; [|done].
  set (m := List.length (elems s) / n).
  assert (Hlen : List.length (elems s) = n * m) by (apply Nat.Div0.div_exact; lia).
  pose proof (chunks_shape n m (elems s) Hlen) as Hsh.
  cbn [res_bind disc_fit_transform kbins_discretizer to_rows shape elems].
  destruct (kbins_fit _ _) as [d'|] eqn:Hfit; cbn [res_bind]; [|done].
  apply kbins_fit_Ok_inv in Hfit as (row & rows' & Hrows & _ & _ & ->).
  assert (Hrow : List.length row = m).
  { destruct Hsh as [_ Hf]. rewrite Hrows in Hf. by apply Forall_inv in Hf. }
  set (bins := (fun j => fit_feature _ _ (column _ j)) <$> seq 0 (List.length row)).
  assert (Hb : List.length bins = m) by (by unfold bins; rewrite length_fmap, length_seq).
  assert (He : kb_encode (KBinsDiscretizer (set_default_encode kw)) = Ordinal).
  { unfold KBinsDiscretizer, set_default_encode. by destruct Henc as [E|E]; rewrite E; simpl; rewrite ?E. }
  rewrite (kbins_transform_ordinal_rows _ bins _ row rows') by (done || congruence).
  cbn [res_bind snd]. unfold reshape_out, reshape. cbn [out_sparse andb out_rows elems].
  rewrite (length_concat_shape n m) by (by apply labels_shape).
  change (size (n :: rest)) with (n * size rest). destruct (Nat.eqb_spec (n * size rest) (n * m)) as [Hsz|]; [|done].
  apply Nat.mul_cancel_l in Hsz; [|done]. intros [= <-]. exists bins. cbn.
  rewrite Hsz. split_and!; try done; congruence.
Qed.

Lemma kbins_quantizer_call_labels (q : @kbins_quantizer kbins) bins t :
  kb_bins (underlying q) = Some bins -> kb_encode (underlying q) = Ordinal ->
  original_shape q <> [] -> List.length bins = size (original_shape q) ->
  List.length (elems t) = List.length bins ->
  kbins_quantizer_call q t
  = Ok (mkArr (original_shape q)
          (INR <$> zip_with (fun fb x => searchsorted_right (fb_inner fb) x) bins (elems t))).
Proof.
  intros Hb He Hne Hsz Ht. unfold kbins_quantizer_call. rewrite reshape_infer_row. res_simpl.
  unfold to_rows. cbn [shape elems]. rewrite chunks_one.
  cbn [disc_transform kbins_discretizer].
  rewrite (kbins_transform_ordinal_rows _ bins _ (elems t) []) by done. res_simpl.
  unfold reshape_out, reshape. cbn [out_sparse andb out_rows elems fmap list_fmap concat].
  rewrite app_nil_r, length_fmap, length_zip_with, Ht, Nat.min_id, <- Hsz, Nat.eqb_refl.
  by destruct (original_shape q).
Qed.

(** C12 Quantizing a surface of the training batch gives its quantized
    surface: with the default (or an explicit ordinal) encoding and
    surfaces of at least one dimension, [quantizer(surfaces[i])] is
    [quantizer.surfaces[i]] for every index [i] of the batch, as the
    demo of lines 45-49 does with [i = 0]. *)
Theorem kbins_quantizer_call_training_sample kw s q i t :
  kw_encode kw = None \/ kw_encode kw = Some Ordinal ->
  kbins_quantizer_init kw (Some s) = Ok q -> original_shape q <> [] ->
  np_getitem s i = Ok t ->
  exists z, np_getitem (q_surfaces q) i = Ok z /\ kbins_quantizer_call q t = Ok z.
Proof.
  intros Henc Hinit Hne Ht. unfold np_getitem in Ht. destruct (shape s) as [|n rest] eqn:Hs; [done|].
  destruct (kbins_quantizer_init_ordinal kw s q n rest Henc Hs Hinit)
    as (bins & Hb & He & Ho & Hl & Hlen & Hq).
  destruct (Nat.ltb_spec i n) as [Hi|]; [|done]. injection Ht as <-.
  eexists. split.
  - unfold np_getitem. rewrite Hq. cbn [shape elems]. destruct (Nat.ltb_spec i n); [|lia].
    erewrite concat_row_slice; [reflexivity|by apply labels_shape, chunks_shape|].
    by rewrite list_lookup_fmap, chunks_lookup.
  - rewrite kbins_quantizer_call_labels with (bins := bins); [by rewrite Ho|done..|congruence|].
    cbn [elems]. rewrite length_take, length_drop. nia.
Qed.
End TrainingSample.

(** ** Witnesses on a batch of two [1 x 2] surfaces *)

Module QuantizerExamples.
(** Cluster centres left at their initial values. *)
#[local] Instance kmeans_init : KMeans := fun _ init => init.

Definition kw_default : kwargs := {| kw_n_bins := None; kw_encode := None; kw_strategy := None |}.
Definition kw_onehot : kwargs :=
  {| kw_n_bins := None; kw_encode := Some Onehot; kw_strategy := None |}.
Definition batch : ndarray := mkArr [2; 1; 2] [0; 1; 2; 3]%R.

(** A discretizer fitted on two constant features. *)
Definition constant_bins : feature_bins := {| fb_inner := []; fb_n_bins := 1 |}.
Definition fitted (k : nat) : kbins :=
  {| kb_n_bins := 5; kb_encode := Ordinal; kb_strategy := Uniform;
     kb_bins := Some (replicate k constant_bins) |}.
Definition fitted_quantizer (k : nat) (sh : list nat) : kbins_quantizer :=
  {| underlying := fitted k; original_shape := sh; q_surfaces := batch |}.

Lemma kbins_quantizer_shape_witness :
  exists q, kbins_quantizer_init (D := kbins) kw_default (Some batch) = Ok q
    /\ shape (q_surfaces q) = shape batch /\ original_shape q = [1; 2]
    /\ forall t, [1; 2] <> [] -> List.length (elems t) = size [1; 2] ->
         exists z, kbins_quantizer_call q t = Ok z /\ shape z = [1; 2].
Proof.
  apply (kbins_quantizer_shape (D := kbins) kw_default batch 2 [1; 2]);
    [reflexivity | reflexivity | lia | cbn; lia | reflexivity].
Defined.

Lemma kbins_quantizer_labels_witness :
  exists q, kbins_quantizer_init (D := kbins) kw_default (Some batch) = Ok q
    /\ Forall (is_label 5) (elems (q_surfaces q)).
Proof.
  destruct (kbins_quantizer_init_Ok (D := kbins) kw_default batch 2 [1; 2])
    as (q & Hq & _); [reflexivity | reflexivity | lia | cbn; lia | reflexivity |].
  exists q. split; [exact Hq|].
  apply (kbins_quantizer_labels (fun _ _ => eq_refl) kw_default batch q Hq).
Defined.

Lemma kbins_quantizer_onehot_error_witness :
  kbins_quantizer_init (D := kbins) kw_onehot (Some batch) = Err ValueError.
Proof. apply kbins_quantizer_onehot_error; [reflexivity | discriminate | cbn; lia]. Defined.

Example kbins_quantizer_call_wrong_size :
  kbins_quantizer_call (fitted_quantizer 2 [1; 2]) (mkArr [3] [0; 0; 0]%R) = Err ValueError.
Proof. apply (kbins_quantizer_call_mismatch _ _ 2); [reflexivity | cbn; lia]. Qed.

Lemma kbins_quantizer_call_training_sample_witness :
  exists q, kbins_quantizer_init (D := kbins) kw_default (Some batch) = Ok q
    /\ exists z, np_getitem (q_surfaces q) 1 = Ok z
         /\ kbins_quantizer_call q (mkArr [1; 2] [2; 3]%R) = Ok z.
Proof.
  destruct (kbins_quantizer_init_Ok (D := kbins) kw_default batch 2 [1; 2])
    as (q & Hq & _ & Ho & _); [reflexivity | reflexivity | lia | cbn; lia | reflexivity |].
  exists q. split; [exact Hq|].
  apply (kbins_quantizer_call_training_sample kw_default batch q 1); [left; reflexivity|exact Hq| |reflexivity].
  by rewrite Ho.
Defined.

Lemma kbins_quantizer_call_monotone_witness :
  Forall2 Rle (elems (mkArr [1; 2] [INR 0; INR 0])) (elems (mkArr [1; 2] [INR 0; INR 0])).
Proof.
  apply (kbins_quantizer_call_monotone (fitted_quantizer 2 [1; 2])
           (mkArr [2] [0; 1]%R) (mkArr [2] [1; 2]%R));
    [reflexivity | repeat constructor; lra | reflexivity | reflexivity].
Defined.

(** The default [surfaces=None] raises. *)
Example kbins_quantizer_default_surfaces :
  kbins_quantizer_init (D := kbins) kw_default None = Err AttributeError.
Proof. reflexivity. Qed.

(** A quantizer fitted on one-dimensional data, [original_shape = ()]:
    [__call__] ends in [reshape()] without arguments. *)
Example kbins_quantizer_call_scalar_shape :
  kbins_quantizer_call (fitted_quantizer 1 []) (mkArr [1] [0]%R) = Err TypeError.
Proof. reflexivity. Qed.

Definition scalars : ndarray := mkArr [2] [0; 1]%R.

Lemma kbins_quantizer_call_1d_witness :
  exists q, kbins_quantizer_init (D := kbins) kw_default (Some scalars) = Ok q
    /\ exists e, kbins_quantizer_call q (mkArr [1] [0]%R) = Err e.
Proof.
  destruct (kbins_quantizer_init_Ok (D := kbins) kw_default scalars 2 [])
    as (q & Hq & _); [reflexivity | reflexivity | lia | cbn; lia | reflexivity |].
  exists q. split; [exact Hq|]. by apply (kbins_quantizer_call_1d kw_default scalars q 2).
Defined.
End QuantizerExamples.
