(* ===== verification/Pipeline.v ===== *)
(** * Pipeline: [SurfaceGenerator.generate_surface] end to end

    Lines 50-123 of [src/src/roughgan/data/generators.py], composed from
    the components of the other files in the order the code runs them:
    the lag grid of the autocorrelation model (LagGrid, Autocorrelation),
    its spectrum and the filtered white noise (Spectral), the two
    normalisations (Stats), the Pearson type III sample and the rank
    swap (RankSwap).  The method [autocorrelation] is dispatched on the
    class of the generator object ([surface_generator]).

    A float64 cell of the surface is [option R]: [None] is [nan].  The
    Gaussian field is all [nan] when either normalisation divides by a
    zero standard deviation: a non-finite mean [avez] reaches every cell
    through [z - avez], and [0 / 0] is [nan] in every cell.  numpy's
    sorts put [nan] last; [nan_le] is that order.

    numpy's global random state is the [Seed] threaded through
    [np.random.rand] and [stats.pearson3.rvs] (scipy draws from the same
    state).  Both samplers are parameters: [rand] returns any array, and
    [pearson3_draw] is the sampler scipy runs for a positive [scale];
    [pearson3_rvs] is scipy's argument check around it ([scale < 0]
    raises [ValueError], [scale = 0] returns [loc] everywhere without
    drawing). *)

From S2P Require Import Prelude LagGrid RankSwap Stats Autocorrelation Spectral Generator.
From Stdlib Require Import Reals Lra.

Local Open Scope R_scope.

(** numpy's order on float64 for [sort] and [argsort]: [nan] after
    every number. *)
Definition nan_le (x y : option R) : Prop :=
  match x, y with
  | _, None => True
  | None, Some _ => False
  | Some a, Some b => a <= b
  end.

#[export] Instance nan_le_dec : RelDecision nan_le.
Proof.
  intros [a|] [b|]; simpl; [exact (Rle_dec a b)|left; exact I|right; intros []|left; exact I].
Defined.

(** The two classes of generators.py and their [autocorrelation]. *)
Inductive surface_generator :=
| NonGaussian (c : config)
| BesselNonGaussian (c : bessel_config).

Definition generator_config (g : surface_generator) : config :=
  match g with
  | NonGaussian c => c
  | BesselNonGaussian c => base c
  end.

Definition generator_autocorrelation (g : surface_generator) : Z -> Z -> res R :=
  match g with
  | NonGaussian c => autocorrelation c
  | BesselNonGaussian c => bessel_autocorrelation c
  end.

Definition nan_mat (n : nat) : list (list (option R)) := replicate n (replicate n None).

(** A finite float array. *)
Definition to_float (M : list (list R)) : list (list (option R)) :=
  (fun row : list R => Some <$> row) <$> M.

(** Lines 73-93: the white noise [X0] normalised (74-79), filtered
    (81-88) and normalised to [rms] (90-93). *)
Definition gaussian_field (rms : R) (n : nat) (AMPR X0 : list (list R)) :
    list (list (option R)) :=
  match normalize_noise X0 with
  | None => nan_mat n
  | Some X =>
      match normalize_field rms (filter_noise n AMPR X) with
      | Some z => to_float z
      | None => nan_mat n
      end
  end.

Section Pipeline.
Context {Seed : Type}.
(** [np.random.rand(n, n)]. *)
Context (rand : nat -> Seed -> list (list R) * Seed).
(** The Pearson III sampler for [skew], [loc], a positive [scale] and
    [size=(n, n)]. *)
Context (pearson3_draw : R -> R -> R -> nat -> Seed -> list (list R) * Seed).
Context `{!ArgSort nan_le}.

(** Lines 103-108: [stats.pearson3.rvs(skew, loc=..., scale=..., size=(n, n))]. *)
Definition pearson3_rvs (skew loc scale : R) (n : nat) (s : Seed) :
    res (list (list R) * Seed) :=
  if Rlt_dec scale 0 then Err ValueError
  else if Req_dec_T scale 0 then Ok (replicate n (replicate n loc), s)
  else Ok (pearson3_draw skew loc scale n s).

(** Lines 50-123, for the configuration [c], the method
    [autocorrelation] given as [acf] and [self._mean] given as [mean]. *)
Definition generate_surface (c : config) (acf : Z -> Z -> res R) (mean : R) (s : Seed) :
    res (list (list (option R)) * Seed) :=
  g <- autocorrelation_grid 0 acf (n_points c) ;;
  let '(Rg, dtx, dty) := g in
  let n := Z.to_nat (n_points c) in
  let AMPR := spectrum n Rg dtx dty in
  let '(X0, s1) := rand n s in
  let z_gs := np_slice2 (gaussian_field (rms c) n AMPR X0) 0 n 0 n in
  p <- pearson3_rvs (skewness c) mean (rms c) n s1 ;;
  let '(z_ngn, s2) := p in
  out <- rank_swap nan_le (Some 0) n z_gs (to_float z_ngn) ;;
  Ok (out, s2).

(** [self.generate_surface()] on a generator object (line 39). *)
Definition surface_gen (o : @gen_obj surface_generator) (s : Seed) :
    res (list (list (option R)) * Seed) :=
  generate_surface (generator_config (cfg o)) (generator_autocorrelation (cfg o))
    (IZR (g_mean o)) s.
End Pipeline.

(** The exception [generate_surface] raises for a generator, if any: a
    negative [n_points] in [np.zeros], [n_points = 0] in [// n_points],
    a zero correlation length or period at the first lag, a negative
    [rms] in [pearson3.rvs]. *)
Definition config_error (g : surface_generator) : option pyexc :=
  let c := generator_config g in
  if (n_points c <? 0)%Z then Some ValueError
  else if (n_points c =? 0)%Z then Some ZeroDivisionError
  else if Req_dec_T (corlength_x c) 0 then Some ZeroDivisionError
  else if Req_dec_T (corlength_y c) 0 then Some ZeroDivisionError
  else match g with
       | BesselNonGaussian b =>
           if Req_dec_T (beta_x b) 0 then Some ZeroDivisionError
           else if Req_dec_T (beta_y b) 0 then Some ZeroDivisionError
           else if Rlt_dec (rms c) 0 then Some ValueError else None
       | NonGaussian _ => if Rlt_dec (rms c) 0 then Some ValueError else None
       end.

(** The side of the surface, [self.n_points] as an array size. *)
Definition grid_size (g : surface_generator) : nat := Z.to_nat (n_points (generator_config g)).

(** ** The order on float64 *)

#[export] Instance nan_le_total : Total nan_le.
Proof. intros [a|] [b|]; simpl; auto. destruct (Rle_dec a b); [left|right]; lra. Qed.

#[export] Instance nan_le_trans : Transitive nan_le.
Proof. intros [a|] [b|] [c|]; simpl; try done. lra. Qed.

#[export] Instance nan_le_antisymm : AntiSymm (=) nan_le.
Proof. intros [a|] [b|]; simpl; try done. intros. f_equal. lra. Qed.

(** ** Configurations *)

Lemma config_error_None g :
  config_error g = None ->
  (0 < n_points (generator_config g))%Z /\ corlength_x (generator_config g) <> 0
  /\ corlength_y (generator_config g) <> 0 /\ 0 <= rms (generator_config g)
  /\ (forall b, g = BesselNonGaussian b -> beta_x b <> 0 /\ beta_y b <> 0).
Proof.
  unfold config_error.
  destruct (Z.ltb_spec (n_points (generator_config g)) 0); [done|].
  destruct (Z.eqb_spec (n_points (generator_config g)) 0); [done|].
  destruct (Req_dec_T (corlength_x _) 0); [done|].
  destruct (Req_dec_T (corlength_y _) 0); [done|].
  destruct g as [c|b]; cbn [generator_config] in *.
  - destruct (Rlt_dec (rms c) 0); [done|]. intros _.
    split_and!; [lia|done|done|lra|by intros b' [=]].
  - destruct (Req_dec_T (beta_x b) 0); [done|]. destruct (Req_dec_T (beta_y b) 0); [done|].
    destruct (Rlt_dec (rms (base b)) 0); [done|]. intros _.
    split_and!; [lia|done|done|lra|by intros b' [= <-]].
Qed.

(** With non-zero correlation lengths and periods the [autocorrelation]
    method never raises. *)
Lemma generator_autocorrelation_ok g tx ty :
  corlength_x (generator_config g) <> 0 -> corlength_y (generator_config g) <> 0 ->
  (forall b, g = BesselNonGaussian b -> beta_x b <> 0 /\ beta_y b <> 0) ->
  exists v, generator_autocorrelation g tx ty = Ok v.
Proof.
  intros Hx Hy Hb.
  destruct g as [c|b]; cbn [generator_autocorrelation generator_config] in *.
  - destruct (autocorrelation_range c tx ty Hx Hy) as [v [-> _]]. by exists v.
  - destruct (Hb b eq_refl) as [Hbx Hby]. unfold bessel_autocorrelation.
    destruct (autocorrelation_range (base b) tx ty Hx Hy) as [v [-> _]]. res_simpl.
    rewrite !py_truediv_ok by done. res_simpl. by eexists.
Qed.

Lemma generator_autocorrelation_corlength0 g tx ty :
  corlength_x (generator_config g) = 0 \/ corlength_y (generator_config g) = 0 ->
  generator_autocorrelation g tx ty = Err ZeroDivisionError.
Proof.
  destruct g as [c|b]; cbn [generator_autocorrelation generator_config]; intros Hc.
  - by apply autocorrelation_corlength0.
  - unfold bessel_autocorrelation. by rewrite autocorrelation_corlength0.
Qed.

Lemma grid_ok (acf : Z -> Z -> res R) n :
  (0 < n)%Z -> (forall tx ty, exists v, acf tx ty = Ok v) ->
  exists Rg, autocorrelation_grid 0 acf n = Ok (Rg, 1%Z, 1%Z).
Proof.
  intros Hn Hacf.
  set (v := fun tx ty => match acf tx ty with Ok v => v | Err _ => 0 end).
  exists (grid_table v n). apply autocorrelation_grid_eq; [|done]. intros tx ty. unfold v.
  by destruct (Hacf tx ty) as [w ->].
Qed.

Lemma generator_grid_ok g :
  config_error g = None ->
  exists Rg, autocorrelation_grid 0 (generator_autocorrelation g)
               (n_points (generator_config g)) = Ok (Rg, 1%Z, 1%Z).
Proof.
  intros (Hn & Hx & Hy & _ & Hb)%config_error_None. apply grid_ok; [done|].
  intros tx ty. by apply generator_autocorrelation_ok.
Qed.

Lemma has_shape_gaussian_field rms n (AMPR X0 : list (list R)) :
  has_shape n n (gaussian_field rms n AMPR X0).
Proof.
  unfold gaussian_field, nan_mat. destruct (normalize_noise X0) as [X|]; [|apply has_shape_replicate].
  destruct (normalize_field rms (filter_noise n AMPR X)) as [z|] eqn:Ez;
    [|apply has_shape_replicate].
  apply has_shape_fmap2. eapply normalize_field_shape; [|exact Ez].
  apply has_shape_filter_noise.
Qed.

(** C7 Lines 74-79 have no effect on the surface: for a noise that is
    not constant, the Gaussian field is the one the raw noise gives,
    because the filter of lines 81-88 is linear and the normalisation of
    lines 90-93 forgets a positive factor. *)
Theorem gaussian_field_noise_normalisation n rms (AMPR X : list (list R)) :
  has_shape n n X -> (0 < n)%nat -> (exists x y, x ∈ concat X /\ y ∈ concat X /\ x <> y) ->
  gaussian_field rms n AMPR X
  = match normalize_field rms (filter_noise n AMPR X) with
    | Some z => to_float z
    | None => nan_mat n
    end.
Proof.
  intros HX Hn Hxy. unfold gaussian_field.
  destruct (normalize_noise_Some n X HX Hn Hxy) as [X' EX]. rewrite EX.
  destruct (normalize_noise_div X X' EX) as (sd & Hsd & ->).
  rewrite (mat_map_ext (fun x => x / sd) (fun x => / sd * x)) by (intros; unfold Rdiv; ring).
  rewrite filter_noise_scale.
  rewrite (mat_map_ext (fun x => / sd * x) (fun x => / sd * x + 0)) by (intros; ring).
  rewrite (normalize_field_affine_eq n); [done|apply has_shape_filter_noise|done|].
  by apply Rinv_0_lt_compat.
Qed.

Section PipelineProofs.
Context {Seed : Type}.
Context (rand : nat -> Seed -> list (list R) * Seed).
Context (pearson3_draw : R -> R -> R -> nat -> Seed -> list (list R) * Seed).
Context `{!ArgSort nan_le}.
(** scipy returns an array of the requested [size]. *)
Hypothesis pearson3_shape :
  forall skew loc scale n s, has_shape n n (pearson3_draw skew loc scale n s).1.

Lemma pearson3_rvs_ok skew loc scale n s :
  0 <= scale ->
  exists z s', pearson3_rvs pearson3_draw skew loc scale n s = Ok (z, s') /\ has_shape n n z.
Proof.
  intros Hs. unfold pearson3_rvs. destruct (Rlt_dec scale 0); [lra|].
  destruct (Req_dec_T scale 0).
  - do 2 eexists. split; [reflexivity|apply has_shape_replicate].
  - destruct (pearson3_draw skew loc scale n s) as [z s'] eqn:E. exists z, s'.
    split; [done|]. pose proof (pearson3_shape skew loc scale n s) as H. by rewrite E in H.
Qed.

(** With valid parameters [generate_surface] returns an [n x n]
    surface whose values are the Pearson sample drawn after the noise. *)
Lemma generate_surface_ok g mean s :
  config_error g = None ->
  exists out z_ngn s2,
    generate_surface rand pearson3_draw (generator_config g) (generator_autocorrelation g) mean s
      = Ok (out, s2)
    /\ pearson3_rvs pearson3_draw (skewness (generator_config g)) mean (rms (generator_config g))
         (Z.to_nat (n_points (generator_config g)))
         (rand (Z.to_nat (n_points (generator_config g))) s).2 = Ok (z_ngn, s2)
    /\ has_shape (Z.to_nat (n_points (generator_config g)))
         (Z.to_nat (n_points (generator_config g))) out
    /\ concat out ≡ₚ concat (to_float z_ngn).
Proof.
  intros Hg. pose proof (config_error_None g Hg) as (Hn & _ & _ & Hrms & _).
  destruct (generator_grid_ok g Hg) as [Rg ER].
  set (n := Z.to_nat (n_points (generator_config g))).
  destruct (rand n s) as [X0 s1] eqn:Er.
  destruct (pearson3_rvs_ok (skewness (generator_config g)) mean (rms (generator_config g)) n s1
    Hrms) as (z & s2 & Ep & Hz).
  set (A := spectrum n Rg 1 1).
  pose proof (has_shape_gaussian_field (rms (generator_config g)) n A X0) as Hgs.
  destruct (rank_swap_ok nan_le (Some 0) n (gaussian_field (rms (generator_config g)) n A X0)
    (to_float z)) as (out & Eo & Ho & Hp); [lia|done|by apply has_shape_fmap2|].
  exists out, z, s2. split_and!; [|exact Ep|done|done].
  unfold generate_surface. rewrite ER. res_simpl. fold n. rewrite Er.
  rewrite np_slice2_full by done. fold A. rewrite Ep. res_simpl. by rewrite Eo.
Qed.
Lemma generate_surface_acf_err c acf e mean s :
  (0 < n_points c)%Z -> (forall tx ty, acf tx ty = Err e) ->
  generate_surface rand pearson3_draw c acf mean s = Err e.
Proof.
  intros Hn Hacf. unfold generate_surface. by rewrite (autocorrelation_grid_err 0 acf e).
Qed.

Lemma generate_surface_rms_neg c acf mean s :
  (0 < n_points c)%Z -> (forall tx ty, exists v, acf tx ty = Ok v) -> rms c < 0 ->
  generate_surface rand pearson3_draw c acf mean s = Err ValueError.
Proof.
  intros Hn Hacf Hr. destruct (grid_ok acf (n_points c) Hn Hacf) as [Rg ER].
  unfold generate_surface. rewrite ER. res_simpl.
  destruct (rand _ s) as [X0 s1]. unfold pearson3_rvs. by destruct (Rlt_dec (rms c) 0).
Qed.

(** C4 Error behaviour of lines 50-123: [generate_surface] raises
    exactly the exception [config_error] names, the first one the code
    reaches: [ValueError] in [np.zeros] for a negative size,
    [ZeroDivisionError] in the lag step for size 0 and in the first
    [autocorrelation] call for a zero correlation length or period, and
    [ValueError] in [pearson3.rvs] for a negative [rms]. *)
Theorem generate_surface_error g e mean s :
  config_error g = Some e ->
  generate_surface rand pearson3_draw (generator_config g) (generator_autocorrelation g) mean s
  = Err e.
Proof.
  unfold config_error.
  destruct (Z.ltb_spec (n_points (generator_config g)) 0) as [Hn|Hn].
  { intros [= <-]. unfold generate_surface. rewrite autocorrelation_grid_nonpos_eq by lia.
    by destruct (Z.eqb_spec (n_points (generator_config g)) 0); [lia|]. }
  destruct (Z.eqb_spec (n_points (generator_config g)) 0) as [Hn0|Hn0].
  { intros [= <-]. unfold generate_surface. rewrite autocorrelation_grid_nonpos_eq by lia.
    by rewrite Hn0. }
  assert (Hpos : (0 < n_points (generator_config g))%Z) by lia.
  destruct (Req_dec_T (corlength_x (generator_config g)) 0) as [Hx|Hx].
  { intros [= <-]. apply generate_surface_acf_err; [done|].
    intros. apply generator_autocorrelation_corlength0. by left. }
  destruct (Req_dec_T (corlength_y (generator_config g)) 0) as [Hy|Hy].
  { intros [= <-]. apply generate_surface_acf_err; [done|].
    intros. apply generator_autocorrelation_corlength0. by right. }
  assert (Hacf : (forall b, g = BesselNonGaussian b -> beta_x b <> 0 /\ beta_y b <> 0) ->
                 forall tx ty, exists v, generator_autocorrelation g tx ty = Ok v).
  { intros Hb tx ty. by apply generator_autocorrelation_ok. }
  destruct g as [c|b]; cbn [generator_config generator_autocorrelation] in *.
  - destruct (Rlt_dec (rms c) 0) as [Hr|Hr]; [|done]. intros [= <-].
    apply generate_surface_rms_neg; [done| |done]. apply Hacf. by intros b' [=].
  - destruct (Req_dec_T (beta_x b) 0) as [Hb|Hb].
    { intros [= <-]. apply generate_surface_acf_err; [done|].
      intros. apply bessel_autocorrelation_beta0; auto. }
    destruct (Req_dec_T (beta_y b) 0) as [Hb'|Hb'].
    { intros [= <-]. apply generate_surface_acf_err; [done|].
      intros. apply bessel_autocorrelation_beta0; auto. }
    destruct (Rlt_dec (rms (base b)) 0) as [Hr|Hr]; [|done]. intros [= <-].
    apply generate_surface_rms_neg; [done| |done]. apply Hacf. by intros b' [= <-].
Qed.
(** C1 With valid parameters ([config_error g = None]),
    [generate_surface] returns an [n_points x n_points] surface whose
    multiset of values is exactly the Pearson III sample drawn after the
    white noise. *)
Theorem generate_surface_values g mean s :
  config_error g = None ->
  exists out z_ngn s2,
    generate_surface rand pearson3_draw (generator_config g) (generator_autocorrelation g) mean s
      = Ok (out, s2)
    /\ pearson3_rvs pearson3_draw (skewness (generator_config g)) mean (rms (generator_config g))
         (grid_size g) (rand (grid_size g) s).2 = Ok (z_ngn, s2)
    /\ has_shape (grid_size g) (grid_size g) out
    /\ concat out ≡ₚ concat (to_float z_ngn).
Proof. apply generate_surface_ok. Qed.

(** C29 A non-finite Gaussian field goes unnoticed: when the white noise
    is constant (standard deviation 0) every cell of the Gaussian field
    is [nan], yet [generate_surface] returns a surface with no [nan]. *)
Theorem generate_surface_nan_masked g mean s x :
  config_error g = None ->
  has_shape (grid_size g) (grid_size g) (rand (grid_size g) s).1 ->
  (forall y, y ∈ concat (rand (grid_size g) s).1 -> y = x) ->
  (forall AMPR, gaussian_field (rms (generator_config g)) (grid_size g) AMPR
                  (rand (grid_size g) s).1 = nan_mat (grid_size g))
  /\ exists out s2,
    generate_surface rand pearson3_draw (generator_config g) (generator_autocorrelation g) mean s
      = Ok (out, s2) /\ Forall is_Some (concat out).
Proof.
  intros Hg HX Hc. pose proof (config_error_None g Hg) as (Hn & _).
  split.
  - intros AMPR. unfold gaussian_field.
    by rewrite (normalize_noise_constant (grid_size g) x) by (done || unfold grid_size; lia).
  - destruct (generate_surface_ok g mean s Hg) as (out & z & s2 & E & _ & _ & Hp).
    exists out, s2. split; [done|]. rewrite Hp. unfold to_float. rewrite concat_fmap2.
    apply Forall_fmap, Forall_true. intros y. by eexists.
Qed.

(** The loop [for surface in g(k)] on a generator with valid
    parameters collects [max(k, 0)] surfaces of the right shape. *)
Lemma collect_valid g k (fuel : nat) (m : @machine surface_generator Seed) :
  config_error g = None -> cfg (obj m) = g -> (Z.to_nat k < fuel)%nat ->
  exists ss m', collect (surface_gen rand pearson3_draw) fuel (PInt k) m = Some (Ok ss, m')
    /\ length ss = Z.to_nat k /\ Forall (has_shape (grid_size g) (grid_size g)) ss.
Proof.
  intros Hg Hm Hk.
  assert (Htot : gen_total (surface_gen rand pearson3_draw) g).
  { intros o s0 Ho. destruct (generate_surface_ok g (IZR (g_mean o)) s0 Hg)
      as (out & _ & s2 & E & _). exists out, s2. unfold surface_gen. by rewrite Ho. }
  unfold collect.
  destruct (drain_created (surface_gen rand pearson3_draw) fuel (length (frames m))
    (fst (m_iter (m_call (PInt k) m))) k) as (ss & m' & E & L & _);
    [cbn; by rewrite Hm|exact (m_iter_lookup (m_call (PInt k) m))|done|done|].
  exists ss, m'. split_and!; [exact E|done|].
  eapply drain_Forall; [|exact E]. intros s0 surf s' Hs.
  destruct (generate_surface_ok g (IZR (g_mean (obj m))) s0 Hg) as (out & _ & s2 & E' & _ & Hsh & _).
  unfold surface_gen in Hs. cbn in Hs. rewrite Hm, E' in Hs. by injection Hs as <- _.
Qed.

(** C9 [load_dataset_from_generator(limit=k)] with valid parameters
    collects exactly [max(k, 0)] surfaces, each [n_points x n_points]. *)
Theorem load_dataset_from_generator_valid g k (fuel : nat) (s : Seed) :
  config_error g = None -> (Z.to_nat k < fuel)%nat ->
  exists ss m,
    load_dataset_from_generator (surface_gen rand pearson3_draw) fuel (PInt k) g s
      = Some (Ok ss, m)
    /\ length ss = Z.to_nat k /\ Forall (has_shape (grid_size g) (grid_size g)) ss.
Proof. intros Hg Hk. by apply collect_valid. Qed.
End PipelineProofs.

(** ** Witnesses with deterministic samplers *)

(** A noise that is [0.5] everywhere, and a Pearson sampler that returns
    [loc] everywhere. *)
Definition rand_half (n s : nat) : list (list R) * nat := (replicate n (replicate n (1 / 2)), S s).

Definition pearson3_loc (skew loc scale : R) (n s : nat) : list (list R) * nat :=
  (replicate n (replicate n loc), S s).

Lemma pearson3_loc_shape skew loc scale n s : has_shape n n (pearson3_loc skew loc scale n s).1.
Proof. apply has_shape_replicate. Qed.

Lemma concat_replicate_elem {X} n m (x y : X) :
  y ∈ concat (replicate n (replicate m x)) -> y = x.
Proof.
  intros Hy. assert (Hf : Forall (fun z => z = x) (concat (replicate n (replicate m x)))).
  { apply Forall_concat, Forall_replicate, Forall_replicate. done. }
  by eapply Forall_forall in Hf.
Qed.

Ltac decide_reals :=
  repeat first [ destruct (Req_dec_T _ _) as [?|?]; [lra|]
               | destruct (Rlt_dec _ _) as [?|?]; [lra|] ].

Lemma default_config_valid : config_error (NonGaussian default_config) = None.
Proof. unfold config_error. simpl. decide_reals. reflexivity. Qed.

Lemma zero_corlength_config_error :
  config_error (NonGaussian zero_corlength_config) = Some ZeroDivisionError.
Proof.
  unfold config_error. simpl. destruct (Req_dec_T 0 0) as [_|]; [reflexivity|lra].
Qed.

Lemma generate_surface_values_witness :
  exists out z_ngn s2,
    generate_surface rand_half pearson3_loc default_config (autocorrelation default_config) 0 0%nat
      = Ok (out, s2)
    /\ pearson3_rvs pearson3_loc (skewness default_config) 0 (rms default_config)
         (grid_size (NonGaussian default_config))
         (rand_half (grid_size (NonGaussian default_config)) 0%nat).2 = Ok (z_ngn, s2)
    /\ has_shape (grid_size (NonGaussian default_config)) (grid_size (NonGaussian default_config)) out
    /\ concat out ≡ₚ concat (to_float z_ngn).
Proof.
  apply (generate_surface_values rand_half pearson3_loc pearson3_loc_shape
           (NonGaussian default_config)).
  apply default_config_valid.
Defined.

Lemma generate_surface_error_witness :
  generate_surface rand_half pearson3_loc zero_corlength_config
    (autocorrelation zero_corlength_config) 0 0%nat = Err ZeroDivisionError.
Proof.
  apply (generate_surface_error rand_half pearson3_loc (NonGaussian zero_corlength_config)).
  apply zero_corlength_config_error.
Defined.

Lemma gaussian_field_noise_normalisation_witness :
  gaussian_field 1 2 [[1; 0]; [0; 0]] [[0; 1]; [2; 3]]
  = match normalize_field 1 (filter_noise 2 [[1; 0]; [0; 0]] [[0; 1]; [2; 3]]) with
    | Some z => to_float z
    | None => nan_mat 2
    end.
Proof.
  apply gaussian_field_noise_normalisation; [split; [reflexivity|repeat constructor]|lia|].
  exists 0, 1. split_and!; [apply list_elem_of_In; simpl; tauto..|lra].
Defined.

Lemma generate_surface_nan_masked_witness :
  (forall AMPR, gaussian_field (rms default_config) (grid_size (NonGaussian default_config)) AMPR
                  (rand_half (grid_size (NonGaussian default_config)) 0%nat).1
                = nan_mat (grid_size (NonGaussian default_config)))
  /\ exists out s2,
    generate_surface rand_half pearson3_loc default_config (autocorrelation default_config) 0 0%nat
      = Ok (out, s2) /\ Forall is_Some (concat out).
Proof.
  apply (generate_surface_nan_masked rand_half pearson3_loc pearson3_loc_shape
           (NonGaussian default_config) 0 0%nat (1 / 2)).
  - apply default_config_valid.
  - apply has_shape_replicate.
  - intros y. apply concat_replicate_elem.
Defined.

Lemma load_dataset_from_generator_valid_witness :
  exists ss m,
    load_dataset_from_generator (surface_gen rand_half pearson3_loc) 4%nat (PInt 3)
      (NonGaussian default_config) 0%nat = Some (Ok ss, m)
    /\ length ss = Z.to_nat 3
    /\ Forall (has_shape (grid_size (NonGaussian default_config))
                 (grid_size (NonGaussian default_config))) ss.
Proof.
  apply (load_dataset_from_generator_valid rand_half pearson3_loc pearson3_loc_shape).
  - apply default_config_valid.
  - simpl. lia.
Defined.
