(* ===== verification/Click.v ===== *)
(** * Click: the parts of click's command-line parser the [dataset] group uses

    The option records of click ([click_option]: flags, destination,
    [required], [type=] and default), the parser's flag table where a
    later option that declares the same flag replaces the earlier one
    ([flag_table]), the token loop [parse_args] (long options with
    [--opt value] or [--opt=value], short options with [-o value] or
    [-ovalue], [--], and a group's stop at its first positional
    argument), the processing of the parameters in invocation order
    with their defaults and type conversions ([process_params];
    [click.INT] is Python's [int()] on a string, [py_int]) and
    [Command.parse_args] ([parse_command]).  [--help] is click's eager
    help option.  The loop takes fuel, one round per token plus one,
    which [parse_args_terminates] shows is enough.

    Not modelled: non-ASCII digits and white space in [int()]; click's
    suggestions in error messages. *)

From S2P Require Import Prelude.
From Stdlib Require Import Strings.String Strings.Ascii.

Local Open Scope string_scope.
Local Open Scope list_scope.


(** The [type=] of an option. *)
Inductive click_type :=
| TInt                         (* click.INT *)
| TPath                        (* click.Path(exists=False, dir_okay=False) *)
| TChoice (choices : list string)  (* click.Choice(..., case_sensitive=False) *)
| TIntPair                     (* type=(int, int) *)
| TFlag.                       (* the boolean help flag *)

(** A converted parameter value. *)
Inductive cvalue :=
| VInt (z : Z)
| VStr (s : string)
| VPair (a b : Z)
| VBool (b : bool).

Record click_option := {
  opt_flags : list string;
  opt_dest : string;
  opt_required : bool;
  opt_type : click_type;
  opt_default : option cvalue
}.

Definition mk_opt flags dest req ty dflt : click_option :=
  {| opt_flags := flags; opt_dest := dest; opt_required := req; opt_type := ty;
     opt_default := dflt |}.


(** click's [--help], added to every command. *)
Definition help_option : click_option := mk_opt ["--help"] "help" false TFlag (Some (VBool false)).

(** [OptionParser.add_option] for every parameter in order: the
    dictionaries [_short_opt] and [_long_opt] map a flag to the last
    option that declares it.  The newest binding comes first. *)
Definition flag_table (opts : list click_option) : list (string * click_option) :=
  foldl (fun tbl o => ((fun f => (f, o)) <$> opt_flags o) ++ tbl) [] opts.

Fixpoint assoc {V} (k : string) (l : list (string * V)) : option V :=
  match l with
  | [] => None
  | (k', v) :: l' => if String.eqb k k' then Some v else assoc k l'
  end.

(** A short flag is a one-character prefix and one character. *)
Definition is_short_flag (f : string) : bool := (String.length f =? 2)%nat.

Definition lookup_long (tbl : list (string * click_option)) (f : string) :
    option click_option :=
  if is_short_flag f then None else assoc f tbl.

Definition lookup_short (tbl : list (string * click_option)) (f : string) :
    option click_option :=
  if is_short_flag f then assoc f tbl else None.

(** The number of values an option takes. *)
Definition nargs (o : click_option) : nat :=
  match opt_type o with
  | TFlag => 0
  | TIntPair => 2
  | _ => 1
  end.

(** ** Python's [int()] on a string (base 10) *)

Definition is_py_space (c : ascii) : bool :=
  existsb (Ascii.eqb c) [" "; "009"; "010"; "011"; "012"; "013"]%char.

Fixpoint lstrip (cs : list ascii) : list ascii :=
  match cs with
  | c :: cs' => if is_py_space c then lstrip cs' else cs
  | [] => []
  end.

Definition strip (cs : list ascii) : list ascii := reverse (lstrip (reverse (lstrip cs))).

Definition digit_of (c : ascii) : option Z :=
  let n := nat_of_ascii c in
  if (48 <=? n)%nat && (n <=? 57)%nat then Some (Z.of_nat n - 48)%Z else None.

(** Digits with single underscores between them. *)
Fixpoint parse_digits (acc : Z) (after_digit : bool) (cs : list ascii) : option Z :=
  match cs with
  | [] => if after_digit then Some acc else None
  | c :: cs' =>
      match digit_of c with
      | Some d => parse_digits (10 * acc + d)%Z true cs'
      | None => if Ascii.eqb c "_" && after_digit then parse_digits acc false cs' else None
      end
  end.

(** [int(s)]: surrounding white space, an optional sign, digits. *)
Definition py_int (s : string) : option Z :=
  match strip (list_ascii_of_string s) with
  | c :: cs =>
      if Ascii.eqb c "-" then Z.opp <$> parse_digits 0 false cs
      else if Ascii.eqb c "+" then parse_digits 0 false cs
      else parse_digits 0 false (c :: cs)
  | [] => None
  end.

(** ** click's option parser *)

(** click's exceptions: the usage errors (exit status 2) and the [Exit]
    raised by [--help] (exit status 0). *)
Inductive click_error :=
| NoSuchOption (opt : string)
| BadOptionUsage (opt : string)
| MissingParameter (dest : string)
| BadParameter (dest : string)
| UnexpectedExtraArgs (args : list string)
| MissingCommand
| NoSuchCommand (name : string)
| HelpExit.

Inductive cres (A : Type) : Type :=
| COk (a : A)
| CErr (e : click_error).
Arguments COk {A} a.
Arguments CErr {A} e.

Definition cbind {A B} (c : cres A) (k : A -> cres B) : cres B :=
  match c with
  | COk a => k a
  | CErr e => CErr e
  end.

Notation "x <-? c1 ;; c2" := (cbind c1 (fun x => c2))
  (at level 100, c1 at next level, right associativity) : py_scope.

(** [ParsingState]: the stored values ([opts], newest first), the
    order of the options seen, and the positional arguments. *)
Record pstate := {
  p_opts : list (string * list string);
  p_order : list string;
  p_largs : list string
}.

Definition pstate0 : pstate := {| p_opts := []; p_order := []; p_largs := [] |}.

(** [Option.process] with the [store] action. *)
Definition record (o : click_option) (vals : list string) (st : pstate) : pstate :=
  {| p_opts := (opt_dest o, vals) :: p_opts st; p_order := p_order st ++ [opt_dest o];
     p_largs := p_largs st |}.

Definition add_largs (st : pstate) (args : list string) : pstate :=
  {| p_opts := p_opts st; p_order := p_order st; p_largs := p_largs st ++ args |}.

(** [_get_value_from_state]: [nargs] values, whatever they look like. *)
Definition take_values (n : nat) (rargs : list string) : option (list string * list string) :=
  if (List.length rargs <? n)%nat then None else Some (take n rargs, drop n rargs).

Definition takes_value (o : click_option) : bool := negb (nargs o =? 0)%nat.

(** [_match_long_opt]. *)
Definition match_long (o : click_option) (opt : string) (explicit : option string)
    (rest : list string) (st : pstate) : cres (list string * pstate) :=
  if takes_value o then
    let rargs := match explicit with Some v => v :: rest | None => rest end in
    match take_values (nargs o) rargs with
    | Some (vals, rest') => COk (rest', record o vals st)
    | None => CErr (BadOptionUsage opt)
    end
  else
    match explicit with
    | Some _ => CErr (BadOptionUsage opt)
    | None => COk (rest, record o [] st)
    end.

(** [_match_short_opt]: the characters after the prefix, each a short
    option; one that takes a value takes the rest of the token (if any)
    as its first value and ends the token. *)
Fixpoint match_short (tbl : list (string * click_option)) (prefix : ascii) (cs : list ascii)
    (rest : list string) (st : pstate) : cres (list string * pstate) :=
  match cs with
  | [] => COk (rest, st)
  | ch :: cs' =>
      let opt := String prefix (String ch EmptyString) in
      match lookup_short tbl opt with
      | None => CErr (NoSuchOption opt)
      | Some o =>
          if takes_value o then
            let rargs := match cs' with [] => rest | _ => string_of_list_ascii cs' :: rest end in
            match take_values (nargs o) rargs with
            | Some (vals, rest') => COk (rest', record o vals st)
            | None => CErr (BadOptionUsage opt)
            end
          else match_short tbl prefix cs' rest (record o [] st)
      end
  end.

(** [arg.split("=", 1)]. *)
Definition split_eq (s : string) : option (string * string) :=
  match String.index 0 "=" s with
  | Some i => Some (substring 0 i s, substring (S i) (String.length s - S i) s)
  | None => None
  end.

(** [_process_opts]: a long option (with [=value] or not), else the
    token read as short options unless it starts with [--]. *)
Definition process_opts (tbl : list (string * click_option)) (arg : string)
    (rest : list string) (st : pstate) : cres (list string * pstate) :=
  let '(long_opt, explicit) :=
    match split_eq arg with Some (a, v) => (a, Some v) | None => (arg, None) end in
  match lookup_long tbl long_opt with
  | Some o => match_long o long_opt explicit rest st
  | None =>
      if String.prefix "--" arg then CErr (NoSuchOption long_opt)
      else match list_ascii_of_string arg with
           | p :: cs => match_short tbl p cs rest st
           | [] => CErr (NoSuchOption arg)
           end
  end.

(** [_process_args_for_options]: [--] ends the options; a token
    [-...] of length at least 2 is an option; a group
    ([interspersed = false]) stops at the first positional argument.
    Every round consumes a token, so [length rargs + 1] rounds are
    enough ([parse_args_terminates]). *)
Fixpoint parse_args (tbl : list (string * click_option)) (interspersed : bool) (fuel : nat)
    (rargs : list string) (st : pstate) : option (cres pstate) :=
  match fuel with
  | O => None
  | S fuel' =>
      match rargs with
      | [] => Some (COk st)
      | arg :: rest =>
          if String.eqb arg "--" then Some (COk (add_largs st rest))
          else if String.prefix "-" arg && (1 <? String.length arg)%nat then
            match process_opts tbl arg rest st with
            | COk (rest', st') => parse_args tbl interspersed fuel' rest' st'
            | CErr e => Some (CErr e)
            end
          else if interspersed then parse_args tbl interspersed fuel' rest (add_largs st [arg])
          else Some (COk (add_largs st rargs))
      end
  end.

(** ** Processing the parameters *)

(** ASCII [str.casefold]. *)
Definition casefold_char (c : ascii) : ascii :=
  let n := nat_of_ascii c in
  if (65 <=? n)%nat && (n <=? 90)%nat then ascii_of_nat (n + 32) else c.

Definition casefold (s : string) : string :=
  string_of_list_ascii (casefold_char <$> list_ascii_of_string s).

Definition first_occurrences (l : list string) : list string :=
  foldl (fun acc d => if existsb (String.eqb d) acc then acc else acc ++ [d]) [] l.

Definition is_eager (o : click_option) : bool :=
  match opt_type o with TFlag => true | _ => false end.

Fixpoint find_param (d : string) (params : list click_option) : option click_option :=
  match params with
  | [] => None
  | o :: ps => if String.eqb (opt_dest o) d then Some o else find_param d ps
  end.

(** [iter_params_for_processing]: eager parameters first, then the
    parameters in the order of their first occurrence on the command
    line, then the others in declaration order. *)
Definition processing_order (params : list click_option) (order : list string) :
    list click_option :=
  let seen := first_occurrences order in
  List.filter is_eager params
  ++ List.filter (fun o => negb (is_eager o)) (omap (fun d => find_param d params) seen)
  ++ List.filter (fun o => negb (is_eager o) && negb (existsb (String.eqb (opt_dest o)) seen))
       params.

(** [Parameter.type_cast_value] for the value found on the command
    line. *)
Section Convert.
(** [click.Path(exists=False, dir_okay=False)] accepts a path that does
    not exist, or an existing readable file: a property of the file
    system. *)
Context (path_accepted : string -> bool).

Definition convert (ty : click_type) (dest : string) (vals : list string) : cres cvalue :=
  match ty, vals with
  | TInt, [v] =>
      match py_int v with Some z => COk (VInt z) | None => CErr (BadParameter dest) end
  | TIntPair, [a; b] =>
      match py_int a, py_int b with
      | Some x, Some y => COk (VPair x y)
      | _, _ => CErr (BadParameter dest)
      end
  | TPath, [v] => if path_accepted v then COk (VStr v) else CErr (BadParameter dest)
  | TChoice cs, [v] =>
      match find (fun c => String.eqb (casefold c) (casefold v)) cs with
      | Some c => COk (VStr c)
      | None => CErr (BadParameter dest)
      end
  | TFlag, [] => COk (VBool true)
  | _, _ => CErr (BadParameter dest)
  end.

(** [Parameter.handle_parse_result]: the last value given on the command
    line, else the default; a required parameter without either raises
    [MissingParameter]; an eager help flag that is set exits. *)
Definition param_value (o : click_option) (opts : list (string * list string)) :
    cres (option cvalue) :=
  match assoc (opt_dest o) opts with
  | Some vals =>
      v <-? convert (opt_type o) (opt_dest o) vals ;;
      if is_eager o then CErr HelpExit else COk (Some v)
  | None =>
      match opt_default o with
      | Some d => COk (Some d)
      | None => if opt_required o then CErr (MissingParameter (opt_dest o)) else COk None
      end
  end.

Fixpoint process_params (ps : list click_option) (opts : list (string * list string)) :
    cres (list (string * cvalue)) :=
  match ps with
  | [] => COk []
  | o :: ps' =>
      v <-? param_value o opts ;;
      rest <-? process_params ps' opts ;;
      COk (match v with Some x => (opt_dest o, x) :: rest | None => rest end)
  end.

(** [Command.parse_args] up to the extra-argument check: the parser,
    then the parameters. *)
Definition parse_command (params : list click_option) (interspersed : bool)
    (args : list string) : cres (list (string * cvalue) * list string) :=
  match parse_args (flag_table params) interspersed (S (List.length args)) args pstate0 with
  | Some (COk st) =>
      d <-? process_params (processing_order params (p_order st)) (p_opts st) ;;
      COk (d, p_largs st)
  | Some (CErr e) => CErr e
  | None => CErr (BadOptionUsage "")
  end.
End Convert.

(** ** The parser consumes a token per round *)

Lemma take_values_length n rargs vals rest :
  take_values n rargs = Some (vals, rest) -> List.length rest = List.length rargs - n.
Proof.
  unfold take_values. destruct (Nat.ltb_spec (List.length rargs) n); [done|].
  intros [= <- <-]. apply length_drop.
Qed.

Lemma takes_value_nargs o : takes_value o = true -> 1 <= nargs o.
Proof. unfold takes_value. destruct (nargs o); simpl; [done|lia]. Qed.

Lemma match_long_length o opt explicit rest st rest' st' :
  match_long o opt explicit rest st = COk (rest', st') -> List.length rest' <= List.length rest.
Proof.
  unfold match_long. destruct (takes_value o) eqn:Ht.
  - pose proof (takes_value_nargs o Ht).
    destruct (take_values _ _) as [[vals r]|] eqn:E; [|done]. intros [= <- _].
    apply take_values_length in E. destruct explicit; simpl in E; lia.
  - destruct explicit; [done|]. by intros [= <- _].
Qed.

Lemma match_short_length tbl p cs rest st rest' st' :
  match_short tbl p cs rest st = COk (rest', st') -> List.length rest' <= List.length rest.
Proof.
  revert st. induction cs as [|ch cs IH]; intros st; simpl; [by intros [= <- _]|].
  destruct (lookup_short _ _) as [o|]; [|done].
  destruct (takes_value o) eqn:Ht; [|apply IH].
  pose proof (takes_value_nargs o Ht).
  destruct (take_values _ _) as [[vals r]|] eqn:E; [|done]. intros [= <- _].
  apply take_values_length in E. destruct cs; simpl in E; lia.
Qed.

Lemma process_opts_length tbl arg rest st rest' st' :
  process_opts tbl arg rest st = COk (rest', st') -> List.length rest' <= List.length rest.
Proof.
  unfold process_opts. destruct (split_eq arg) as [[a v]|];
    (destruct (lookup_long _ _) as [o|]; [apply match_long_length|]);
    (destruct (String.prefix "--" arg); [done|]);
    (destruct (list_ascii_of_string arg); [done|apply match_short_length]).
Qed.

(** The token loop of click's parser terminates: with one round of
    fuel per token (and one more) it always returns a result, so the
    fuel [parse_command] gives is enough and its fallback branch is
    never taken. *)
Lemma parse_args_terminates tbl interspersed fuel rargs st :
  (List.length rargs < fuel)%nat -> exists r, parse_args tbl interspersed fuel rargs st = Some r.
Proof.
  revert rargs st. induction fuel as [|fuel IH]; intros rargs st Hf; [lia|].
  destruct rargs as [|arg rest]; cbn [parse_args]; [by eexists|].
  destruct (String.eqb arg "--"); [by eexists|].
  destruct (String.prefix "-" arg && _)%bool.
  - destruct (process_opts tbl arg rest st) as [[rest' st']|e] eqn:E; [|by eexists].
    apply IH. apply process_opts_length in E. simpl in Hf. lia.
  - destruct interspersed; [apply IH; simpl in Hf; lia|by eexists].
Qed.
