(* ===== verification/Cli.v ===== *)
(** * Cli: the [dataset] command line

    [src/src/roughml/cli/dataset.py]: a click group [dataset] with nine
    options (lines 52-144) and two sub-commands, [standard] (lines
    178-184) and [besel] (lines 187-202, one more option [--betas]),
    which build a generator from the parsed options
    ([get_standard_generator], [get_besel_generator], lines 16-39) and
    run [generate] (lines 42-49) on it.

    The option tables are data for the parser of [Click]; [cli_main] is
    the group's dispatch to a sub-command.  [cli_run] adds the group
    callback's logging set-up (lines 170-175) in click's order: the
    command is resolved, the callback runs ([ctx.obj], then
    [logging.basicConfig], a no-op once the root logger has a handler),
    then the sub-command parses its own arguments.  [cli_generate_save]
    ends [generate] with [dataset.to_pt], a write to the list of saved
    datasets.

    Not modelled: the import of [roughml.data.generators], which does
    not exist in the sources (the model reads it as [roughgan]); the
    text the rich handler writes; the file format of [to_pt]. *)

From S2P Require Import Prelude RankSwap Autocorrelation Generator Loaders Pipeline Click.
From Stdlib Require Import Strings.String Strings.Ascii Reals.

Local Open Scope string_scope.
Local Open Scope list_scope.

Definition log_levels : list string :=
  ["CRITICAL"; "FATAL"; "ERROR"; "WARNING"; "WARN"; "INFO"; "DEBUG"; "NOTSET"].

(** Lines 52-144, in the order they are written (click reverses the
    decorators, so this is the order of [get_params]); [--help] last. *)
Definition dataset_options : list click_option := [
  mk_opt ["-s"; "--surfaces"] "surfaces" false TInt (Some (VInt 10));
  mk_opt ["-d"; "--dataset"] "dataset_path" true TPath None;
  mk_opt ["-l"; "--log"] "logging_level" false (TChoice log_levels) (Some (VStr "NOTSET"));
  mk_opt ["-n"; "--number-of-points"] "number_of_points" false TInt (Some (VInt 128));
  mk_opt ["-r"; "--rms"] "rms" false TInt (Some (VInt 1));
  mk_opt ["-s"; "--skewness"] "skewness" false TInt (Some (VInt 0));
  mk_opt ["-k"; "--kurtosis"] "kurtosis" false TInt (Some (VInt 0));
  mk_opt ["-c"; "--correlation-lengths"] "correlation_lengths" false TIntPair
    (Some (VPair 4 4));
  mk_opt ["-a"; "--alpha"] "alpha" false TInt (Some (VInt 1));
  help_option ].

(** Lines 188-196: the option of [besel]. *)
Definition besel_options : list click_option := [
  mk_opt ["-b"; "--betas"] "betas" false TIntPair (Some (VPair 1 1));
  help_option ].

Definition standard_options : list click_option := [help_option].

(** ** The group [dataset] and its two commands *)

(** [ctx.obj] (lines 159-168). *)
Record cli_config := {
  c_surfaces : Z;
  c_dataset_path : string;
  c_number_of_points : Z;
  c_rms : Z;
  c_skewness : Z;
  c_kurtosis : Z;
  c_correlation_lengths : Z * Z;
  c_alpha : Z
}.

(** A processed parameter; every parameter read below has a default or
    is required, so the fallbacks are never taken. *)
Definition get_int (d : list (string * cvalue)) (k : string) : Z :=
  match assoc k d with Some (VInt z) => z | _ => 0%Z end.
Definition get_str (d : list (string * cvalue)) (k : string) : string :=
  match assoc k d with Some (VStr s) => s | _ => "" end.
Definition get_pair (d : list (string * cvalue)) (k : string) : Z * Z :=
  match assoc k d with Some (VPair a b) => (a, b) | _ => (0%Z, 0%Z) end.

(** The callback [dataset] (lines 146-168): the dictionary [ctx.obj]. *)
Definition ctx_obj (d : list (string * cvalue)) : cli_config := {|
  c_surfaces := get_int d "surfaces";
  c_dataset_path := get_str d "dataset_path";
  c_number_of_points := get_int d "number_of_points";
  c_rms := get_int d "rms";
  c_skewness := get_int d "skewness";
  c_kurtosis := get_int d "kurtosis";
  c_correlation_lengths := get_pair d "correlation_lengths";
  c_alpha := get_int d "alpha" |}.

Inductive cli_command :=
| CmdStandard (obj : cli_config)
| CmdBesel (obj : cli_config) (betas : Z * Z).

Definition cmd_obj (c : cli_command) : cli_config :=
  match c with CmdStandard o => o | CmdBesel o _ => o end.

(** The sub-command [name] on its arguments: its options and the check
    for extra arguments ([NoSuchCommand] for another name). *)
Definition run_subcommand (path_accepted : string -> bool) (d : list (string * cvalue))
    (name : string) (args : list string) : cres cli_command :=
  if String.eqb name "standard" then
    r' <-? parse_command path_accepted standard_options true args ;;
    match r'.2 with
    | [] => COk (CmdStandard (ctx_obj d))
    | extra => CErr (UnexpectedExtraArgs extra)
    end
  else if String.eqb name "besel" then
    r' <-? parse_command path_accepted besel_options true args ;;
    match r'.2 with
    | [] => COk (CmdBesel (ctx_obj d) (get_pair r'.1 "betas"))
    | extra => CErr (UnexpectedExtraArgs extra)
    end
  else CErr (NoSuchCommand name).

(** [dataset(...)] on [argv]: help for an empty command line, the
    group's options (parsing stops at the command name), then the
    command ([MissingCommand], [NoSuchCommand]), its options and the
    check for extra arguments. *)
Definition cli_main (path_accepted : string -> bool) (argv : list string) : cres cli_command :=
  match argv with
  | [] => CErr HelpExit
  | _ =>
      r <-? parse_command path_accepted dataset_options false argv ;;
      let '(d, rest) := r in
      match rest with
      | [] => CErr MissingCommand
      | name :: args => run_subcommand path_accepted d name args
      end
  end.

(** ** The logging set-up of the group callback (lines 170-175) *)

(** [logging._nameToLevel]. *)
Definition level_names : list (string * Z) :=
  [("CRITICAL", 50); ("FATAL", 50); ("ERROR", 40); ("WARN", 30); ("WARNING", 30);
   ("INFO", 20); ("DEBUG", 10); ("NOTSET", 0)]%Z.

(** [logging._checkLevel] on a string: [ValueError] for an unknown name. *)
Definition check_level (name : string) : res Z :=
  match assoc name level_names with
  | Some l => Ok l
  | None => Err ValueError
  end.

(** A handler of the root logger: its class and its formatter. *)
Record handler := { h_class : string; h_format : string; h_datefmt : string }.

(** The state of the [logging] module: the root logger's level and
    handlers. *)
Record logging_state := { root_level : Z; root_handlers : list handler }.

(** At start-up the root logger is at [WARNING] without handlers. *)
Definition logging_init : logging_state := {| root_level := 30; root_handlers := [] |}.

(** [logging.basicConfig(level=..., format=..., datefmt=..., handlers=...)]:
    nothing happens once the root logger has a handler; otherwise the
    handlers are added with the formatter, then the level is set, which
    raises [ValueError] for an unknown name (the handlers stay). *)
Definition basicConfig (level fmt datefmt : string) (hs : list string) (st : logging_state) :
    logging_state * option pyexc :=
  match root_handlers st with
  | _ :: _ => (st, None)
  | [] =>
      let st1 := {| root_level := root_level st;
                    root_handlers := (fun c => {| h_class := c; h_format := fmt;
                                                  h_datefmt := datefmt |}) <$> hs |} in
      match check_level level with
      | Ok l => ({| root_level := l; root_handlers := root_handlers st1 |}, None)
      | Err e => (st1, Some e)
      end
  end.

(** Lines 170-175. *)
Definition dataset_logging (level : string) (st : logging_state) : logging_state * option pyexc :=
  basicConfig level "%(message)s" "[%X]" ["RichHandler"] st.




(** How a run of the command line ends: the command to run, a click
    error, or a Python exception of the group callback. *)
Inductive outcome :=
| Done (c : cli_command)
| ClickFailed (e : click_error)
| Raised (e : pyexc).

(** [dataset(...)] with the logging state: click resolves the command,
    then runs the group callback ([ctx.obj] and [basicConfig]), then
    parses the sub-command's arguments. *)
Definition cli_run (path_accepted : string -> bool) (argv : list string) (st : logging_state) :
    outcome * logging_state :=
  match argv with
  | [] => (ClickFailed HelpExit, st)
  | _ =>
      match parse_command path_accepted dataset_options false argv with
      | CErr e => (ClickFailed e, st)
      | COk (d, []) => (ClickFailed MissingCommand, st)
      | COk (d, name :: args) =>
          if String.eqb name "standard" || String.eqb name "besel" then
            match dataset_logging (get_str d "logging_level") st with
            | (st', Some e) => (Raised e, st')
            | (st', None) =>
                match run_subcommand path_accepted d name args with
                | COk c => (Done c, st')
                | CErr e => (ClickFailed e, st')
                end
            end
          else (ClickFailed (NoSuchCommand name), st)
      end
  end.

(** [get_standard_generator] (lines 16-25): the click values are ints. *)
Definition get_standard_generator (o : cli_config) : surface_generator :=
  NonGaussian {| n_points := c_number_of_points o; rms := IZR (c_rms o);
                 skewness := IZR (c_skewness o); kurtosis := IZR (c_kurtosis o);
                 corlength_x := IZR (c_correlation_lengths o).1;
                 corlength_y := IZR (c_correlation_lengths o).2;
                 alpha := IZR (c_alpha o) |}.

(** [get_besel_generator] (lines 28-39). *)
Definition get_besel_generator (o : cli_config) (betas : Z * Z) : surface_generator :=
  match get_standard_generator o with
  | NonGaussian c => BesselNonGaussian {| base := c; beta_x := IZR betas.1; beta_y := IZR betas.2 |}
  | g => g
  end.

Definition command_generator (c : cli_command) : surface_generator :=
  match c with
  | CmdStandard o => get_standard_generator o
  | CmdBesel o betas => get_besel_generator o betas
  end.

(** [standard] and [besel] (lines 178-202) up to [dataset.to_pt]:
    [generate(generator, config["surfaces"], ...)] (lines 42-45). *)
Definition cli_generate {Seed} (rand : nat -> Seed -> list (list R) * Seed)
    (pearson3_draw : R -> R -> R -> nat -> Seed -> list (list R) * Seed) `{!ArgSort nan_le}
    (fuel : nat) (c : cli_command) (s : Seed) :=
  cli_collect (surface_gen rand pearson3_draw) fuel (PInt (c_surfaces (cmd_obj c)))
    (gen_init (command_generator c) s).

(** The saved datasets: a path and the dataset [to_pt] wrote there, the
    latest first. *)
Definition saved_files (Surface Transform : Type) : Type := list (string * @dataset Surface Transform).

(** [dataset.to_pt(save_path)] (line 49). *)
Definition to_pt {Surface Transform} (path : string) (ds : @dataset Surface Transform)
    (files : saved_files Surface Transform) : saved_files Surface Transform :=
  (path, ds) :: files.

(** [generate(generator, config["surfaces"], config["dataset_path"])]
    (lines 42-49): the loop, [NanoroughSurfaceDataset.from_list(surfaces)]
    with the container's default transforms, and [to_pt]. *)
Definition cli_generate_save {Seed Transform} (rand : nat -> Seed -> list (list R) * Seed)
    (pearson3_draw : R -> R -> R -> nat -> Seed -> list (list R) * Seed) `{!ArgSort nan_le}
    (default_transforms : list Transform) (fuel : nat) (c : cli_command) (s : Seed)
    (files : saved_files (list (list (option R))) Transform) :=
  match cli_generate rand pearson3_draw fuel c s with
  | None => None
  | Some (Err e, m) => Some (Err e, m)
  | Some (Ok surfaces, m) =>
      Some (Ok (to_pt (c_dataset_path (cmd_obj c)) (from_list surfaces default_transforms) files), m)
  end.


(** C30 The short flag [-s] is declared twice (lines 54 and 110); the
    later declaration wins, so [-s v] sets the skewness and leaves the
    number of surfaces at its default 10. *)
Theorem cli_short_s_sets_skewness (path_accepted : string -> bool) p v z :
  path_accepted p = true -> py_int v = Some z ->
  cli_main path_accepted ["-d"; p; "-s"; v; "standard"]
  = COk (CmdStandard {| c_surfaces := 10; c_dataset_path := p; c_number_of_points := 128;
                        c_rms := 1; c_skewness := z; c_kurtosis := 0;
                        c_correlation_lengths := (4%Z, 4%Z); c_alpha := 1 |}).
Proof.
  intros Hp Hv. unfold cli_main. cbn -[py_int]. rewrite Hp. cbn -[py_int]. rewrite Hv.
  reflexivity.
Qed.

(** [ctx.obj] when only [--dataset] is given: the defaults of lines
    60, 98, 107, 116, 125, 134 and 143. *)
Definition cli_defaults (p : string) : cli_config :=
  {| c_surfaces := 10; c_dataset_path := p; c_number_of_points := 128; c_rms := 1;
     c_skewness := 0; c_kurtosis := 0; c_correlation_lengths := (4%Z, 4%Z); c_alpha := 1 |}.

Lemma cli_main_defaults (path_accepted : string -> bool) p :
  path_accepted p = true ->
  cli_main path_accepted ["-d"; p; "standard"] = COk (CmdStandard (cli_defaults p)).
Proof. intros Hp. unfold cli_main. cbn -[py_int]. by rewrite Hp. Qed.

Lemma cli_defaults_valid p : config_error (get_standard_generator (cli_defaults p)) = None.
Proof. unfold config_error. simpl. decide_reals. reflexivity. Qed.

(** With only [--dataset] the command line succeeds and builds the
    generator of [NonGaussianSurfaceGenerator()] except for the
    kurtosis: the option's default is 0 (line 125), the class's is 3. *)
Theorem cli_standard_defaults (path_accepted : string -> bool) p :
  path_accepted p = true ->
  cli_main path_accepted ["-d"; p; "standard"] = COk (CmdStandard (cli_defaults p))
  /\ generator_config (get_standard_generator (cli_defaults p))
     = {| n_points := n_points default_config; rms := rms default_config;
          skewness := skewness default_config; kurtosis := 0%R;
          corlength_x := corlength_x default_config; corlength_y := corlength_y default_config;
          alpha := alpha default_config |}
  /\ kurtosis default_config = 3%R.
Proof. intros Hp. split; [by apply cli_main_defaults|done]. Qed.


(** ** The logging set-up *)

(** The click result as the outcome of a run. *)
Definition outcome_of (r : cres cli_command) : outcome :=
  match r with
  | COk c => Done c
  | CErr e => ClickFailed e
  end.

Lemma basicConfig_configured level fmt datefmt hs st :
  root_handlers st <> [] -> basicConfig level fmt datefmt hs st = (st, None).
Proof. unfold basicConfig. by destruct (root_handlers st). Qed.

(** The handler lines 170-175 install. *)
Definition rich_handler : handler :=
  {| h_class := "RichHandler"; h_format := "%(message)s"; h_datefmt := "[%X]" |}.

(** C23 Logging is configured once per process: when the root logger
    already has a handler (a second invocation of [dataset] in the same
    interpreter, or a caller that configured logging), [basicConfig]
    does nothing, [--log] is ignored, and the run is exactly the click
    parse of [cli_main]. *)
Theorem cli_run_configured_logging (path_accepted : string -> bool) argv st :
  root_handlers st <> [] ->
  cli_run path_accepted argv st = (outcome_of (cli_main path_accepted argv), st).
Proof.
  intros Hh. unfold cli_run, cli_main, dataset_logging. destruct argv as [|a argv']; [done|].
  destruct (parse_command _ _ _ _) as [[d [|name args]]|e]; [done| |done]. cbn [cbind].
  rewrite basicConfig_configured by done.
  destruct (String.eqb_spec name "standard"); [by destruct (run_subcommand _ _ _ _)|].
  destruct (String.eqb_spec name "besel"); [by destruct (run_subcommand _ _ _ _)|].
  unfold run_subcommand. by destruct (String.eqb_spec name "standard"), (String.eqb_spec name "besel").
Qed.

(** C22 The group callback runs before the sub-command parses its own
    arguments: for every command line whose group options parse and
    name [standard] or [besel], in an interpreter without logging
    handlers and with a valid [--log] level, the run ends as the
    sub-command's parse ends (a command, or a click error such as a
    bad [--betas]), and in every case the root logger has already been
    given the rich handler and the requested level. *)
Theorem cli_run_logging_before_subcommand (path_accepted : string -> bool) argv d name args st lvl :
  parse_command path_accepted dataset_options false argv = COk (d, name :: args) ->
  name = "standard" \/ name = "besel" ->
  root_handlers st = [] ->
  check_level (get_str d "logging_level") = Ok lvl ->
  cli_run path_accepted argv st
  = (outcome_of (run_subcommand path_accepted d name args),
     {| root_level := lvl; root_handlers := [rich_handler] |}).
Proof.
  intros Hp Hn Hh Hl. destruct argv as [|a argv']; [by vm_compute in Hp|].
  unfold cli_run. rewrite Hp.
  replace (String.eqb name "standard" || String.eqb name "besel") with true
    by (by destruct Hn as [->| ->]).
  unfold dataset_logging, basicConfig. rewrite Hh, Hl. cbn.
  by destruct (run_subcommand _ _ _ _).
Qed.


Section CliRun.
Context {Seed : Type}.
Context (rand : nat -> Seed -> list (list R) * Seed).
Context (pearson3_draw : R -> R -> R -> nat -> Seed -> list (list R) * Seed).
Context `{!ArgSort nan_le}.
Hypothesis pearson3_shape :
  forall skew loc scale n s, has_shape n n (pearson3_draw skew loc scale n s).1.

(** C31 [dataset -d PATH standard] generates exactly 10 surfaces of
    128 x 128 points and saves them as one dataset at [PATH]. *)
Theorem cli_default_generates {Transform} (path_accepted : string -> bool) p (fuel : nat) (s : Seed)
    (tr : list Transform) files :
  path_accepted p = true -> (10 < fuel)%nat ->
  exists c ss m, cli_main path_accepted ["-d"; p; "standard"] = COk c
    /\ cli_generate rand pearson3_draw fuel c s = Some (Ok ss, m)
    /\ List.length ss = 10%nat /\ Forall (has_shape 128 128) ss
    /\ cli_generate_save rand pearson3_draw tr fuel c s files
       = Some (Ok ((p, from_list ss tr) :: files), m).
Proof.
  intros Hp Hf. rewrite cli_main_defaults by done. exists (CmdStandard (cli_defaults p)).
  unfold cli_generate_save, cli_generate. cbn [cmd_obj c_surfaces cli_defaults command_generator].
  rewrite cli_collect_collect by lia.
  destruct (collect_valid rand pearson3_draw pearson3_shape
    (get_standard_generator (cli_defaults p)) 10 fuel
    (gen_init (get_standard_generator (cli_defaults p)) s)) as (ss & m & E & L & F);
    [apply cli_defaults_valid|done|simpl; lia|].
  exists ss, m. rewrite E. split_and!; [done|done|exact L|exact F|done].
Qed.
End CliRun.

(** ** Examples and witnesses *)

Definition any_path : string -> bool := fun _ => true.

(** Group options are processed before the command is looked at, so
    [standard --help] first reports the missing [--dataset]. *)
Example cli_help_after_group_options :
  cli_main any_path ["standard"; "--help"] = CErr (MissingParameter "dataset_path").
Proof. vm_compute. reflexivity. Qed.

(** Parameters given on the command line are processed first, in the
    order they appear: a bad [-n] is reported before the missing
    [--dataset]. *)
Example cli_invocation_order :
  cli_main any_path ["-n"; "abc"; "standard"] = CErr (BadParameter "number_of_points").
Proof. vm_compute. reflexivity. Qed.

Example cli_besel_betas :
  cli_main any_path ["-d"; "x"; "--surfaces=3"; "besel"; "-b"; "2"; "3"]
  = COk (CmdBesel {| c_surfaces := 3; c_dataset_path := "x"; c_number_of_points := 128;
                     c_rms := 1; c_skewness := 0; c_kurtosis := 0;
                     c_correlation_lengths := (4%Z, 4%Z); c_alpha := 1 |} (2%Z, 3%Z)).
Proof. vm_compute. reflexivity. Qed.

Example parse_args_dataset_fuel :
  exists r, parse_args (flag_table dataset_options) false 3 ["-d"; "x"] pstate0 = Some r.
Proof. apply parse_args_terminates. simpl. lia. Qed.

Lemma cli_short_s_sets_skewness_witness :
  cli_main any_path ["-d"; "out.pt"; "-s"; "5"; "standard"]
  = COk (CmdStandard {| c_surfaces := 10; c_dataset_path := "out.pt"; c_number_of_points := 128;
                        c_rms := 1; c_skewness := 5; c_kurtosis := 0;
                        c_correlation_lengths := (4%Z, 4%Z); c_alpha := 1 |}).
Proof. apply cli_short_s_sets_skewness; reflexivity. Defined.

Lemma cli_standard_defaults_witness :
  cli_main any_path ["-d"; "out.pt"; "standard"] = COk (CmdStandard (cli_defaults "out.pt"))
  /\ generator_config (get_standard_generator (cli_defaults "out.pt"))
     = {| n_points := n_points default_config; rms := rms default_config;
          skewness := skewness default_config; kurtosis := 0%R;
          corlength_x := corlength_x default_config; corlength_y := corlength_y default_config;
          alpha := alpha default_config |}
  /\ kurtosis default_config = 3%R.
Proof. apply cli_standard_defaults. reflexivity. Defined.


Lemma cli_default_generates_witness :
  exists c ss m, cli_main any_path ["-d"; "out.pt"; "standard"] = COk c
    /\ cli_generate rand_half pearson3_loc 11 c 0%nat = Some (Ok ss, m)
    /\ List.length ss = 10%nat /\ Forall (has_shape 128 128) ss
    /\ cli_generate_save rand_half pearson3_loc (@nil unit) 11 c 0%nat []
       = Some (Ok [("out.pt", from_list ss [])], m).
Proof.
  apply (cli_default_generates rand_half pearson3_loc pearson3_loc_shape); [reflexivity|lia].
Defined.

Lemma cli_run_configured_logging_witness :
  cli_run any_path ["-d"; "out.pt"; "-l"; "info"; "standard"]
    {| root_level := 30; root_handlers := [rich_handler] |}
  = (outcome_of (cli_main any_path ["-d"; "out.pt"; "-l"; "info"; "standard"]),
     {| root_level := 30; root_handlers := [rich_handler] |}).
Proof. apply cli_run_configured_logging. simpl. discriminate. Defined.


Lemma cli_run_logging_before_subcommand_witness :
  exists d,
    parse_command any_path dataset_options false ["-d"; "out.pt"; "-l"; "debug"; "besel"; "-b"; "x"; "1"]
    = COk (d, ["besel"; "-b"; "x"; "1"])
  /\ run_subcommand any_path d "besel" ["-b"; "x"; "1"] = CErr (BadParameter "betas")
  /\ cli_run any_path ["-d"; "out.pt"; "-l"; "debug"; "besel"; "-b"; "x"; "1"] logging_init
     = (outcome_of (run_subcommand any_path d "besel" ["-b"; "x"; "1"]),
        {| root_level := 10; root_handlers := [rich_handler] |}).
Proof.
  eexists. split; [reflexivity|]. split; [vm_compute; reflexivity|].
  apply cli_run_logging_before_subcommand; [reflexivity|right; reflexivity|reflexivity|reflexivity].
Defined.
