(* ===== verification/Display.v ===== *)
(** * Display: what the program prints, and the [__main__] demos

    - Python's [str] on an [int] ([py_str_Z], the decimal digits of
      the Standard Library's [Decimal] numbers), on a tuple of ints
      ([py_tuple_repr]) and on a dictionary of two entries;
    - [SurfaceGenerator.__str__] and [__repr__]
      ([src/src/roughgan/data/generators.py], lines 23-27) over the
      attribute values as Python numbers: an [int] is printed by
      [py_str_Z], a [float] by Python's shortest [repr], a parameter;
    - [KBinsDiscretizerQuantizer.__str__]
      ([src/src/roughgan/content/quantization.py], lines 36-37) with
      sklearn's [repr] of the estimator, which lists the parameters that
      differ from their defaults, in alphabetical order;
    - the two [__main__] demos: generators.py lines 172-181 (one surface
      of each generator class shown by [as_grayscale_image], a parameter
      recording what is shown) and quantization.py lines 40-51, where
      the module never imports [torch].

    The round trip [py_int (py_str_Z z) = Some z] ties the printer to
    click's [int()] of [Click]. *)

From S2P Require Import Prelude RankSwap Autocorrelation Generator Loaders Quantizer Pipeline Click.
From Stdlib Require Import Strings.String Strings.Ascii Reals Decimal DecimalString DecimalNat.

Local Open Scope string_scope.
Local Open Scope list_scope.

(** ** Python's [str] *)

(** [str(n)] for a natural number. *)
Definition py_str_nat (n : nat) : string := NilEmpty.string_of_uint (Nat.to_uint n).

(** [str(z)] for an [int]. *)
Definition py_str_Z (z : Z) : string :=
  if (z <? 0)%Z then String "-" (py_str_nat (Z.to_nat (- z))) else py_str_nat (Z.to_nat z).

(** [", ".join(xs)]. *)
Fixpoint py_join (sep : string) (xs : list string) : string :=
  match xs with
  | [] => ""
  | [x] => x
  | x :: xs' => x ++ sep ++ py_join sep xs'
  end.

(** [repr] of a tuple whose items print as [xs]: a single item keeps
    its comma. *)
Definition py_tuple_repr (xs : list string) : string :=
  match xs with
  | [x] => "(" ++ x ++ ",)"
  | _ => "(" ++ py_join ", " xs ++ ")"
  end.

(** A Python number: an [int] or a [float]. *)
Inductive pynum :=
| PyInt (z : Z)
| PyFloat (r : R).

Section Str.
(** [repr(x)] of a float: the shortest string that reads back as [x]. *)
Context (float_repr : R -> string).

(** [f"{x}"] on a number. *)
Definition pynum_str (x : pynum) : string :=
  match x with
  | PyInt z => py_str_Z z
  | PyFloat r => float_repr r
  end.

(** The attributes [__str__] reads, in its order. *)
Record gen_params := {
  gp_n_points : pynum;
  gp_rms : pynum;
  gp_skewness : pynum;
  gp_kurtosis : pynum;
  gp_corlength_x : pynum;
  gp_corlength_y : pynum;
  gp_alpha : pynum
}.

(** The class of a generator object; a Bessel generator also has its
    periods. *)
Inductive gen_class :=
| NonGaussianClass
| BesselClass (beta_x beta_y : pynum).

(** [self.__class__.__name__]. *)
Definition class_name (c : gen_class) : string :=
  match c with
  | NonGaussianClass => "NonGaussianSurfaceGenerator"
  | BesselClass _ _ => "BesselNonGaussianSurfaceGenerator"
  end.

Definition gen_param_list (p : gen_params) : list pynum :=
  [gp_n_points p; gp_rms p; gp_skewness p; gp_kurtosis p; gp_corlength_x p;
   gp_corlength_y p; gp_alpha p].

(** [SurfaceGenerator.__str__] (lines 23-24). *)
Definition generator_str (c : gen_class) (p : gen_params) : string :=
  class_name c ++ "(" ++ py_join ", " (pynum_str <$> gen_param_list p) ++ ")".

(** [SurfaceGenerator.__repr__] (lines 26-27): [f"<{self}>"]. *)
Definition generator_repr (c : gen_class) (p : gen_params) : string :=
  "<" ++ generator_str c p ++ ">".
End Str.

(** ** [int(str(z)) == z] *)

Lemma parse_digits_uint (u : uint) : forall acc b, u <> Nil ->
  parse_digits (Z.of_nat acc) b (list_ascii_of_string (NilEmpty.string_of_uint u))
  = Some (Z.of_nat (Nat.of_uint_acc u acc)).
Proof.
  induction u; intros acc b Hu; [done|..]; simpl;
  (remember (Z.of_nat (nat_of_ascii _) - 48)%Z as k eqn:Ek; vm_compute in Ek; subst k);
  (match goal with |- _ = Some (Z.of_nat (Nat.of_uint_acc u ?X)) =>
     replace (10 * Z.of_nat acc + _)%Z with (Z.of_nat X) by (rewrite Nat.tail_mul_spec; lia) end);
  (destruct u; [reflexivity|(apply IHu; discriminate)..]).
Qed.

Lemma to_uint_nonnil n : Nat.to_uint n <> Nil.
Proof.
  intros E. pose proof (DecimalNat.Unsigned.of_to n) as Hn. rewrite E in Hn.
  simpl in Hn. subst n. discriminate.
Qed.

(** A digit of [str(n)]: neither white space, a sign, a comma nor a
    bracket. *)
Definition digit_char (c : ascii) : Prop := (48 <= nat_of_ascii c <= 57)%nat.

Lemma uint_digits (u : uint) : Forall digit_char (list_ascii_of_string (NilEmpty.string_of_uint u)).
Proof. induction u; simpl; repeat constructor; auto; unfold digit_char; simpl; lia. Qed.

Lemma digit_char_not_space c : digit_char c -> is_py_space c = false.
Proof.
  unfold digit_char, is_py_space. intros Hc. apply not_true_is_false. intros H.
  apply existsb_exists in H as (d & Hd & ->%Ascii.eqb_eq).
  simpl in Hd. repeat destruct Hd as [<-|Hd]; try done; vm_compute in Hc; lia.
Qed.

Lemma lstrip_id cs : Forall (fun c => is_py_space c = false) cs -> lstrip cs = cs.
Proof. destruct cs as [|c cs]; [done|]. intros Hc%Forall_cons. simpl. by rewrite (proj1 Hc). Qed.

Lemma strip_id cs : Forall (fun c => is_py_space c = false) cs -> strip cs = cs.
Proof.
  intros Hc. unfold strip. rewrite (lstrip_id cs Hc), (lstrip_id (reverse cs)).
  - apply reverse_involutive.
  - by apply Forall_reverse.
Qed.

Lemma uint_head (u : uint) : u <> Nil ->
  exists c cs, list_ascii_of_string (NilEmpty.string_of_uint u) = c :: cs
    /\ Ascii.eqb c "-" = false /\ Ascii.eqb c "+" = false.
Proof. destruct u; [done|..]; intros _; eexists _, _; split_and!; reflexivity. Qed.

Lemma py_int_str_nat n : py_int (py_str_nat n) = Some (Z.of_nat n).
Proof.
  unfold py_int, py_str_nat.
  rewrite strip_id by (eapply Forall_impl; [apply uint_digits|apply digit_char_not_space]).
  destruct (uint_head _ (to_uint_nonnil n)) as (c & cs & Ec & Hm & Hp).
  rewrite Ec, Hm, Hp, <- Ec. change 0%Z with (Z.of_nat 0).
  rewrite parse_digits_uint by apply to_uint_nonnil. f_equal. f_equal.
  apply DecimalNat.Unsigned.of_to.
Qed.

Lemma py_int_str_Z z : py_int (py_str_Z z) = Some z.
Proof.
  unfold py_str_Z. destruct (Z.ltb_spec z 0).
  - unfold py_int. cbn [list_ascii_of_string].
    rewrite strip_id.
    + cbn [Ascii.eqb]. simpl (Ascii.eqb "-" "-"). cbv iota.
      pose proof (py_int_str_nat (Z.to_nat (- z))) as H'.
      unfold py_int, py_str_nat in H'.
      rewrite strip_id in H' by (eapply Forall_impl; [apply uint_digits|apply digit_char_not_space]).
      destruct (uint_head _ (to_uint_nonnil (Z.to_nat (- z)))) as (c & cs & Ec & Hm & Hp).
      rewrite Ec, Hm, Hp, <- Ec in H'. unfold py_str_nat. rewrite H'. simpl. f_equal. lia.
    + constructor; [reflexivity|].
      eapply Forall_impl; [apply uint_digits|apply digit_char_not_space].
  - rewrite py_int_str_nat. f_equal. lia.
Qed.


(** ** What [__str__] determines *)

(** A character that is not one of the delimiters [__str__] writes. *)
Definition tok_char (c : ascii) : bool :=
  negb (Ascii.eqb c ",") && negb (Ascii.eqb c ")") && negb (Ascii.eqb c "(").

Definition tok_free (s : string) : Prop := Forall (fun c => tok_char c = true) (list_ascii_of_string s).

Lemma list_ascii_app s1 s2 :
  list_ascii_of_string (s1 ++ s2) = list_ascii_of_string s1 ++ list_ascii_of_string s2.
Proof. induction s1 as [|c s1 IH]; simpl; [done|by rewrite IH]. Qed.

Lemma list_ascii_inj s1 s2 : list_ascii_of_string s1 = list_ascii_of_string s2 -> s1 = s2.
Proof.
  intros E. by rewrite <- (string_of_list_ascii_of_string s1), E, string_of_list_ascii_of_string.
Qed.

(** Two strings cut at the first delimiter they contain. *)
Lemma app_delim (l1 l2 r1 r2 : list ascii) c1 c2 :
  Forall (fun c => tok_char c = true) l1 -> Forall (fun c => tok_char c = true) l2 ->
  tok_char c1 = false -> tok_char c2 = false ->
  l1 ++ c1 :: r1 = l2 ++ c2 :: r2 -> l1 = l2 /\ c1 = c2 /\ r1 = r2.
Proof.
  revert l2. induction l1 as [|a l1 IH]; intros [|b l2] H1 H2 Hc1 Hc2; simpl.
  - by intros [= -> ->].
  - intros [= -> _]. apply Forall_cons in H2 as [H2 _]. congruence.
  - intros [= <- _]. apply Forall_cons in H1 as [H1 _]. congruence.
  - intros [= -> E]. apply Forall_cons in H1 as [_ H1]. apply Forall_cons in H2 as [_ H2].
    destruct (IH l2 H1 H2 Hc1 Hc2 E) as (-> & -> & ->). done.
Qed.

(** Cuts two delimited strings [E] at their first delimiter. *)
Ltac cut_delim E T1 T2 :=
  let D := fresh "D" in
  pose proof (fun H1 H2 => app_delim _ _ _ _ _ _ T1 T2 H1 H2 E) as D;
  specialize (D eq_refl eq_refl).

Lemma py_str_Z_tok_free z : tok_free (py_str_Z z).
Proof.
  assert (Hd : forall n, tok_free (py_str_nat n)).
  { intros n. eapply Forall_impl; [apply uint_digits|]. intros c Hc.
    unfold tok_char. destruct (Ascii.eqb_spec c ","), (Ascii.eqb_spec c ")"), (Ascii.eqb_spec c "(");
      subst; try reflexivity; vm_compute in Hc; lia. }
  unfold py_str_Z. destruct (z <? 0)%Z; [constructor; [reflexivity|apply Hd]|apply Hd].
Qed.

Lemma py_str_Z_inj z1 z2 : py_str_Z z1 = py_str_Z z2 -> z1 = z2.
Proof. intros E. pose proof (py_int_str_Z z1). rewrite E, py_int_str_Z in H. congruence. Qed.

Lemma py_join_chars x x' xs r :
  list_ascii_of_string (py_join ", " (x :: x' :: xs)) ++ r
  = list_ascii_of_string x ++ ","%char :: " "%char :: (list_ascii_of_string (py_join ", " (x' :: xs)) ++ r).
Proof. cbn [py_join]. rewrite !list_ascii_app, <- app_assoc. reflexivity. Qed.

(** [", ".join(xs) + ")"] determines [xs] when no item contains a
    delimiter. *)
Lemma py_join_inj xs ys r1 r2 :
  xs <> [] -> ys <> [] -> Forall tok_free xs -> Forall tok_free ys ->
  list_ascii_of_string (py_join ", " xs) ++ ")"%char :: r1
  = list_ascii_of_string (py_join ", " ys) ++ ")"%char :: r2 -> xs = ys /\ r1 = r2.
Proof.
  revert ys. induction xs as [|x xs IH]; intros ys Hx Hy Fx Fy E; [done|].
  destruct ys as [|y ys]; [done|]. apply Forall_cons in Fx as [Tx Fx]. apply Forall_cons in Fy as [Ty Fy].
  destruct xs as [|x' xs], ys as [|y' ys].
  - cut_delim E Tx Ty. destruct D as (Exy & _ & ->). by rewrite (list_ascii_inj _ _ Exy).
  - rewrite py_join_chars in E. cut_delim E Tx Ty. by destruct D as (_ & ? & _).
  - rewrite py_join_chars in E. cut_delim E Tx Ty. by destruct D as (_ & ? & _).
  - rewrite !py_join_chars in E. cut_delim E Tx Ty. destruct D as (Exy & _ & [= E']).
    destruct (IH (y' :: ys) ltac:(done) ltac:(done) Fx Fy E') as ([= -> ->] & ->).
    by rewrite (list_ascii_inj _ _ Exy).
Qed.

Definition is_pyint (x : pynum) : Prop := match x with PyInt _ => True | PyFloat _ => False end.

Lemma pynum_str_int_inj float_repr l1 l2 :
  Forall is_pyint l1 -> Forall is_pyint l2 ->
  pynum_str float_repr <$> l1 = pynum_str float_repr <$> l2 -> l1 = l2.
Proof.
  revert l2. induction l1 as [|x1 l1 IH]; intros [|x2 l2] F1 F2 E; try done.
  apply Forall_cons in F1 as [I1 F1]. apply Forall_cons in F2 as [I2 F2].
  destruct x1 as [z1|], x2 as [z2|]; try contradiction.
  injection E as E1 E2. by rewrite (py_str_Z_inj _ _ E1), (IH l2 F1 F2 E2).
Qed.

Lemma class_name_tok_free c : tok_free (class_name c).
Proof. destruct c; repeat constructor. Qed.

Lemma generator_str_chars float_repr c p :
  list_ascii_of_string (generator_str float_repr c p)
  = list_ascii_of_string (class_name c) ++ "("%char ::
      (list_ascii_of_string (py_join ", " (pynum_str float_repr <$> gen_param_list p)) ++ [")"%char]).
Proof. unfold generator_str. by rewrite !list_ascii_app. Qed.

(** For generators built from int parameters, equal [__str__] means
    equal class names and parameters. *)
Lemma generator_str_injective float_repr c1 c2 p1 p2 :
  Forall is_pyint (gen_param_list p1) -> Forall is_pyint (gen_param_list p2) ->
  generator_str float_repr c1 p1 = generator_str float_repr c2 p2 ->
  class_name c1 = class_name c2 /\ p1 = p2.
Proof.
  intros F1 F2 E. apply (f_equal list_ascii_of_string) in E. rewrite !generator_str_chars in E.
  pose proof (class_name_tok_free c1) as T1. pose proof (class_name_tok_free c2) as T2.
  cut_delim E T1 T2. destruct D as (Ec & _ & E').
  split; [by apply list_ascii_inj|].
  assert (Ht : forall p, Forall is_pyint (gen_param_list p) ->
                 Forall tok_free (pynum_str float_repr <$> gen_param_list p)).
  { intros p F. apply Forall_fmap. eapply Forall_impl; [exact F|].
    intros [z|] []. apply py_str_Z_tok_free. }
  destruct (py_join_inj (pynum_str float_repr <$> gen_param_list p1)
    (pynum_str float_repr <$> gen_param_list p2) [] [] ltac:(by destruct p1) ltac:(by destruct p2)
    (Ht p1 F1) (Ht p2 F2) E') as (Ep & _).
  apply pynum_str_int_inj in Ep; [|done|done].
  destruct p1, p2. cbn in Ep. by simplify_eq.
Qed.

(** C25 What [__str__] (lines 23-24) shows of a generator built from int
    parameters (as the command line builds them): two such generators
    print alike exactly when their class names and their seven
    parameters are equal; so the periods of a Bessel generator are not
    shown, and two Bessel generators that differ only in their periods
    print alike. *)
Theorem generator_str_spec float_repr c1 c2 p1 p2 :
  Forall is_pyint (gen_param_list p1) -> Forall is_pyint (gen_param_list p2) ->
  (generator_str float_repr c1 p1 = generator_str float_repr c2 p2
   <-> class_name c1 = class_name c2 /\ p1 = p2)
  /\ forall bx by' bx' by'',
     generator_str float_repr (BesselClass bx by') p1
     = generator_str float_repr (BesselClass bx' by'') p1.
Proof.
  intros F1 F2. split; [split|done].
  - by apply generator_str_injective.
  - intros [Ec <-]. unfold generator_str. by rewrite Ec.
Qed.

(** ** [KBinsDiscretizerQuantizer.__str__] *)

Definition encode_repr (e : encode) : string :=
  match e with
  | Onehot => "'onehot'"
  | OnehotDense => "'onehot-dense'"
  | Ordinal => "'ordinal'"
  end.

Definition strategy_repr (s : strategy) : string :=
  match s with
  | Uniform => "'uniform'"
  | Quantile => "'quantile'"
  | KMeansStrategy => "'kmeans'"
  end.

(** [repr] of a [KBinsDiscretizer]: sklearn prints the parameters that
    differ from their defaults, sorted by name, on one line while it
    fits in 80 characters (always, for the three parameters here and
    fewer than 14 digits of [n_bins]). *)
Definition kbins_repr (d : kbins) : string :=
  "KBinsDiscretizer(" ++
  py_join ", "
    ((match kb_encode d with Onehot => [] | e => [("encode=" ++ encode_repr e)%string] end)
     ++ (if Nat.eqb (kb_n_bins d) 5 then [] else [("n_bins=" ++ py_str_nat (kb_n_bins d))%string])
     ++ (match kb_strategy d with Quantile => [] | st => [("strategy=" ++ strategy_repr st)%string] end))
  ++ ")".

(** [KBinsDiscretizerQuantizer.__str__] (lines 36-37):
    [str({"underlying": self.underlying, "shape": self.surfaces.shape})],
    for a discretizer printed by [repr_D]. *)
Definition kbins_quantizer_str {D} (repr_D : D -> string) (q : @kbins_quantizer D) : string :=
  "{'underlying': " ++ repr_D (underlying q) ++ ", 'shape': "
  ++ py_tuple_repr (py_str_nat <$> shape (q_surfaces q)) ++ "}".

(** ** The demo of quantization.py (lines 40-51) *)

(** What a demo prints: an array (its text is numpy's or torch's) or a
    string. *)
Inductive printed :=
| PArray (a : ndarray)
| PText (s : string).

(** The names quantization.py binds (lines 1-21): its imports and its
    two classes.  [torch] is not among them. *)
Definition quantization_globals : list string :=
  ["ABC"; "abstractstaticmethod"; "KBinsDiscretizer"; "Configuration"; "Quantizer";
   "KBinsDiscretizerQuantizer"].

(** [torch.rand( *size)] on a random state. *)
Definition torch_rand (Seed : Type) : Type := list nat -> Seed -> ndarray * Seed.

(** The value of the global [torch] in a module binding [globals], for
    a [torch] implementation [impl]. *)
Definition module_torch {Seed} (globals : list string) (impl : torch_rand Seed) :
    option (torch_rand Seed) :=
  if existsb (String.eqb "torch") globals then Some impl else None.

Definition no_kwargs : kwargs := {| kw_n_bins := None; kw_encode := None; kw_strategy := None |}.

Section QuantizationDemo.
Context `{KMeans} {Seed : Type}.

(** Lines 40-51: a name that is not bound raises [NameError] before
    anything is printed. *)
Definition quantization_main (torch : option (torch_rand Seed)) (s : Seed) :
    list printed * option pyexc :=
  match torch with
  | None => ([], Some NameError)
  | Some rand =>
      let '(tensors, _) := rand [10; 4; 4] s in
      let out1 := [PArray tensors] in
      match kbins_quantizer_init (D := kbins) no_kwargs (Some tensors) with
      | Err e => (out1, Some e)
      | Ok q =>
          let out2 := out1 ++ [PText (kbins_quantizer_str kbins_repr q)] in
          match np_getitem tensors 0 with
          | Err e => (out2, Some e)
          | Ok t0 =>
              match kbins_quantizer_call q t0 with
              | Err e => (out2, Some e)
              | Ok z => (out2 ++ [PArray z], None)
              end
          end
      end
  end.
End QuantizationDemo.

Lemma kbins_quantizer_init_underlying `{KMeans} kw s q :
  kbins_quantizer_init (D := kbins) kw (Some s) = Ok q ->
  kb_n_bins (underlying q) = kb_n_bins (KBinsDiscretizer (set_default_encode kw))
  /\ kb_encode (underlying q) = kb_encode (KBinsDiscretizer (set_default_encode kw))
  /\ kb_strategy (underlying q) = kb_strategy (KBinsDiscretizer (set_default_encode kw)).
Proof.
  unfold kbins_quantizer_init. destruct (shape s) as [|n rest]; [done|].
  destruct (reshape_infer s n) as [X|e]; res_simpl; [|done].
  cbn [disc_fit_transform disc_new kbins_discretizer].
  destruct (kbins_fit _ _) as [d'|e] eqn:Hfit; res_simpl; [|done].
  destruct (kbins_transform d' _) as [Y|e]; res_simpl; [|done]. cbn [fst snd].
  destruct (reshape_out Y _) as [out|e]; res_simpl; [|done]. intros [= <-]. cbn [underlying].
  apply kbins_fit_Ok_inv in Hfit as (row & rest' & _ & _ & _ & ->). done.
Qed.

Lemma kbins_repr_fields d1 d2 :
  kb_n_bins d1 = kb_n_bins d2 -> kb_encode d1 = kb_encode d2 -> kb_strategy d1 = kb_strategy d2 ->
  kbins_repr d1 = kbins_repr d2.
Proof. intros E1 E2 E3. unfold kbins_repr. by rewrite E1, E2, E3. Qed.

Section QuantizationDemoProofs.
Context `{KMeans} {Seed : Type}.

(** C24 The demo of quantization.py cannot run: the module never
    imports [torch], so whatever [torch] is installed, [torch.rand]
    raises [NameError] before anything is printed.  With [torch]
    bound, a batch of shape [(10, 4, 4)] would be printed, then the
    quantizer as
    [{'underlying': KBinsDiscretizer(encode='ordinal'), 'shape': (10, 4, 4)}],
    then the quantized first surface, of shape [(4, 4)]. *)
Theorem quantization_main_behaviour (impl : torch_rand Seed) s t s' :
  quantization_main (module_torch quantization_globals impl) s = ([], Some NameError)
  /\ (impl [10; 4; 4] s = (t, s') -> shape t = [10; 4; 4] -> List.length (elems t) = 160 ->
      exists z, quantization_main (Some impl) s
        = ([PArray t;
            PText "{'underlying': KBinsDiscretizer(encode='ordinal'), 'shape': (10, 4, 4)}";
            PArray z], None)
        /\ shape z = [4; 4]).
Proof.
  split; [reflexivity|]. intros Hr Hs Hl.
  destruct (kbins_quantizer_init_Ok (D := kbins) no_kwargs t 10 [4; 4])
    as (q & Hq & Hsh & Ho & Hf & Hord); [reflexivity|done|lia|cbn; lia|by rewrite Hs, Hl|].
  destruct (kbins_quantizer_call_Ok q (mkArr [4; 4] (take 16 (elems t))) 16 Hord Hf)
    as (z & Hz & Hzs); [by rewrite Ho|by rewrite Ho|simpl; rewrite length_take; lia|].
  destruct (kbins_quantizer_init_underlying _ _ _ Hq) as (E1 & E2 & E3).
  assert (Hstr : kbins_quantizer_str kbins_repr q
                 = "{'underlying': KBinsDiscretizer(encode='ordinal'), 'shape': (10, 4, 4)}").
  { unfold kbins_quantizer_str. rewrite Hsh, Hs, (kbins_repr_fields _ _ E1 E2 E3). reflexivity. }
  exists z. split; [|by rewrite Hzs, Ho].
  unfold quantization_main. rewrite Hr, Hq. unfold np_getitem. rewrite Hs.
  cbn -[kbins_quantizer_call kbins_quantizer_str]. rewrite ?drop_0. by rewrite Hz, Hstr.
Qed.
End QuantizationDemoProofs.

(** ** The demo of generators.py (lines 172-181) *)

(** [BesselNonGaussianSurfaceGenerator(128, 1, 0, 3, 16, 16, 0.5, 4000, 4000)]. *)
Definition demo_bessel_config : bessel_config := {|
  base := {| n_points := 128; rms := 1; skewness := 0; kurtosis := 3;
             corlength_x := 16; corlength_y := 16; alpha := 0.5 |};
  beta_x := 4000; beta_y := 4000 |}.

Section GeneratorDemo.
Context {Seed : Type}.
Context (rand : nat -> Seed -> list (list R) * Seed).
Context (pearson3_draw : R -> R -> R -> nat -> Seed -> list (list R) * Seed).
Context `{!ArgSort nan_le}.

(** [for surface in g(1): as_grayscale_image(surface)] from numpy's
    random state [s]: the surfaces shown, the exception that ends the
    loop, and the random state after it. *)
Definition show_one (fuel : nat) (g : surface_generator) (s : Seed) :
    option (gen_run (list (list (option R))) * Seed) :=
  match collect (surface_gen rand pearson3_draw) fuel (PInt 1) (gen_init g s) with
  | None => None
  | Some (Ok ss, m) => Some ((ss, None), rng m)
  | Some (Err e, m) => Some (([], Some e), rng m)
  end.

(** Lines 172-181: a [NonGaussianSurfaceGenerator()], then the Bessel
    generator, each showing one surface; the second draws from the
    random state the first left. *)
Definition generators_main (fuel : nat) (s : Seed) : option (gen_run (list (list (option R)))) :=
  match show_one fuel (NonGaussian default_config) s with
  | None => None
  | Some ((shown, Some e), _) => Some (shown, Some e)
  | Some ((shown, None), s1) =>
      match show_one fuel (BesselNonGaussian demo_bessel_config) s1 with
      | None => None
      | Some ((shown', err), _) => Some (shown ++ shown', err)
      end
  end.
End GeneratorDemo.

Lemma demo_bessel_config_valid : config_error (BesselNonGaussian demo_bessel_config) = None.
Proof. unfold config_error. simpl. decide_reals. reflexivity. Qed.

Section GeneratorDemoProofs.
Context {Seed : Type}.
Context (rand : nat -> Seed -> list (list R) * Seed).
Context (pearson3_draw : R -> R -> R -> nat -> Seed -> list (list R) * Seed).
Context `{!ArgSort nan_le}.
Hypothesis pearson3_shape :
  forall skew loc scale n s, has_shape n n (pearson3_draw skew loc scale n s).1.

Lemma show_one_valid fuel g s :
  config_error g = None -> (1 < fuel)%nat ->
  exists a s', show_one rand pearson3_draw fuel g s = Some (([a], None), s')
    /\ has_shape (grid_size g) (grid_size g) a.
Proof.
  intros Hg Hf.
  destruct (collect_valid rand pearson3_draw pearson3_shape g 1 fuel (gen_init g s))
    as (ss & m & E & L & F); [done|done|simpl; lia|].
  unfold show_one. rewrite E. destruct ss as [|a [|]]; [done| |done].
  exists a, (rng m). split; [done|]. by apply Forall_cons in F as [? _].
Qed.

(** C20 The demo of generators.py runs to its end: it shows exactly two
    surfaces of [128 x 128] points, one from [NonGaussianSurfaceGenerator()]
    and one from the Bessel generator of line 178 (whose parameters are
    valid), the second drawn from the random state the first left. *)
Theorem generators_main_shows_two fuel s :
  (1 < fuel)%nat ->
  exists a b s1 s2, show_one rand pearson3_draw fuel (NonGaussian default_config) s = Some (([a], None), s1)
    /\ show_one rand pearson3_draw fuel (BesselNonGaussian demo_bessel_config) s1 = Some (([b], None), s2)
    /\ generators_main rand pearson3_draw fuel s = Some ([a; b], None)
    /\ has_shape 128 128 a /\ has_shape 128 128 b.
Proof.
  intros Hf.
  destruct (show_one_valid fuel (NonGaussian default_config) s default_config_valid Hf)
    as (a & s1 & Ea & Ha).
  destruct (show_one_valid fuel (BesselNonGaussian demo_bessel_config) s1 demo_bessel_config_valid Hf)
    as (b & s2 & Eb & Hb).
  exists a, b, s1, s2. split_and!; [done|done| |done|done].
  unfold generators_main. by rewrite Ea, Eb.
Qed.
End GeneratorDemoProofs.

(** ** Witnesses *)

(** The parameters the command line passes by default, as Python ints. *)
Definition cli_default_params : gen_params := {|
  gp_n_points := PyInt 128; gp_rms := PyInt 1; gp_skewness := PyInt 0; gp_kurtosis := PyInt 0;
  gp_corlength_x := PyInt 4; gp_corlength_y := PyInt 4; gp_alpha := PyInt 1 |}.

Lemma generator_str_spec_witness :
  (generator_str (fun _ => "") NonGaussianClass cli_default_params
   = generator_str (fun _ => "") (BesselClass (PyInt 1) (PyInt 1)) cli_default_params
   <-> class_name NonGaussianClass = class_name (BesselClass (PyInt 1) (PyInt 1))
       /\ cli_default_params = cli_default_params)
  /\ forall bx by' bx' by'',
     generator_str (fun _ => "") (BesselClass bx by') cli_default_params
     = generator_str (fun _ => "") (BesselClass bx' by'') cli_default_params.
Proof. apply generator_str_spec; repeat constructor. Defined.

(** A [torch.rand] that fills the array with [0.5]. *)
Definition torch_half : torch_rand unit := fun sh s => (mkArr sh (replicate (size sh) (1 / 2)%R), s).

#[local] Instance kmeans_unused : KMeans := fun _ init => init.

Lemma quantization_main_behaviour_witness :
  quantization_main (module_torch quantization_globals torch_half) tt = ([], Some NameError)
  /\ exists z, quantization_main (Some torch_half) tt
       = ([PArray (mkArr [10; 4; 4] (replicate 160 (1 / 2)%R));
           PText "{'underlying': KBinsDiscretizer(encode='ordinal'), 'shape': (10, 4, 4)}";
           PArray z], None)
       /\ shape z = [4; 4].
Proof.
  destruct (quantization_main_behaviour torch_half tt (mkArr [10; 4; 4] (replicate 160 (1 / 2)%R)) tt)
    as [H1 H2].
  split; [exact H1|]. apply H2; [reflexivity|reflexivity|apply length_replicate].
Defined.

Lemma generators_main_shows_two_witness :
  exists a b s1 s2,
    show_one rand_half pearson3_loc 2 (NonGaussian default_config) 0%nat = Some (([a], None), s1)
    /\ show_one rand_half pearson3_loc 2 (BesselNonGaussian demo_bessel_config) s1 = Some (([b], None), s2)
    /\ generators_main rand_half pearson3_loc 2 0%nat = Some ([a; b], None)
    /\ has_shape 128 128 a /\ has_shape 128 128 b.
Proof. apply (generators_main_shows_two rand_half pearson3_loc pearson3_loc_shape). lia. Defined.

(** [str] of the quantizer in a two-dimensional shape, and of a tuple
    of one item. *)
Example py_tuple_repr_cases :
  py_tuple_repr (py_str_nat <$> [10; 4; 4]) = "(10, 4, 4)" /\ py_tuple_repr [py_str_nat 7] = "(7,)"
  /\ py_tuple_repr [] = "()".
Proof. split_and!; reflexivity. Qed.
